(** * Device server controller of scrcpy (app/src/server.c)

    A shallow embedding of the host-side controller: the argument vector
    built by [execute_server], the forward-tunnel connection loop, the
    socket establishment of [sc_server_connect_to], the TCP/IP switch and
    the worker [run_server], followed by the properties proved about them.

    External collaborators (adb wrappers, sockets, the process observer,
    the allocator) are not part of the modelled file.  Each call to one of
    them appends an event to a trace and takes its answer from a [world],
    a family of answers indexed by a logical clock, so that every theorem
    quantifies over all behaviours of the collaborators. *)

From Stdlib Require Import ZArith NArith List String Ascii Bool Lia.
From Stdlib Require Import DecimalString DecimalN DecimalZ DecimalPos.
From Stdlib Require Import Permutation.
From Stdlib.Strings Require Import Byte.
Import ListNotations.

Local Open Scope list_scope.
Local Open Scope string_scope.

(** ** printf conversions used by the file *)

Module Fmt.

(** One lower-case hexadecimal digit, as printed by the [x] conversion. *)
Definition hex_digit (d : N) : ascii :=
  match d with
  | 0 => "0" | 1 => "1" | 2 => "2" | 3 => "3" | 4 => "4"
  | 5 => "5" | 6 => "6" | 7 => "7" | 8 => "8" | 9 => "9"
  | 10 => "a" | 11 => "b" | 12 => "c" | 13 => "d" | 14 => "e"
  | _ => "f"
  end%N%char.

(** Digits of [n] in base 16, most significant first, without leading
    zeros; [fuel] bounds the number of digits produced. *)
Fixpoint hex_loop (fuel : nat) (n : N) (acc : string) : string :=
  match fuel with
  | O => acc
  | S fuel' =>
      let acc' := String (hex_digit (n mod 16)) acc in
      if (n / 16 =? 0)%N then acc' else hex_loop fuel' (n / 16) acc'
  end.

(** The [%x] conversion. *)
Definition fmt_x (n : N) : string := hex_loop (S (N.to_nat (N.log2 n))) n "".

Fixpoint zeros (k : nat) : string :=
  match k with
  | O => ""
  | S k' => String "0" (zeros k')
  end.

(** The [0] flag with a minimum field width: pad on the left with zeros,
    never truncate. *)
Definition pad0 (width : nat) (s : string) : string :=
  zeros (width - String.length s) ++ s.

(** The [%08x] conversion. *)
Definition fmt_08x (n : N) : string := pad0 8 (fmt_x n).

(** The [%u] conversions ([PRIu16], [PRIu32]). *)
Definition fmt_u (n : N) : string := NilZero.string_of_uint (N.to_uint n).

(** The [%i] conversion ([PRIi8]). *)
Definition fmt_i (z : Z) : string := NilZero.string_of_int (Z.to_int z).





Fixpoint string_forallb (f : ascii -> bool) (s : string) : bool :=
  match s with
  | EmptyString => true
  | String c s' => f c && string_forallb f s'
  end.

End Fmt.

(** ** Data model *)

Local Open Scope string_scope.
Local Open Scope list_scope.

(** [sc_socket]: [None] is [SC_SOCKET_NONE]. *)
Definition sc_socket := option Z.
Definition SC_SOCKET_NONE : sc_socket := None.

(** [sc_pid]: [None] is [SC_PROCESS_NONE]. *)
Definition sc_pid := option Z.
Definition SC_PROCESS_NONE : sc_pid := None.

Inductive sc_log_level :=
| SC_LOG_LEVEL_VERBOSE | SC_LOG_LEVEL_DEBUG | SC_LOG_LEVEL_INFO
| SC_LOG_LEVEL_WARN | SC_LOG_LEVEL_ERROR.

Inductive sc_codec :=
| SC_CODEC_H264 | SC_CODEC_H265 | SC_CODEC_AV1
| SC_CODEC_OPUS | SC_CODEC_AAC | SC_CODEC_RAW.

Inductive sc_video_source := SC_VIDEO_SOURCE_DISPLAY | SC_VIDEO_SOURCE_CAMERA.
Inductive sc_audio_source := SC_AUDIO_SOURCE_OUTPUT | SC_AUDIO_SOURCE_MIC.

Inductive sc_camera_position :=
| SC_CAMERA_POSITION_ALL | SC_CAMERA_POSITION_FRONT
| SC_CAMERA_POSITION_BACK | SC_CAMERA_POSITION_EXTERNAL.

(** Flags of the adb wrappers; a call passes a set of them ([[]] is [0]). *)
Inductive adb_flag :=
| SC_ADB_NO_STDOUT | SC_ADB_NO_STDERR | SC_ADB_NO_LOGERR | SC_ADB_SILENT.

(** [struct sc_server_params], the fields read by the file.  Unsigned
    fields are in [N], the signed [int8_t] orientation lock in [Z]; a
    [char *] that may be [NULL] is an [option string]. *)
Record sc_server_params := {
  scid : N;
  req_serial : option string;
  log_level : sc_log_level;
  video_codec : sc_codec;
  audio_codec : sc_codec;
  video_source : sc_video_source;
  audio_source : sc_audio_source;
  crop : option string;
  video_codec_options : option string;
  audio_codec_options : option string;
  video_encoder : option string;
  audio_encoder : option string;
  camera_id : option string;
  camera_position : sc_camera_position;
  port_range : N * N;
  tunnel_host : N;
  tunnel_port : N;
  max_size : N;
  video_bit_rate : N;
  audio_bit_rate : N;
  max_fps : N;
  lock_video_orientation : Z;
  control : bool;
  display_id : N;
  video : bool;
  audio : bool;
  show_touches : bool;
  stay_awake : bool;
  force_adb_forward : bool;
  power_off_on_close : bool;
  clipboard_autosync : bool;
  downsize_on_error : bool;
  tcpip : bool;
  tcpip_dst : option string;
  select_usb : bool;
  select_tcpip : bool;
  cleanup : bool;
  power_on : bool;
  list_encoders : bool;
  list_displays : bool;
  list_cameras : bool;
  kill_adb_on_close : bool
}.

(** [struct sc_adb_tunnel]. *)
Record sc_adb_tunnel := {
  enabled : bool;
  forward : bool;
  server_socket : sc_socket;
  local_port : N
}.

(** [struct sc_adb_device_selector]. *)
Inductive sc_adb_device_selector :=
| SC_ADB_DEVICE_SELECT_ALL
| SC_ADB_DEVICE_SELECT_SERIAL (serial : string)
| SC_ADB_DEVICE_SELECT_USB
| SC_ADB_DEVICE_SELECT_TCPIP.

Inductive sc_adb_device_type := SC_ADB_DEVICE_TYPE_USB | SC_ADB_DEVICE_TYPE_TCPIP.

(** The three listener callbacks of [struct sc_server_callbacks]. *)
Inductive callback := on_connection_failed | on_connected | on_disconnected.

(** One call that leaves the file, with its arguments and, where a later
    property needs it, its answer: the block of an allocation, the socket
    of [net_socket] or [net_accept_intr], the success of a connect, of a
    push, of the opening of the tunnel or of the start of the observer,
    the process spawned, the count returned by a receive, the value of a
    device property or address, whether the path is a regular file,
    whether the worker is interrupted, and whether a sleep ended without
    a stop. *)
Inductive event :=
| EvAsprintf (r : option (nat * string))   (* asprintf/strdup: new block or failure *)
| EvFree (p : nat)
| EvFreeNotAllocated
| EvAdbStartServer
| EvAdbKillServer (flags : list adb_flag)
| EvAdbSelectDevice (selector : sc_adb_device_selector)
| EvAdbDeviceGetType (serial : string)
| EvAdbPush (serial local_ remote : string) (ok : bool)
| EvAdbGetDeviceIp (serial : string) (r : option string)
| EvAdbGetprop (serial prop : string) (flags : list adb_flag)
    (r : option string)
| EvAdbTcpip (serial : string) (port : N) (flags : list adb_flag) (ok : bool)
| EvAdbDisconnect (ip_port : string) (flags : list adb_flag)
| EvAdbConnect (ip_port : string) (flags : list adb_flag) (ok : bool)
| EvAdbExecute (argv : list string) (pid : sc_pid)
| EvAdbTunnelOpen (serial : option string) (name : option string) (ok : bool)
| EvAdbTunnelClose (serial : option string) (name : option string)
| EvFileIsRegular (path : string) (ok : bool)
| EvProcessWait (pid : sc_pid)
| EvProcessClose (pid : sc_pid)
| EvProcessTerminate (pid : sc_pid)
| EvObserverInit (pid : sc_pid) (ok : bool)
| EvObserverTimedwait
| EvObserverJoin
| EvObserverDestroy
| EvNetSocket (r : sc_socket)
| EvNetConnect (s : sc_socket) (host port : N) (ok : bool)
| EvNetRecv (s : sc_socket) (len : nat) (r : Z)
| EvNetRecvAll (s : sc_socket) (len : nat) (r : Z)
| EvNetAccept (server : sc_socket) (r : sc_socket)
| EvNetClose (s : sc_socket)
| EvNetInterrupt (s : sc_socket)
| EvIntrIsInterrupted (r : bool)
| EvIntrInterrupt
| EvSleep (delay_ms : N) (ok : bool)
| EvWaitStopped
| EvCallback (cb : callback).

(** Everything outside [server.c].  First the answers of the
    collaborators, one family per answer type, indexed by the logical
    clock; then the process environment; then what headers and files that
    are not part of [server.c] declare: the version string and install
    prefix of the build, the size of the device name field ([server.h]),
    the loopback address ([util/net.h]), the "unlocked" value of the
    orientation lock ([options.h]), the integer parser of [util/str.c] and
    the transport inference of [adb/adb_device.c]. *)
Record world := {
  ask_bool : nat -> bool;
  ask_socket : nat -> sc_socket;
  ask_string : nat -> option string;
  ask_recv : nat -> option (list byte);
  ask_pid : nat -> sc_pid;
  ask_port : nat -> N;
  ask_exit : nat -> bool;
  adb_executable : string;
  env_ANDROID_SERIAL : option string;
  env_SCRCPY_SERVER_PATH : option string;
  SCRCPY_VERSION : string;
  PREFIX : string;
  SC_DEVICE_NAME_FIELD_LENGTH : nat;
  IPV4_LOCALHOST : N;
  SC_LOCK_VIDEO_ORIENTATION_UNLOCKED : Z;
  sc_str_parse_integer : string -> option Z;
  sc_adb_device_get_type : string -> sc_adb_device_type
}.

(** [struct sc_server], the fields written by the file. *)
Record sc_server := {
  params : sc_server_params;
  serial : option string;
  device_socket_name : option string;
  tunnel : sc_adb_tunnel;
  video_socket : sc_socket;
  audio_socket : sc_socket;
  control_socket : sc_socket;
  info_device_name : list byte
}.

(** What other threads write: the interruption flag of [server->intr]
    and the process observer (attached, termination hook already run). *)
Record background := {
  interrupted : bool;
  observer_attached : bool;
  observer_fired : bool
}.

(** The state threaded through the worker: clock, allocator, controller
    and the part shared with the other threads. *)
Record state := {
  clock : nat;
  next_block : nat;
  server : sc_server;
  bg : background
}.

Definition set_clock (c : nat) (st : state) : state :=
  {| clock := c; next_block := next_block st;
     server := server st; bg := bg st |}.

Definition set_next_block (n : nat) (st : state) : state :=
  {| clock := clock st; next_block := n;
     server := server st; bg := bg st |}.

Definition set_server (f : sc_server -> sc_server) (st : state) : state :=
  {| clock := clock st; next_block := next_block st;
     server := f (server st); bg := bg st |}.

Definition set_bg (b : background) (st : state) : state :=
  {| clock := clock st; next_block := next_block st;
     server := server st; bg := b |}.

Definition set_interrupted (b : bool) (st : state) : state :=
  set_bg {| interrupted := b;
            observer_attached := observer_attached (bg st);
            observer_fired := observer_fired (bg st) |} st.

Definition set_observer (attached fired : bool) (st : state) : state :=
  set_bg {| interrupted := interrupted (bg st);
            observer_attached := attached;
            observer_fired := fired |} st.

Definition with_serial (s : option string) (srv : sc_server) : sc_server :=
  {| params := params srv; serial := s;
     device_socket_name := device_socket_name srv; tunnel := tunnel srv;
     video_socket := video_socket srv; audio_socket := audio_socket srv;
     control_socket := control_socket srv;
     info_device_name := info_device_name srv |}.

Definition with_device_socket_name (s : option string) (srv : sc_server)
  : sc_server :=
  {| params := params srv; serial := serial srv;
     device_socket_name := s; tunnel := tunnel srv;
     video_socket := video_socket srv; audio_socket := audio_socket srv;
     control_socket := control_socket srv;
     info_device_name := info_device_name srv |}.

Definition with_tunnel (t : sc_adb_tunnel) (srv : sc_server) : sc_server :=
  {| params := params srv; serial := serial srv;
     device_socket_name := device_socket_name srv; tunnel := t;
     video_socket := video_socket srv; audio_socket := audio_socket srv;
     control_socket := control_socket srv;
     info_device_name := info_device_name srv |}.

Definition with_sockets (v a c : sc_socket) (srv : sc_server) : sc_server :=
  {| params := params srv; serial := serial srv;
     device_socket_name := device_socket_name srv; tunnel := tunnel srv;
     video_socket := v; audio_socket := a; control_socket := c;
     info_device_name := info_device_name srv |}.

Definition with_device_name (n : list byte) (srv : sc_server) : sc_server :=
  {| params := params srv; serial := serial srv;
     device_socket_name := device_socket_name srv; tunnel := tunnel srv;
     video_socket := video_socket srv; audio_socket := audio_socket srv;
     control_socket := control_socket srv;
     info_device_name := n |}.

(** ** The monad of the worker

    A computation takes the state and answers a result, the new state and
    the events it emitted, in order. *)

Definition M (A : Type) : Type := state -> A * state * list event.

Definition ret {A} (a : A) : M A := fun st => (a, st, []).

Definition bind {A B} (m : M A) (k : A -> M B) : M B :=
  fun st =>
    let '(a, st1, out1) := m st in
    let '(b, st2, out2) := k a st1 in
    (b, st2, out1 ++ out2).

Definition result {A} (m : M A) (st : state) : A := fst (fst (m st)).
Definition final {A} (m : M A) (st : state) : state := snd (fst (m st)).
Definition events {A} (m : M A) (st : state) : list event := snd (m st).

Declare Scope worker_scope.
Delimit Scope worker_scope with worker.
Notation "x <- m ;; k" := (bind m (fun x => k))
  (at level 61, m at next level, right associativity) : worker_scope.
Notation "m ;; k" := (bind m (fun _ => k))
  (at level 61, right associativity) : worker_scope.
Local Open Scope worker_scope.

Definition get_state : M state := fun st => (st, st, []).

Definition modify (f : state -> state) : M unit := fun st => (tt, f st, []).

Definition emit (e : event) : M unit := fun st => (tt, st, [e]).

Definition get_server : M sc_server := st <- get_state ;; ret (server st).

Definition update_server (f : sc_server -> sc_server) : M unit :=
  modify (set_server f).

Definition when (c : bool) (m : M unit) : M unit := if c then m else ret tt.
#[local] Notation "s +++ t" := (String.append s t)
  (at level 60, right associativity).

Definition SC_DEVICE_SERVER_PATH : string := "/data/local/tmp/scrcpy-server.jar".
Definition SC_ADB_PORT_DEFAULT : N := 5555.
Definition SC_SOCKET_NAME_PREFIX : string := "scrcpy_".

(** What [%s] prints; a [NULL] argument prints as [(null)]. *)
Definition fmt_s (o : option string) : string :=
  match o with Some s => s | None => "(null)" end.

Definition is_some {A} (o : option A) : bool :=
  match o with Some _ => true | None => false end.

(** The value of a [char *] that the code asserts to be non-[NULL]. *)
Definition asserted (o : option string) : string :=
  match o with Some s => s | None => "" end.

Definition log_level_to_server_string (level : sc_log_level) : string :=
  match level with
  | SC_LOG_LEVEL_VERBOSE => "verbose"
  | SC_LOG_LEVEL_DEBUG => "debug"
  | SC_LOG_LEVEL_INFO => "info"
  | SC_LOG_LEVEL_WARN => "warn"
  | SC_LOG_LEVEL_ERROR => "error"
  end.

Definition sc_server_get_codec_name (codec : sc_codec) : option string :=
  match codec with
  | SC_CODEC_H264 => Some "h264"
  | SC_CODEC_H265 => Some "h265"
  | SC_CODEC_AV1 => Some "av1"
  | SC_CODEC_OPUS => Some "opus"
  | SC_CODEC_AAC => Some "aac"
  | SC_CODEC_RAW => Some "raw"
  end.

Definition sc_codec_eqb (a b : sc_codec) : bool :=
  match a, b with
  | SC_CODEC_H264, SC_CODEC_H264 | SC_CODEC_H265, SC_CODEC_H265
  | SC_CODEC_AV1, SC_CODEC_AV1 | SC_CODEC_OPUS, SC_CODEC_OPUS
  | SC_CODEC_AAC, SC_CODEC_AAC | SC_CODEC_RAW, SC_CODEC_RAW => true
  | _, _ => false
  end.

Definition is_display (s : sc_video_source) : bool :=
  match s with SC_VIDEO_SOURCE_DISPLAY => true | _ => false end.

Definition is_camera (s : sc_video_source) : bool :=
  match s with SC_VIDEO_SOURCE_CAMERA => true | _ => false end.

Definition is_output (s : sc_audio_source) : bool :=
  match s with SC_AUDIO_SOURCE_OUTPUT => true | _ => false end.

Definition is_all (p : sc_camera_position) : bool :=
  match p with SC_CAMERA_POSITION_ALL => true | _ => false end.

(** One slot of the [cmd] array of [execute_server]: a string literal or
    a string owned by somebody else, a block returned by [asprintf], or
    [NULL]. *)
Inductive cmd_entry :=
| Static (s : string)
| Allocated (p : nat) (s : string)
| Null.

(** The strings [sc_adb_execute] sees: the slots up to the first [NULL]. *)
Fixpoint argv_of (cmd : list cmd_entry) : list string :=
  match cmd with
  | [] => []
  | Static s :: rest => s :: argv_of rest
  | Allocated _ s :: rest => s :: argv_of rest
  | Null :: _ => []
  end.

(** The part of [execute_server] between [dyn_idx] and [end]: a step takes
    the array filled so far and answers [false] for [goto end]. *)
Definition X : Type := list cmd_entry -> M (bool * list cmd_entry).

Definition skipX : X := fun cmd => ret (true, cmd).

Definition seqX (a b : X) : X := fun cmd =>
  r <- a cmd ;;
  if fst r then b (snd r) else ret r.

Definition ifX (c : bool) (a : X) : X := if c then a else skipX.

Notation "a ;;; b" := (seqX a b) (at level 62, right associativity).

Section Controller.

(** The behaviour of the collaborators during the run, and the constants
    of the build. *)
Variable w : world.

(** *** Primitives *)

Definition sc_intr_interrupt : M unit :=
  emit EvIntrInterrupt ;;
  modify (set_interrupted true).

(** [sc_server_on_terminated]: the hook run by the process observer. *)
Definition sc_server_on_terminated : M unit :=
  sc_intr_interrupt ;;
  emit (EvCallback on_disconnected).

(** Modelled from the spec: the process observer of [util/process.h] is
    not part of [server.c].  It is "a background waiter associated with
    the process handle" that "invokes a terminated callback and then reaps
    the process".  Its thread is interleaved with the worker at the
    granularity of calls: before any call of the worker, an attached
    observer whose hook has not run yet may run it, when the world says
    the remote process has exited. *)
Definition observer_poll : M unit :=
  st <- get_state ;;
  if observer_attached (bg st) && negb (observer_fired (bg st)) && ask_exit w (clock st)
  then modify (set_observer true true) ;; sc_server_on_terminated
  else ret tt.

(** A call that leaves the file: the observer may run first, then the
    answer is read at the current clock and the clock advances. *)
Definition tick {A} (ask : world -> nat -> A) : M A :=
  observer_poll ;;
  st <- get_state ;;
  modify (set_clock (S (clock st))) ;;
  ret (ask w (clock st)).

Definition ext {A} (ask : world -> nat -> A) (ev : A -> event) : M A :=
  a <- tick ask ;;
  emit (ev a) ;;
  ret a.

Definition no_answer : world -> nat -> unit := fun _ _ => tt.

Definition call (e : event) : M unit := ext no_answer (fun _ => e).

(** The listener callbacks, called from the worker. *)
Definition cbs (cb : callback) : M unit := call (EvCallback cb).

(** [asprintf] and [strdup]: a fresh block holding [s], or failure. *)
Definition asprintf (s : string) : M (option nat) :=
  ok <- tick ask_bool ;;
  if ok
  then
    st <- get_state ;;
    let p := next_block st in
    modify (set_next_block (S p)) ;;
    emit (EvAsprintf (Some (p, s))) ;;
    ret (Some p)
  else emit (EvAsprintf None) ;; ret None.

Definition free (e : cmd_entry) : M unit :=
  match e with
  | Allocated p _ => call (EvFree p)
  | Null => ret tt                      (* free(NULL) does nothing *)
  | Static _ => call EvFreeNotAllocated
  end.

Fixpoint free_all (l : list cmd_entry) : M unit :=
  match l with
  | [] => ret tt
  | e :: rest => free e ;; free_all rest
  end.

Definition sc_adb_execute (cmd : list cmd_entry) : M sc_pid :=
  ext ask_pid (EvAdbExecute (argv_of cmd)).

(** *** [execute_server] *)

(** The macro [ADD_PARAM]. *)
Definition ADD_PARAM (s : string) : X := fun cmd =>
  r <- asprintf s ;;
  match r with
  | None => ret (false, cmd)
  | Some p => ret (true, cmd ++ [Allocated p s])
  end.

Definition execute_server_params (tunnel_forward : bool)
    (params : sc_server_params) : X :=
  ADD_PARAM ("scid=" +++ Fmt.fmt_08x (scid params)) ;;;
  ADD_PARAM ("log_level=" +++ log_level_to_server_string (log_level params)) ;;;
  ifX (negb (video params)) (ADD_PARAM "video=false") ;;;
  ifX (negb (video_bit_rate params =? 0)%N)
    (ADD_PARAM ("video_bit_rate=" +++ Fmt.fmt_u (video_bit_rate params))) ;;;
  ifX (negb (audio params)) (ADD_PARAM "audio=false") ;;;
  ifX (negb (audio_bit_rate params =? 0)%N)
    (ADD_PARAM ("audio_bit_rate=" +++ Fmt.fmt_u (audio_bit_rate params))) ;;;
  ifX (negb (sc_codec_eqb (video_codec params) SC_CODEC_H264))
    (ADD_PARAM ("video_codec=" +++
                fmt_s (sc_server_get_codec_name (video_codec params)))) ;;;
  ifX (negb (sc_codec_eqb (audio_codec params) SC_CODEC_OPUS))
    (ADD_PARAM ("audio_codec=" +++
                fmt_s (sc_server_get_codec_name (audio_codec params)))) ;;;
  ifX (negb (is_display (video_source params)))
    (ADD_PARAM "video_source=camera") ;;;
  ifX (negb (is_output (audio_source params)))
    (ADD_PARAM "audio_source=mic") ;;;
  ifX (negb (max_size params =? 0)%N)
    (ADD_PARAM ("max_size=" +++ Fmt.fmt_u (max_size params))) ;;;
  ifX (negb (max_fps params =? 0)%N)
    (ADD_PARAM ("max_fps=" +++ Fmt.fmt_u (max_fps params))) ;;;
  ifX (negb (lock_video_orientation params
             =? SC_LOCK_VIDEO_ORIENTATION_UNLOCKED w)%Z)
    (ADD_PARAM ("lock_video_orientation=" +++
                Fmt.fmt_i (lock_video_orientation params))) ;;;
  ifX tunnel_forward (ADD_PARAM "tunnel_forward=true") ;;;
  ifX (is_some (crop params)) (ADD_PARAM ("crop=" +++ fmt_s (crop params))) ;;;
  ifX (negb (control params)) (ADD_PARAM "control=false") ;;;
  ifX (is_display (video_source params) && negb (display_id params =? 0)%N)
    (ADD_PARAM ("display_id=" +++ Fmt.fmt_u (display_id params))) ;;;
  ifX (is_camera (video_source params) && is_some (camera_id params))
    (ADD_PARAM ("camera_id=" +++ fmt_s (camera_id params))) ;;;
  ifX (is_camera (video_source params) && negb (is_all (camera_position params)))
    (match camera_position params with
     | SC_CAMERA_POSITION_FRONT => ADD_PARAM "camera_position=front"
     | SC_CAMERA_POSITION_BACK => ADD_PARAM "camera_position=back"
     | SC_CAMERA_POSITION_EXTERNAL => ADD_PARAM "camera_position=external"
     | SC_CAMERA_POSITION_ALL => skipX
     end) ;;;
  ifX (show_touches params) (ADD_PARAM "show_touches=true") ;;;
  ifX (stay_awake params) (ADD_PARAM "stay_awake=true") ;;;
  ifX (is_some (video_codec_options params))
    (ADD_PARAM ("video_codec_options=" +++
                fmt_s (video_codec_options params))) ;;;
  ifX (is_some (audio_codec_options params))
    (ADD_PARAM ("audio_codec_options=" +++
                fmt_s (audio_codec_options params))) ;;;
  ifX (is_some (video_encoder params))
    (ADD_PARAM ("video_encoder=" +++ fmt_s (video_encoder params))) ;;;
  ifX (is_some (audio_encoder params))
    (ADD_PARAM ("audio_encoder=" +++ fmt_s (audio_encoder params))) ;;;
  ifX (power_off_on_close params) (ADD_PARAM "power_off_on_close=true") ;;;
  ifX (negb (clipboard_autosync params))
    (ADD_PARAM "clipboard_autosync=false") ;;;
  ifX (negb (downsize_on_error params))
    (ADD_PARAM "downsize_on_error=false") ;;;
  ifX (negb (cleanup params)) (ADD_PARAM "cleanup=false") ;;;
  ifX (negb (power_on params)) (ADD_PARAM "power_on=false") ;;;
  ifX (list_encoders params) (ADD_PARAM "list_encoders=true") ;;;
  ifX (list_displays params) (ADD_PARAM "list_displays=true") ;;;
  ifX (list_cameras params) (ADD_PARAM "list_cameras=true").

(** The fixed head of the array, [cmd[0 .. dyn_idx)].  [SERVER_DEBUGGER]
    is not defined in a normal build, so its slot is absent. *)
Definition execute_server_head (serial : option string) : list cmd_entry :=
  [ Static (adb_executable w);
    Static "-s";
    match serial with Some s => Static s | None => Null end;
    Static "shell";
    Static ("CLASSPATH=" +++ SC_DEVICE_SERVER_PATH);
    Static "app_process";
    Static "/";
    Static "com.genymobile.scrcpy.Server";
    Static (SCRCPY_VERSION w) ].

Definition execute_server (params : sc_server_params) : M sc_pid :=
  srv <- get_server ;;
  let cmd := execute_server_head (serial srv) in
  let dyn_idx := List.length cmd in
  r <- execute_server_params (forward (tunnel srv)) params cmd ;;
  if fst r
  then
    let cmd := snd r ++ [Null] in
    pid <- sc_adb_execute cmd ;;
    free_all (skipn dyn_idx cmd) ;;
    ret pid
  else
    free_all (skipn dyn_idx (snd r)) ;;
    ret SC_PROCESS_NONE.


(** *** Sockets, sleeping and the tunnel *)

Definition net_socket : M sc_socket := ext ask_socket EvNetSocket.

Definition net_close (s : sc_socket) : M bool :=
  ext ask_bool (fun _ => EvNetClose s).

Definition net_interrupt (s : sc_socket) : M unit := call (EvNetInterrupt s).

Definition net_connect_intr (s : sc_socket) (host port : N) : M bool :=
  ext ask_bool (EvNetConnect s host port).

Definition net_accept_intr (server_socket : sc_socket) : M sc_socket :=
  ext ask_socket (EvNetAccept server_socket).

(** The [ssize_t] returned by a receive of at most [len] bytes when the
    peer delivers [a]: [-1] on error, else the number of bytes stored. *)
Definition recv_count (len : nat) (a : option (list byte)) : Z :=
  match a with
  | None => -1
  | Some bs => Z.of_nat (Nat.min len (List.length bs))
  end.

(** The bytes stored in the buffer by that receive. *)
Definition recv_bytes (len : nat) (a : option (list byte)) : list byte :=
  match a with
  | None => []
  | Some bs => firstn len bs
  end.

Definition net_recv_intr (s : sc_socket) (len : nat) : M (Z * list byte) :=
  a <- ext ask_recv (fun a => EvNetRecv s len (recv_count len a)) ;;
  ret (recv_count len a, recv_bytes len a).

Definition net_recv_all_intr (s : sc_socket) (len : nat) : M (Z * list byte) :=
  a <- ext ask_recv (fun a => EvNetRecvAll s len (recv_count len a)) ;;
  ret (recv_count len a, recv_bytes len a).

(** [sc_intr_is_interrupted]: the flag is raised by the termination hook
    or by [sc_server_stop] on another thread (the answer of the world). *)
Definition sc_intr_is_interrupted : M bool :=
  stop <- tick ask_bool ;;
  when stop (modify (set_interrupted true)) ;;
  st <- get_state ;;
  emit (EvIntrIsInterrupted (interrupted (bg st))) ;;
  ret (interrupted (bg st)).

(** [sc_server_sleep]: waits on [cond_stopped] until the deadline and
    answers [true] when the controller was not stopped meanwhile.  The
    delay is kept in milliseconds. *)
Definition sc_server_sleep (delay_ms : N) : M bool :=
  ext ask_bool (EvSleep delay_ms).

(** Modelled from the spec: [sc_adb_tunnel_open] and [sc_adb_tunnel_close]
    live in [adb/adb_tunnel.c], which is not part of [server.c].  Opening
    "opens one of two channel types": reverse (preferred) with a host
    listener, or forward "when the reverse attempt fails" or when forced;
    [local_port] is the chosen port.  Closing "removes the mapping via the
    bridge, closes the host listener if any" and leaves the tunnel
    disabled. *)
Definition sc_adb_tunnel_open (force_adb_forward : bool) : M bool :=
  srv <- get_server ;;
  ok <- ext ask_bool
          (EvAdbTunnelOpen (serial srv) (device_socket_name srv)) ;;
  if negb ok then ret false
  else
    reverse_ok <- tick ask_bool ;;
    listener <- tick ask_socket ;;
    port <- tick ask_port ;;
    let fwd := force_adb_forward || negb reverse_ok in
    update_server (with_tunnel
      {| enabled := true; forward := fwd;
         server_socket := if fwd then SC_SOCKET_NONE else listener;
         local_port := port |}) ;;
    ret true.

Definition sc_adb_tunnel_close : M bool :=
  srv <- get_server ;;
  ok <- ext ask_bool
          (fun _ => EvAdbTunnelClose (serial srv) (device_socket_name srv)) ;;
  update_server (with_tunnel
    {| enabled := false; forward := forward (tunnel srv);
       server_socket := server_socket (tunnel srv);
       local_port := local_port (tunnel srv) |}) ;;
  ret ok.

(** *** [connect_and_read_byte], [connect_to_server] *)

Definition connect_and_read_byte (socket : sc_socket)
    (tunnel_host tunnel_port : N) : M bool :=
  ok <- net_connect_intr socket tunnel_host tunnel_port ;;
  if negb ok then ret false
  else
    r <- net_recv_intr socket 1 ;;
    if negb (fst r =? 1)%Z then ret false
    else ret true.

(** [--attempts] on an [unsigned]. *)
Definition decr_unsigned (n : N) : N := ((n + 2 ^ 32 - 1) mod 2 ^ 32)%N.

(** The [do ... while (--attempts)] loop of [connect_to_server]; [None]
    when [fuel] iterations did not finish it. *)
Fixpoint connect_to_server_loop (fuel : nat) (attempts : N) (delay : N)
    (host port : N) : M (option sc_socket) :=
  match fuel with
  | O => ret None
  | S fuel' =>
      let continue_ : M (option sc_socket) :=
        if (decr_unsigned attempts =? 0)%N then ret (Some SC_SOCKET_NONE)
        else connect_to_server_loop fuel' (decr_unsigned attempts) delay
               host port in
      let after_attempt : M (option sc_socket) :=
        intr <- sc_intr_is_interrupted ;;
        if intr then ret (Some SC_SOCKET_NONE)
        else if negb (attempts =? 0)%N
        then
          ok <- sc_server_sleep delay ;;
          if negb ok then ret (Some SC_SOCKET_NONE) else continue_
        else continue_ in
      socket <- net_socket ;;
      if is_some socket
      then
        ok <- connect_and_read_byte socket host port ;;
        if ok then ret (Some socket)
        else net_close socket ;; after_attempt
      else after_attempt
  end.

(** [connect_to_server]: [attempts] iterations are enough fuel whenever
    [attempts] is not zero (see [connect_to_server_loop_fuel]). *)
Definition connect_to_server (attempts : N) (delay : N) (host port : N)
  : M sc_socket :=
  r <- connect_to_server_loop (N.to_nat attempts) attempts delay host port ;;
  ret (match r with Some s => s | None => SC_SOCKET_NONE end).

(** *** [device_read_info] *)

Fixpoint set_nth {A} (i : nat) (x : A) (l : list A) : list A :=
  match l, i with
  | [], _ => []
  | _ :: t, O => x :: t
  | h :: t, S i' => h :: set_nth i' x t
  end.

(** [info->device_name] is an array of [SC_DEVICE_NAME_FIELD_LENGTH]
    characters, so the [memcpy] copies the whole buffer. *)
Definition device_read_info (device_socket : sc_socket) : M bool :=
  let len := SC_DEVICE_NAME_FIELD_LENGTH w in
  r <- net_recv_all_intr device_socket len ;;
  if (fst r <? Z.of_nat len)%Z then ret false
  else
    let buf := set_nth (len - 1) x00 (snd r) in
    update_server (with_device_name (firstn len buf)) ;;
    ret true.

(** *** [sc_server_connect_to] *)

(** The code at label [fail], for the values the three local sockets
    have when the jump is taken. *)
Definition connect_to_fail (video_socket audio_socket control_socket : sc_socket)
  : M bool :=
  when (is_some video_socket) (net_close video_socket ;; ret tt) ;;
  when (is_some audio_socket) (net_close audio_socket ;; ret tt) ;;
  when (is_some control_socket) (net_close control_socket ;; ret tt) ;;
  srv <- get_server ;;
  when (enabled (tunnel srv)) (sc_adb_tunnel_close ;; ret tt) ;;
  ret false.

(** From "we don't need the adb tunnel anymore" to [return true]. *)
Definition connect_to_finish (video_socket audio_socket control_socket : sc_socket)
  : M bool :=
  srv <- get_server ;;
  let video := video (params srv) in
  let audio := audio (params srv) in
  sc_adb_tunnel_close ;;
  let first_socket :=
    if video then video_socket
    else if audio then audio_socket
    else control_socket in
  ok <- device_read_info first_socket ;;
  if negb ok then connect_to_fail video_socket audio_socket control_socket
  else
    update_server (with_sockets video_socket audio_socket control_socket) ;;
    ret true.

Definition sc_server_connect_to : M bool :=
  srv <- get_server ;;
  let tunnel := tunnel srv in
  let video := video (params srv) in
  let audio := audio (params srv) in
  let control := control (params srv) in
  if negb (forward tunnel)
  then
    let accept_control (video_socket audio_socket : sc_socket) : M bool :=
      if control
      then
        control_socket <- net_accept_intr (server_socket tunnel) ;;
        if negb (is_some control_socket)
        then connect_to_fail video_socket audio_socket control_socket
        else connect_to_finish video_socket audio_socket control_socket
      else connect_to_finish video_socket audio_socket SC_SOCKET_NONE in
    let accept_audio (video_socket : sc_socket) : M bool :=
      if audio
      then
        audio_socket <- net_accept_intr (server_socket tunnel) ;;
        if negb (is_some audio_socket)
        then connect_to_fail video_socket audio_socket SC_SOCKET_NONE
        else accept_control video_socket audio_socket
      else accept_control video_socket SC_SOCKET_NONE in
    if video
    then
      video_socket <- net_accept_intr (server_socket tunnel) ;;
      if negb (is_some video_socket)
      then connect_to_fail video_socket SC_SOCKET_NONE SC_SOCKET_NONE
      else accept_audio video_socket
    else accept_audio SC_SOCKET_NONE
  else
    let tunnel_host :=
      if (tunnel_host (params srv) =? 0)%N then IPV4_LOCALHOST w
      else tunnel_host (params srv) in
    let tunnel_port :=
      if (tunnel_port (params srv) =? 0)%N then local_port tunnel
      else tunnel_port (params srv) in
    let attempts := 100%N in
    let delay := 100%N in
    first_socket <- connect_to_server attempts delay tunnel_host tunnel_port ;;
    if negb (is_some first_socket)
    then connect_to_fail SC_SOCKET_NONE SC_SOCKET_NONE SC_SOCKET_NONE
    else
      let video_socket := if video then first_socket else SC_SOCKET_NONE in
      let connect_control (audio_socket : sc_socket) : M bool :=
        if control
        then
          if negb video && negb audio
          then connect_to_finish video_socket audio_socket first_socket
          else
            control_socket <- net_socket ;;
            if negb (is_some control_socket)
            then connect_to_fail video_socket audio_socket control_socket
            else
              ok <- net_connect_intr control_socket tunnel_host tunnel_port ;;
              if negb ok
              then connect_to_fail video_socket audio_socket control_socket
              else connect_to_finish video_socket audio_socket control_socket
        else connect_to_finish video_socket audio_socket SC_SOCKET_NONE in
      if audio
      then
        if negb video
        then connect_control first_socket
        else
          audio_socket <- net_socket ;;
          if negb (is_some audio_socket)
          then connect_to_fail video_socket audio_socket SC_SOCKET_NONE
          else
            ok <- net_connect_intr audio_socket tunnel_host tunnel_port ;;
            if negb ok
            then connect_to_fail video_socket audio_socket SC_SOCKET_NONE
            else connect_control audio_socket
      else connect_control SC_SOCKET_NONE.

(** *** adb wrappers used by the TCP/IP switch and by the worker *)

Definition sc_adb_getprop (serial prop : string) (flags : list adb_flag)
  : M (option string) :=
  ext ask_string (EvAdbGetprop serial prop flags).

Definition sc_adb_get_device_ip (serial : string) : M (option string) :=
  ext ask_string (EvAdbGetDeviceIp serial).

Definition sc_adb_tcpip (serial : string) (port : N) (flags : list adb_flag)
  : M bool :=
  ext ask_bool (EvAdbTcpip serial port flags).

Definition sc_adb_disconnect (ip_port : string) (flags : list adb_flag)
  : M bool :=
  ext ask_bool (fun _ => EvAdbDisconnect ip_port flags).

Definition sc_adb_connect (ip_port : string) (flags : list adb_flag) : M bool :=
  ext ask_bool (EvAdbConnect ip_port flags).

Definition sc_adb_start_server : M bool :=
  ext ask_bool (fun _ => EvAdbStartServer).

Definition sc_adb_kill_server (flags : list adb_flag) : M bool :=
  ext ask_bool (fun _ => EvAdbKillServer flags).

(** Answers the serial of the selected device, [None] on failure. *)
Definition sc_adb_select_device (selector : sc_adb_device_selector)
  : M (option string) :=
  ext ask_string (fun _ => EvAdbSelectDevice selector).

Definition sc_adb_push (serial local_ remote : string) : M bool :=
  ext ask_bool (EvAdbPush serial local_ remote).

Definition sc_file_is_regular (path : string) : M bool :=
  ext ask_bool (EvFileIsRegular path).

(** [strdup] where the caller frees the copy: the block is kept with
    the string. *)
Definition strdup_block (s : string) : M (option (nat * string)) :=
  r <- asprintf s ;;
  ret (match r with Some p => Some (p, s) | None => None end).

Definition strdup (s : string) : M (option string) :=
  r <- asprintf s ;;
  ret (match r with Some _ => Some s | None => None end).

(** *** [get_adb_tcp_port], [wait_tcpip_mode_enabled], [append_port] *)

Definition get_adb_tcp_port (serial : string) : M N :=
  current_port <-
    sc_adb_getprop serial "service.adb.tcp.port" [SC_ADB_SILENT] ;;
  match current_port with
  | None => ret 0%N
  | Some s =>
      match sc_str_parse_integer w s with
      | None => ret 0%N
      | Some value =>
          if ((value <? 0) || (value >? 65535))%Z then ret 0%N
          else ret (Z.to_N value)
      end
  end.

(** The [do ... while (--attempts)] loop of [wait_tcpip_mode_enabled];
    [None] when [fuel] iterations did not finish it. *)
Fixpoint wait_tcpip_mode_enabled_loop (fuel : nat) (serial : string)
    (expected_port : N) (attempts : N) (delay : N) : M (option bool) :=
  match fuel with
  | O => ret None
  | S fuel' =>
      ok <- sc_server_sleep delay ;;
      if negb ok then ret (Some false)
      else
        adb_port <- get_adb_tcp_port serial ;;
        if (adb_port =? expected_port)%N then ret (Some true)
        else if (decr_unsigned attempts =? 0)%N then ret (Some false)
        else wait_tcpip_mode_enabled_loop fuel' serial expected_port
               (decr_unsigned attempts) delay
  end.

Definition wait_tcpip_mode_enabled (serial : string) (expected_port : N)
    (attempts : N) (delay : N) : M bool :=
  adb_port <- get_adb_tcp_port serial ;;
  if (adb_port =? expected_port)%N then ret true
  else
    r <- wait_tcpip_mode_enabled_loop (N.to_nat attempts) serial
           expected_port attempts delay ;;
    ret (match r with Some b => b | None => false end).

Definition append_port (ip : string) (port : N) : M (option string) :=
  let ip_port := ip +++ ":" +++ Fmt.fmt_u port in
  r <- asprintf ip_port ;;
  ret (match r with Some _ => Some ip_port | None => None end).

(** *** [sc_server_switch_to_tcpip] *)

Definition sc_server_switch_to_tcpip (serial : string) : M (option string) :=
  ip <- sc_adb_get_device_ip serial ;;
  match ip with
  | None => ret None
  | Some ip =>
      adb_port <- get_adb_tcp_port serial ;;
      if negb (adb_port =? 0)%N
      then append_port ip adb_port
      else
        ok <- sc_adb_tcpip serial SC_ADB_PORT_DEFAULT [SC_ADB_NO_STDOUT] ;;
        if negb ok then ret None
        else
          let attempts := 40%N in
          let delay := 250%N in
          ok <- wait_tcpip_mode_enabled serial SC_ADB_PORT_DEFAULT
                  attempts delay ;;
          if negb ok then ret None
          else
            let adb_port := SC_ADB_PORT_DEFAULT in
            append_port ip adb_port
  end.

(** *** [sc_server_connect_to_tcpip] and the two configurations *)

Definition sc_server_connect_to_tcpip (ip_port : string) : M bool :=
  sc_adb_disconnect ip_port [SC_ADB_SILENT] ;;
  ok <- sc_adb_connect ip_port [] ;;
  if negb ok then ret false
  else ret true.

(** [strchr (s, c) != NULL]. *)
Fixpoint strchr (s : string) (c : ascii) : bool :=
  match s with
  | EmptyString => false
  | String a s' => Ascii.eqb a c || strchr s' c
  end.

Definition sc_server_configure_tcpip_known_address (addr : string) : M bool :=
  let contains_port := strchr addr ":" in
  ip_port <- (if contains_port then strdup addr
              else append_port addr SC_ADB_PORT_DEFAULT) ;;
  match ip_port with
  | None => ret false
  | Some ip_port =>
      update_server (with_serial (Some ip_port)) ;;
      sc_server_connect_to_tcpip ip_port
  end.

Definition sc_server_configure_tcpip_unknown_address (serial : string)
  : M bool :=
  let is_already_tcpip :=
    match sc_adb_device_get_type w serial with
    | SC_ADB_DEVICE_TYPE_TCPIP => true
    | SC_ADB_DEVICE_TYPE_USB => false
    end in
  if is_already_tcpip
  then
    copy <- strdup serial ;;
    update_server (with_serial copy) ;;
    if negb (is_some copy) then ret false
    else ret true
  else
    ip_port <- sc_server_switch_to_tcpip serial ;;
    match ip_port with
    | None => ret false
    | Some ip_port =>
        update_server (with_serial (Some ip_port)) ;;
        sc_server_connect_to_tcpip ip_port
    end.

(** *** Processes and the observer *)

Definition sc_process_wait (pid : sc_pid) : M unit := call (EvProcessWait pid).

Definition sc_process_close (pid : sc_pid) : M unit :=
  call (EvProcessClose pid).

Definition sc_process_terminate (pid : sc_pid) : M bool :=
  ext ask_bool (fun _ => EvProcessTerminate pid).

(** Modelled from the spec: the observer functions of [util/process.h]
    are not part of [server.c].  Attaching starts the background waiter;
    "[timedwait(deadline)] reports whether the process exited before the
    deadline; [join()] blocks until it has", so that after [join] the
    termination hook has run. *)
Definition sc_process_observer_init (pid : sc_pid) : M bool :=
  ok <- ext ask_bool (EvObserverInit pid) ;;
  if ok
  then modify (set_observer true false) ;; ret true
  else ret false.

Definition sc_process_observer_timedwait : M bool :=
  call EvObserverTimedwait ;;
  st <- get_state ;;
  ret (observer_fired (bg st)).

Definition sc_process_observer_join : M unit :=
  call EvObserverJoin ;;
  st <- get_state ;;
  if observer_attached (bg st) && negb (observer_fired (bg st))
  then modify (set_observer true true) ;; sc_server_on_terminated
  else ret tt.

Definition sc_process_observer_destroy : M unit := call EvObserverDestroy.

(** *** [get_server_path], [push_server] *)

Definition SC_SERVER_FILENAME : string := "scrcpy-server".

Definition SC_SERVER_PATH_DEFAULT : string :=
  PREFIX w +++ "/share/scrcpy/" +++ SC_SERVER_FILENAME.

(** The build is neither [__WINDOWS__] nor [PORTABLE]. *)
Definition get_server_path : M (option (nat * string)) :=
  match env_SCRCPY_SERVER_PATH w with
  | Some server_path_env => strdup_block server_path_env
  | None => strdup_block SC_SERVER_PATH_DEFAULT
  end.

(** The path is a block of the allocator together with its string; it
    is freed on both ways out. *)
Definition push_server (serial : string) : M bool :=
  server_path <- get_server_path ;;
  match server_path with
  | None => ret false
  | Some (block, server_path) =>
      regular <- sc_file_is_regular server_path ;;
      if negb regular
      then free (Allocated block server_path) ;; ret false
      else
        ok <- sc_adb_push serial server_path SC_DEVICE_SERVER_PATH ;;
        free (Allocated block server_path) ;;
        ret ok
  end.

(** *** [run_server] *)

Definition sc_server_kill_adb_if_requested : M unit :=
  srv <- get_server ;;
  when (kill_adb_on_close (params srv))
    (sc_adb_kill_server
       [SC_ADB_NO_STDOUT; SC_ADB_NO_STDERR; SC_ADB_NO_LOGERR] ;; ret tt).

(** The code at label [error_connection_failed]. *)
Definition error_connection_failed : M Z :=
  sc_server_kill_adb_if_requested ;;
  cbs on_connection_failed ;;
  ret (-1)%Z.

(** The wait on [cond_stopped] until [sc_server_stop] is called; a run
    that is never stopped does not return and has no trace to speak of. *)
Definition wait_stopped : M unit := call EvWaitStopped.

(** From the push of the server to the end of [run_server], once
    [server->serial] is set. *)
Definition run_server_connected (p : sc_server_params) : M Z :=
  srv <- get_server ;;
  let serial := asserted (serial srv) in
  ok <- push_server serial ;;
  if negb ok then error_connection_failed
  else if list_encoders p || list_displays p || list_cameras p
  then
    pid <- execute_server p ;;
    if negb (is_some pid) then error_connection_failed
    else
      sc_process_wait pid ;;
      sc_process_close pid ;;
      cbs on_connected ;;
      ret 0%Z
  else
    name <- asprintf (SC_SOCKET_NAME_PREFIX +++ Fmt.fmt_08x (scid p)) ;;
    if negb (is_some name) then error_connection_failed
    else
      update_server (with_device_socket_name
        (Some (SC_SOCKET_NAME_PREFIX +++ Fmt.fmt_08x (scid p)))) ;;
      ok <- sc_adb_tunnel_open (force_adb_forward p) ;;
      if negb ok then error_connection_failed
      else
        pid <- execute_server p ;;
        if negb (is_some pid)
        then sc_adb_tunnel_close ;; error_connection_failed
        else
          ok <- sc_process_observer_init pid ;;
          if negb ok
          then
            sc_process_terminate pid ;;
            sc_process_wait pid ;;
            sc_adb_tunnel_close ;;
            error_connection_failed
          else
            ok <- sc_server_connect_to ;;
            if negb ok
            then
              sc_process_terminate pid ;;
              sc_process_wait pid ;;
              sc_process_observer_join ;;
              sc_process_observer_destroy ;;
              error_connection_failed
            else
              cbs on_connected ;;
              wait_stopped ;;
              srv <- get_server ;;
              when (is_some (video_socket srv))
                (net_interrupt (video_socket srv)) ;;
              when (is_some (audio_socket srv))
                (net_interrupt (audio_socket srv)) ;;
              when (is_some (control_socket srv))
                (net_interrupt (control_socket srv)) ;;
              terminated <- sc_process_observer_timedwait ;;
              when (negb terminated) (sc_process_terminate pid ;; ret tt) ;;
              sc_process_observer_join ;;
              sc_process_observer_destroy ;;
              sc_process_close pid ;;
              sc_server_kill_adb_if_requested ;;
              ret 0%Z.

Definition run_server : M Z :=
  srv <- get_server ;;
  let p := params srv in
  ok <- sc_adb_start_server ;;
  if negb ok then error_connection_failed
  else
    match tcpip_dst p with
    | None =>
        (* need_initial_serial *)
        let selector :=
          match req_serial p with
          | Some s => SC_ADB_DEVICE_SELECT_SERIAL s
          | None =>
              if select_usb p then SC_ADB_DEVICE_SELECT_USB
              else if select_tcpip p then SC_ADB_DEVICE_SELECT_TCPIP
              else match env_ANDROID_SERIAL w with
                   | Some env_serial => SC_ADB_DEVICE_SELECT_SERIAL env_serial
                   | None => SC_ADB_DEVICE_SELECT_ALL
                   end
          end in
        device <- sc_adb_select_device selector ;;
        match device with
        | None => error_connection_failed
        | Some device_serial =>
            if tcpip p
            then
              ok <- sc_server_configure_tcpip_unknown_address device_serial ;;
              if negb ok then error_connection_failed
              else run_server_connected p
            else
              update_server (with_serial (Some device_serial)) ;;
              run_server_connected p
        end
    | Some dst =>
        ok <- sc_server_configure_tcpip_known_address dst ;;
        if negb ok then error_connection_failed
        else run_server_connected p
    end.

(** [sc_server_init], the part that resets the controller. *)
Definition sc_server_init (p : sc_server_params) : sc_server :=
  {| params := p; serial := None; device_socket_name := None;
     tunnel := {| enabled := false; forward := false;
                  server_socket := SC_SOCKET_NONE; local_port := 0 |};
     video_socket := SC_SOCKET_NONE; audio_socket := SC_SOCKET_NONE;
     control_socket := SC_SOCKET_NONE; info_device_name := [] |}.

End Controller.

(** ** Observations on the events of a run *)

(** The events emitted by the worker itself: all but the two events of
    the termination hook, which runs on the observer's thread. *)
Definition worker_event (e : event) : bool :=
  match e with
  | EvIntrInterrupt | EvCallback on_disconnected => false
  | _ => true
  end.

(** Blocks obtained from the allocator, blocks given back, and argument
    vectors passed to [sc_adb_execute], in order. *)
Definition allocated (out : list event) : list nat :=
  flat_map (fun e => match e with
                     | EvAsprintf (Some (p, _)) => [p]
                     | _ => []
                     end) out.

Definition freed (out : list event) : list nat :=
  flat_map (fun e => match e with EvFree p => [p] | _ => [] end) out.

Definition executed (out : list event) : list (list string) :=
  flat_map (fun e => match e with EvAdbExecute argv _ => [argv] | _ => [] end)
    out.

(** The key of a [key=value] argument: what precedes the first [=]. *)
Fixpoint key_of (s : string) : string :=
  match s with
  | EmptyString => EmptyString
  | String c rest =>
      if Ascii.eqb c "=" then EmptyString else String c (key_of rest)
  end.

Definition has_key (k : string) (args : list string) : bool :=
  existsb (fun a => String.eqb (key_of a) k) args.

(** The values the spec documents as defaults of the device-side server:
    the flags that default to true, the two default codecs, and zero for
    the bit rates and limits. *)
Definition documented_defaults : list (string * string) :=
  [ ("video", "true"); ("audio", "true"); ("control", "true");
    ("clipboard_autosync", "true"); ("downsize_on_error", "true");
    ("cleanup", "true"); ("power_on", "true");
    ("video_codec", "h264"); ("audio_codec", "opus");
    ("video_bit_rate", "0"); ("audio_bit_rate", "0");
    ("max_size", "0"); ("max_fps", "0") ].

Definition key_value (kv : string * string) : string :=
  fst kv +++ "=" +++ snd kv.

(** [opt c s]: the argument [s] if [c] holds. *)
Definition opt (c : bool) (s : string) : list string :=
  if c then [s] else [].

(** The strings for which [execute_server] invokes [ADD_PARAM], in order:
    the same conditions and formats as [execute_server_params], without
    the allocator. *)
Definition server_params_list (w : world) (tunnel_forward : bool)
    (params : sc_server_params) : list string :=
  [ "scid=" +++ Fmt.fmt_08x (scid params) ] ++
  [ "log_level=" +++ log_level_to_server_string (log_level params) ] ++
  opt (negb (video params)) "video=false" ++
  opt (negb (video_bit_rate params =? 0)%N)
    ("video_bit_rate=" +++ Fmt.fmt_u (video_bit_rate params)) ++
  opt (negb (audio params)) "audio=false" ++
  opt (negb (audio_bit_rate params =? 0)%N)
    ("audio_bit_rate=" +++ Fmt.fmt_u (audio_bit_rate params)) ++
  opt (negb (sc_codec_eqb (video_codec params) SC_CODEC_H264))
    ("video_codec=" +++ fmt_s (sc_server_get_codec_name (video_codec params))) ++
  opt (negb (sc_codec_eqb (audio_codec params) SC_CODEC_OPUS))
    ("audio_codec=" +++ fmt_s (sc_server_get_codec_name (audio_codec params))) ++
  opt (negb (is_display (video_source params))) "video_source=camera" ++
  opt (negb (is_output (audio_source params))) "audio_source=mic" ++
  opt (negb (max_size params =? 0)%N)
    ("max_size=" +++ Fmt.fmt_u (max_size params)) ++
  opt (negb (max_fps params =? 0)%N)
    ("max_fps=" +++ Fmt.fmt_u (max_fps params)) ++
  opt (negb (lock_video_orientation params
             =? SC_LOCK_VIDEO_ORIENTATION_UNLOCKED w)%Z)
    ("lock_video_orientation=" +++ Fmt.fmt_i (lock_video_orientation params)) ++
  opt tunnel_forward "tunnel_forward=true" ++
  opt (is_some (crop params)) ("crop=" +++ fmt_s (crop params)) ++
  opt (negb (control params)) "control=false" ++
  opt (is_display (video_source params) && negb (display_id params =? 0)%N)
    ("display_id=" +++ Fmt.fmt_u (display_id params)) ++
  opt (is_camera (video_source params) && is_some (camera_id params))
    ("camera_id=" +++ fmt_s (camera_id params)) ++
  opt (is_camera (video_source params) && negb (is_all (camera_position params)))
    (match camera_position params with
     | SC_CAMERA_POSITION_FRONT => "camera_position=front"
     | SC_CAMERA_POSITION_BACK => "camera_position=back"
     | SC_CAMERA_POSITION_EXTERNAL => "camera_position=external"
     | SC_CAMERA_POSITION_ALL => ""
     end) ++
  opt (show_touches params) "show_touches=true" ++
  opt (stay_awake params) "stay_awake=true" ++
  opt (is_some (video_codec_options params))
    ("video_codec_options=" +++ fmt_s (video_codec_options params)) ++
  opt (is_some (audio_codec_options params))
    ("audio_codec_options=" +++ fmt_s (audio_codec_options params)) ++
  opt (is_some (video_encoder params))
    ("video_encoder=" +++ fmt_s (video_encoder params)) ++
  opt (is_some (audio_encoder params))
    ("audio_encoder=" +++ fmt_s (audio_encoder params)) ++
  opt (power_off_on_close params) "power_off_on_close=true" ++
  opt (negb (clipboard_autosync params)) "clipboard_autosync=false" ++
  opt (negb (downsize_on_error params)) "downsize_on_error=false" ++
  opt (negb (cleanup params)) "cleanup=false" ++
  opt (negb (power_on params)) "power_on=false" ++
  opt (list_encoders params) "list_encoders=true" ++
  opt (list_displays params) "list_displays=true" ++
  opt (list_cameras params) "list_cameras=true".

(** [ADD_PARAM] for each string of a list, stopping at the first failure. *)
Fixpoint add_params (w : world) (l : list string) : X :=
  match l with
  | [] => skipX
  | s :: rest => ADD_PARAM w s ;;; add_params w rest
  end.

(** The array slots and the events of [k] successful allocations that
    start at block [base]. *)
Fixpoint alloc_entries (base : nat) (l : list string) : list cmd_entry :=
  match l with
  | [] => []
  | s :: rest => Allocated base s :: alloc_entries (S base) rest
  end.

Fixpoint alloc_events (base : nat) (l : list string) : list event :=
  match l with
  | [] => []
  | s :: rest => EvAsprintf (Some (base, s)) :: alloc_events (S base) rest
  end.

Fixpoint free_events (base : nat) (l : list string) : list event :=
  match l with
  | [] => []
  | _ :: rest => EvFree base :: free_events (S base) rest
  end.

(** The keys whose only emitted value is [false]. *)
Definition disabling_flags (p : sc_server_params) : list (string * bool) :=
  [ ("video", video p); ("audio", audio p); ("control", control p);
    ("clipboard_autosync", clipboard_autosync p);
    ("downsize_on_error", downsize_on_error p);
    ("cleanup", cleanup p); ("power_on", power_on p) ].

(** The keys emitted for a non-zero number only. *)
Definition numeric_keys (p : sc_server_params) : list (string * N) :=
  [ ("video_bit_rate", video_bit_rate p); ("audio_bit_rate", audio_bit_rate p);
    ("max_size", max_size p); ("max_fps", max_fps p) ].

(** One key that [execute_server] may emit besides [scid] and
    [log_level]: the key, the value the device-side server takes when the
    key is absent ([None] where it takes none: a string that is not
    given), whether the key is emitted, which is the test of the code
    that the configured value differs from that default, and the text of
    the configured value. *)
Record emission := Emission {
  em_key : string;
  em_default : option string;
  em_emitted : bool;
  em_value : string
}.

(** The 31 keys, in the order of the code. *)
Definition emission_table (w : world) (tunnel_forward : bool)
    (p : sc_server_params) : list emission :=
  [ Emission "video" (Some "true") (negb (video p)) "false";
    Emission "video_bit_rate" (Some "0") (negb (video_bit_rate p =? 0)%N)
      (Fmt.fmt_u (video_bit_rate p));
    Emission "audio" (Some "true") (negb (audio p)) "false";
    Emission "audio_bit_rate" (Some "0") (negb (audio_bit_rate p =? 0)%N)
      (Fmt.fmt_u (audio_bit_rate p));
    Emission "video_codec" (Some "h264")
      (negb (sc_codec_eqb (video_codec p) SC_CODEC_H264))
      (fmt_s (sc_server_get_codec_name (video_codec p)));
    Emission "audio_codec" (Some "opus")
      (negb (sc_codec_eqb (audio_codec p) SC_CODEC_OPUS))
      (fmt_s (sc_server_get_codec_name (audio_codec p)));
    Emission "video_source" (Some "display")
      (negb (is_display (video_source p))) "camera";
    Emission "audio_source" (Some "output")
      (negb (is_output (audio_source p))) "mic";
    Emission "max_size" (Some "0") (negb (max_size p =? 0)%N)
      (Fmt.fmt_u (max_size p));
    Emission "max_fps" (Some "0") (negb (max_fps p =? 0)%N)
      (Fmt.fmt_u (max_fps p));
    Emission "lock_video_orientation"
      (Some (Fmt.fmt_i (SC_LOCK_VIDEO_ORIENTATION_UNLOCKED w)))
      (negb (lock_video_orientation p
             =? SC_LOCK_VIDEO_ORIENTATION_UNLOCKED w)%Z)
      (Fmt.fmt_i (lock_video_orientation p));
    Emission "tunnel_forward" (Some "false") tunnel_forward "true";
    Emission "crop" None (is_some (crop p)) (fmt_s (crop p));
    Emission "control" (Some "true") (negb (control p)) "false";
    Emission "display_id" (Some "0")
      (is_display (video_source p) && negb (display_id p =? 0)%N)
      (Fmt.fmt_u (display_id p));
    Emission "camera_id" None
      (is_camera (video_source p) && is_some (camera_id p))
      (fmt_s (camera_id p));
    Emission "camera_position" None
      (is_camera (video_source p) && negb (is_all (camera_position p)))
      (match camera_position p with
       | SC_CAMERA_POSITION_FRONT => "front"
       | SC_CAMERA_POSITION_BACK => "back"
       | SC_CAMERA_POSITION_EXTERNAL => "external"
       | SC_CAMERA_POSITION_ALL => ""
       end);
    Emission "show_touches" (Some "false") (show_touches p) "true";
    Emission "stay_awake" (Some "false") (stay_awake p) "true";
    Emission "video_codec_options" None (is_some (video_codec_options p))
      (fmt_s (video_codec_options p));
    Emission "audio_codec_options" None (is_some (audio_codec_options p))
      (fmt_s (audio_codec_options p));
    Emission "video_encoder" None (is_some (video_encoder p))
      (fmt_s (video_encoder p));
    Emission "audio_encoder" None (is_some (audio_encoder p))
      (fmt_s (audio_encoder p));
    Emission "power_off_on_close" (Some "false") (power_off_on_close p)
      "true";
    Emission "clipboard_autosync" (Some "true")
      (negb (clipboard_autosync p)) "false";
    Emission "downsize_on_error" (Some "true")
      (negb (downsize_on_error p)) "false";
    Emission "cleanup" (Some "true") (negb (cleanup p)) "false";
    Emission "power_on" (Some "true") (negb (power_on p)) "false";
    Emission "list_encoders" (Some "false") (list_encoders p) "true";
    Emission "list_displays" (Some "false") (list_displays p) "true";
    Emission "list_cameras" (Some "false") (list_cameras p) "true" ].

(** No string occurs twice. *)
Fixpoint distinct (l : list string) : bool :=
  match l with
  | [] => true
  | x :: rest => negb (existsb (String.eqb x) rest) && distinct rest
  end.

(** The argument of a key, when it is emitted. *)
Definition emitted_argument (row : emission) : list string :=
  opt (em_emitted row) (em_key row +++ "=" +++ em_value row).

(** The emission rules of the [key=value] part [args] of the argument
    vector: [scid] and [log_level] always; a flag that defaults to true
    only as [key=false], when it is disabled; the codecs only when they
    are not the default; the numbers only when non-zero; never a
    documented default.  Then, for every key the code can emit: no other
    key occurs; the key occurs exactly when the configured value differs
    from the default of the server, with the text of that value, which
    is not the text of the default; and the key never occurs with the
    default as its value. *)
Definition emission_rules (w : world) (tunnel_forward : bool)
    (p : sc_server_params) (args : list string) : Prop :=
  In ("scid=" +++ Fmt.fmt_08x (scid p)) args /\
  In ("log_level=" +++ log_level_to_server_string (log_level p)) args /\
  (forall k flag, In (k, flag) (disabling_flags p) ->
     has_key k args = negb flag /\
     forall a, In a args -> key_of a = k -> a = k +++ "=false") /\
  has_key "video_codec" args =
    negb (sc_codec_eqb (video_codec p) SC_CODEC_H264) /\
  has_key "audio_codec" args =
    negb (sc_codec_eqb (audio_codec p) SC_CODEC_OPUS) /\
  (forall k n, In (k, n) (numeric_keys p) ->
     has_key k args = negb (n =? 0)%N) /\
  (forall kv, In kv documented_defaults -> ~ In (key_value kv) args) /\
  (forall a, In a args ->
     In (key_of a)
        ("scid" :: "log_level" ::
         map em_key (emission_table w tunnel_forward p))) /\
  (forall row, In row (emission_table w tunnel_forward p) ->
     has_key (em_key row) args = em_emitted row /\
     (forall a, In a args -> key_of a = em_key row ->
        a = em_key row +++ "=" +++ em_value row) /\
     (em_emitted row = true -> em_default row <> Some (em_value row)) /\
     (forall d, em_default row = Some d ->
        ~ In (em_key row +++ "=" +++ d) args)).

(** A table names each key once, and no key holds the sign [=]. *)
Definition well_keyed (t : list emission) : Prop :=
  NoDup (map em_key t) /\
  Forall (fun row => strchr (em_key row) "=" = false) t.

(** The listener callbacks fired during a run, in order. *)
Definition callbacks (out : list event) : list callback :=
  flat_map (fun e => match e with EvCallback cb => [cb] | _ => [] end) out.

Definition is_callback (e : event) : bool :=
  match e with EvCallback _ => true | _ => false end.

(** ** Plain worker code

    [plain w allowed m]: the computation [m] is built from calls that
    leave the file and emit events in [allowed], and from updates of the
    state that do not touch the observer; in particular it neither
    attaches nor joins the observer. *)
Inductive plain (w : world) (allowed : event -> bool)
  : forall {A : Type}, M A -> Prop :=
| plain_ret {A} (a : A) : plain w allowed (ret a)
| plain_bind {A B} (m : M A) (k : A -> M B) :
    plain w allowed m -> (forall a, plain w allowed (k a)) ->
    plain w allowed (bind m k)
| plain_get_state : plain w allowed get_state
| plain_modify (f : state -> state) :
    (forall st, observer_attached (bg (f st)) = observer_attached (bg st) /\
                observer_fired (bg (f st)) = observer_fired (bg st)) ->
    plain w allowed (modify f)
| plain_emit (e : event) : allowed e = true -> plain w allowed (emit e)
| plain_poll : plain w allowed (observer_poll w).

(** How a piece of plain code moves the observer, and the callbacks seen
    meanwhile: none, or the hook ran once. *)
Definition hook_step (b b' : background) (cbs : list callback) : Prop :=
  observer_attached b' = observer_attached b /\
  ((observer_fired b' = observer_fired b /\ cbs = []) \/
   (observer_attached b = true /\ observer_fired b = false /\
    observer_fired b' = true /\ cbs = [on_disconnected])).

(** A coarse classification of the events by the collaborator called. *)
Inductive event_kind :=
| KAllocator | KAdb | KExecute | KTunnelOpen | KTunnelClose | KProcess
| KObserver | KSocket | KProbe | KHandshake | KSync | KHook | KCallback.

Definition kind_of (e : event) : event_kind :=
  match e with
  | EvAsprintf _ | EvFree _ | EvFreeNotAllocated => KAllocator
  | EvAdbStartServer | EvAdbKillServer _ | EvAdbSelectDevice _
  | EvAdbDeviceGetType _ | EvAdbPush _ _ _ _ | EvAdbGetDeviceIp _ _
  | EvAdbGetprop _ _ _ _ | EvAdbTcpip _ _ _ _ | EvAdbDisconnect _ _
  | EvAdbConnect _ _ _ | EvFileIsRegular _ _ => KAdb
  | EvAdbExecute _ _ => KExecute
  | EvAdbTunnelOpen _ _ _ => KTunnelOpen
  | EvAdbTunnelClose _ _ => KTunnelClose
  | EvProcessWait _ | EvProcessClose _ | EvProcessTerminate _ => KProcess
  | EvObserverInit _ _ | EvObserverTimedwait | EvObserverJoin
  | EvObserverDestroy => KObserver
  | EvNetSocket _ | EvNetConnect _ _ _ _ | EvNetAccept _ _ | EvNetClose _
  | EvNetInterrupt _ => KSocket
  | EvNetRecv _ _ _ => KProbe
  | EvNetRecvAll _ _ _ => KHandshake
  | EvIntrIsInterrupted _ | EvSleep _ _ | EvWaitStopped => KSync
  | EvIntrInterrupt => KHook
  | EvCallback _ => KCallback
  end.

Definition event_kind_eqb (a b : event_kind) : bool :=
  match a, b with
  | KAllocator, KAllocator | KAdb, KAdb | KExecute, KExecute
  | KTunnelOpen, KTunnelOpen | KTunnelClose, KTunnelClose
  | KProcess, KProcess | KObserver, KObserver | KSocket, KSocket
  | KProbe, KProbe | KHandshake, KHandshake | KSync, KSync
  | KHook, KHook | KCallback, KCallback => true
  | _, _ => false
  end.

(** [of_kinds ks e]: the event [e] is of one of the kinds [ks]. *)
Definition of_kinds (ks : list event_kind) (e : event) : bool :=
  existsb (event_kind_eqb (kind_of e)) ks.

(** ** The shape of the first-socket loop *)

(** The worker events of one attempt that fails: no socket, a connect
    that fails, or a probe that does not read its byte ([r] is [0] for an
    empty read and [-1] for a failed one). *)
Inductive failed_attempt (host port : N) : list event -> Prop :=
| failed_socket :
    failed_attempt host port [EvNetSocket SC_SOCKET_NONE]
| failed_connect s :
    failed_attempt host port
      [EvNetSocket (Some s); EvNetConnect (Some s) host port false;
       EvNetClose (Some s)]
| failed_probe s r :
    r <> 1%Z ->
    failed_attempt host port
      [EvNetSocket (Some s); EvNetConnect (Some s) host port true;
       EvNetRecv (Some s) 1 r; EvNetClose (Some s)].

(** [connect_trace host port delay attempts n r out]: [out] is the trace
    of the loop entered with [attempts] attempts left, which makes [n]
    attempts and ends with the socket [r].  A failed attempt is followed
    by the interruption check, by a sleep of [delay] and by the next
    attempt.  The loop gives up only when the worker is interrupted, when
    the sleep reports a stop, or when no attempt is left. *)
Inductive connect_trace (host port delay : N)
  : nat -> nat -> sc_socket -> list event -> Prop :=
| connect_success a s :
    connect_trace host port delay (S a) 1 (Some s)
      [EvNetSocket (Some s); EvNetConnect (Some s) host port true;
       EvNetRecv (Some s) 1 1]
| connect_interrupted a o :
    failed_attempt host port o ->
    connect_trace host port delay (S a) 1 SC_SOCKET_NONE
      (o ++ [EvIntrIsInterrupted true])
| connect_stopped a o :
    failed_attempt host port o ->
    connect_trace host port delay (S a) 1 SC_SOCKET_NONE
      (o ++ [EvIntrIsInterrupted false; EvSleep delay false])
| connect_given_up o :
    failed_attempt host port o ->
    connect_trace host port delay 1 1 SC_SOCKET_NONE
      (o ++ [EvIntrIsInterrupted false; EvSleep delay true])
| connect_retry a o n r rest :
    failed_attempt host port o ->
    connect_trace host port delay (S a) n r rest ->
    connect_trace host port delay (S (S a)) (S n) r
      (o ++ [EvIntrIsInterrupted false; EvSleep delay true] ++ rest).


(** ** Observations on the socket establishment *)

(** Stream sockets obtained ([net_socket], [net_accept_intr]) and stream
    sockets closed, in order. *)
Definition opened (out : list event) : list Z :=
  flat_map (fun e => match e with
                     | EvNetSocket (Some s) | EvNetAccept _ (Some s) => [s]
                     | _ => []
                     end) out.

Definition closed (out : list event) : list Z :=
  flat_map (fun e => match e with EvNetClose (Some s) => [s] | _ => [] end) out.

(** The handshake reads: socket, length asked, count received. *)
Definition handshakes (out : list event) : list (sc_socket * nat * Z) :=
  flat_map (fun e => match e with
                     | EvNetRecvAll s len r => [(s, len, r)]
                     | _ => []
                     end) out.

Definition tunnel_closes (out : list event) : nat :=
  List.length (filter (of_kinds [KTunnelClose]) out).

Definition probes (out : list event) : list event :=
  filter (of_kinds [KProbe]) out.

(** The order of a successful establishment: socket events (sockets,
    probes, waits), then the close of the tunnel, then the handshake
    read, and nothing else. *)
Inductive phase := Establishing | TunnelClosed | HandshakeRead.

Definition phase_step (q : phase) (e : event) : option phase :=
  match q, kind_of e with
  | Establishing, (KSocket | KProbe | KSync) => Some Establishing
  | Establishing, KTunnelClose => Some TunnelClosed
  | TunnelClosed, KHandshake => Some HandshakeRead
  | _, _ => None
  end.

Fixpoint phases (q : phase) (out : list event) : option phase :=
  match out with
  | [] => Some q
  | e :: rest =>
      match phase_step q e with
      | Some q' => phases q' rest
      | None => None
      end
  end.

(** The socket of the handshake: video, else audio, else control. *)
Definition first_socket_of (srv : sc_server) : sc_socket :=
  if video (params srv) then video_socket srv
  else if audio (params srv) then audio_socket srv
  else control_socket srv.

(** A stream has a socket exactly when it is enabled. *)
Definition sockets_match_streams (srv : sc_server) : Prop :=
  is_some (video_socket srv) = video (params srv) /\
  is_some (audio_socket srv) = audio (params srv) /\
  is_some (control_socket srv) = control (params srv).

(** A device name of [len] characters whose last one is NUL. *)
Definition nul_terminated_field (len : nat) (name : list byte) : Prop :=
  List.length name = len /\ nth_error name (len - 1) = Some x00.

(** The address the forward tunnel is reached at. *)
Definition forward_host (w : world) (srv : sc_server) : N :=
  if (tunnel_host (params srv) =? 0)%N then IPV4_LOCALHOST w
  else tunnel_host (params srv).

Definition forward_port (srv : sc_server) : N :=
  if (tunnel_port (params srv) =? 0)%N then local_port (tunnel srv)
  else tunnel_port (params srv).

(** What a run of [sc_server_connect_to] from [st] guarantees on its
    result [r], final state [st'] and worker events [o]. *)
Definition connect_to_post (w : world) (st : state) (r : bool) (st' : state)
    (o : list event) : Prop :=
  let srv := server st in
  let len := SC_DEVICE_NAME_FIELD_LENGTH w in
  (* the tunnel *)
  enabled (tunnel (server st')) = false /\
  (enabled (tunnel srv) = true -> tunnel_closes o = 1) /\
  (* success *)
  (r = true ->
     phases Establishing o = Some HandshakeRead /\
     handshakes o = [(first_socket_of (server st'), len, Z.of_nat len)] /\
     params (server st') = params srv /\
     sockets_match_streams (server st') /\
     (0 < len -> nul_terminated_field len (info_device_name (server st')))) /\
  (* failure *)
  (r = false ->
     video (params srv) || audio (params srv) || control (params srv) = true ->
     Permutation (opened o) (closed o)) /\
  (* the handshake read decides *)
  (forall s l n, In (s, l, n) (handshakes o) ->
     l = len /\ (n < Z.of_nat len -> r = false)%Z /\
                (r = false -> n < Z.of_nat len)%Z) /\
  (* forward tunnel: the probes are those of the first socket *)
  (forward (tunnel srv) = true ->
     exists n first pre rest,
       1 <= n <= 100 /\
       connect_trace (forward_host w srv) (forward_port srv) 100 100 n first
         pre /\
       o = pre ++ rest /\ probes rest = []).

(** The events of a run that the worker emitted itself. *)
Definition worker_events {A} (m : M A) (st : state) : list event :=
  filter worker_event (events m st).

(** The number of sockets tried, one per attempt. *)
Definition sockets_tried (out : list event) : nat :=
  List.length (filter (fun e => match e with EvNetSocket _ => true | _ => false end)
                 out).

(** ** Observations on the TCP/IP switch *)

(** The port [get_adb_tcp_port] answers for a value of the property
    [service.adb.tcp.port]: zero when the property is absent, is not an
    integer, or is out of the range of a port. *)
Definition port_of_property (w : world) (r : option string) : N :=
  match r with
  | None => 0
  | Some s =>
      match sc_str_parse_integer w s with
      | None => 0
      | Some value =>
          if ((value <? 0) || (value >? 65535))%Z then 0 else Z.to_N value
      end
  end.

(** The values the claim on invalid properties speaks of. *)
Definition invalid_property (w : world) (r : option string) : Prop :=
  r = None \/
  exists s, r = Some s /\
    (sc_str_parse_integer w s = None \/
     exists value, sc_str_parse_integer w s = Some value /\
                   (value < 0 \/ value > 65535)%Z).

(** One read of the property. *)
Definition getprop_port (serial : string) (r : option string) : event :=
  EvAdbGetprop serial "service.adb.tcp.port" [SC_ADB_SILENT] r.

(** The ports read during a run, in order. *)
Definition ports_read (w : world) (out : list event) : list N :=
  flat_map (fun e => match e with
                     | EvAdbGetprop _ _ _ r => [port_of_property w r]
                     | _ => []
                     end) out.

(** The requests to restart adbd in TCP/IP mode. *)
Definition tcpip_requests (out : list event) : list event :=
  filter (fun e => match e with EvAdbTcpip _ _ _ _ => true | _ => false end) out.

(** [wait_trace w serial expected delay attempts n b out]: the polling
    loop entered with [attempts] rounds left makes [n] rounds: sleep,
    then read the property.  It ends with [true] at the first read equal
    to [expected]; it ends with [false] only when a sleep reports a stop
    or when no round is left. *)
Inductive wait_trace (w : world) (serial : string) (expected delay : N)
  : nat -> nat -> bool -> list event -> Prop :=
| wait_interrupted a :
    wait_trace w serial expected delay (S a) 1 false [EvSleep delay false]
| wait_found a r :
    port_of_property w r = expected ->
    wait_trace w serial expected delay (S a) 1 true
      [EvSleep delay true; getprop_port serial r]
| wait_exhausted r :
    port_of_property w r <> expected ->
    wait_trace w serial expected delay 1 1 false
      [EvSleep delay true; getprop_port serial r]
| wait_again a r n b rest :
    port_of_property w r <> expected ->
    wait_trace w serial expected delay (S a) n b rest ->
    wait_trace w serial expected delay (S (S a)) (S n) b
      ([EvSleep delay true; getprop_port serial r] ++ rest).

(** The events of [wait_tcpip_mode_enabled]: a first read, and the
    polling loop of [attempts] rounds unless that read already gives the
    expected port. *)
Inductive wait_outcome (w : world) (serial : string)
    (expected delay : N) (attempts : nat) : bool -> list event -> Prop :=
| wait_already r :
    port_of_property w r = expected ->
    wait_outcome w serial expected delay attempts true [getprop_port serial r]
| wait_polled r n b rest :
    port_of_property w r <> expected ->
    1 <= n <= attempts ->
    wait_trace w serial expected delay attempts n b rest ->
    wait_outcome w serial expected delay attempts b
      (getprop_port serial r :: rest).

(** Why a wait that answers [false] gave up: a sleep was stopped, or
    the first read and the reads of all the rounds were made. *)
Definition wait_gave_up (w : world) (delay : N) (attempts : nat)
    (out : list event) : Prop :=
  (exists o, out = o ++ [EvSleep delay false]) \/
  List.length (ports_read w out) = S attempts.

(** The address built by [append_port]. *)
Definition ip_port_string (ip : string) (port : N) : string :=
  ip +++ ":" +++ Fmt.fmt_u port.

(** One allocation of the string [s]. *)
Inductive alloc_outcome (s : string) : option string -> list event -> Prop :=
| alloc_ok p : alloc_outcome s (Some s) [EvAsprintf (Some (p, s))]
| alloc_failed : alloc_outcome s None [EvAsprintf None].

(** The runs of [sc_server_switch_to_tcpip], by result and worker events. *)
Inductive switch_outcome (w : world) (serial : string)
  : option string -> list event -> Prop :=
| switch_no_ip :
    switch_outcome w serial None [EvAdbGetDeviceIp serial None]
| switch_already ip r res oa :
    port_of_property w r <> 0%N ->
    alloc_outcome (ip_port_string ip (port_of_property w r)) res oa ->
    switch_outcome w serial res
      ([EvAdbGetDeviceIp serial (Some ip); getprop_port serial r] ++ oa)
| switch_refused ip r :
    port_of_property w r = 0%N ->
    switch_outcome w serial None
      [EvAdbGetDeviceIp serial (Some ip); getprop_port serial r;
       EvAdbTcpip serial SC_ADB_PORT_DEFAULT [SC_ADB_NO_STDOUT] false]
| switch_timeout ip r ow :
    port_of_property w r = 0%N ->
    wait_outcome w serial SC_ADB_PORT_DEFAULT 250 40 false ow ->
    switch_outcome w serial None
      ([EvAdbGetDeviceIp serial (Some ip); getprop_port serial r;
        EvAdbTcpip serial SC_ADB_PORT_DEFAULT [SC_ADB_NO_STDOUT] true] ++ ow)
| switch_enabled ip r ow res oa :
    port_of_property w r = 0%N ->
    wait_outcome w serial SC_ADB_PORT_DEFAULT 250 40 true ow ->
    alloc_outcome (ip_port_string ip SC_ADB_PORT_DEFAULT) res oa ->
    switch_outcome w serial res
      ([EvAdbGetDeviceIp serial (Some ip); getprop_port serial r;
        EvAdbTcpip serial SC_ADB_PORT_DEFAULT [SC_ADB_NO_STDOUT] true]
       ++ ow ++ oa).

(** The address a known destination is normalized to: the default port
    is appended when the address has no [:]. *)
Definition normalized_address (addr : string) : string :=
  if strchr addr ":" then addr else addr +++ ":5555".

(** An integer parser for the example worlds: an optional minus sign and
    decimal digits, the form in which a device reports its port. *)
Fixpoint decimal_value (acc : Z) (s : string) : option Z :=
  match s with
  | EmptyString => Some acc
  | String c rest =>
      let k := Z.of_N (N_of_ascii c) in
      if ((48 <=? k) && (k <=? 57))%Z
      then decimal_value (10 * acc + (k - 48)) rest
      else None
  end.

Definition parse_decimal (s : string) : option Z :=
  match s with
  | EmptyString => None
  | String "-" EmptyString => None
  | String "-" rest => option_map Z.opp (decimal_value 0 rest)
  | _ => decimal_value 0 s
  end.

(** After a successful unknown-address configuration of a USB device the
    serial of the controller is the answer of the switch. *)
Definition serial_stored_is_switch_result (w : world) (device : string)
    (st : state) : Prop :=
  serial (server (final (sc_server_configure_tcpip_unknown_address w device) st))
  = result (sc_server_switch_to_tcpip w device) st.

(** ** The callbacks of a run *)

Definition not_callback (e : event) : bool := negb (is_callback e).

(** A [--list-*] query. *)
Definition list_query (p : sc_server_params) : bool :=
  list_encoders p || list_displays p || list_cameras p.

(** The claim on the callbacks as the spec states it. *)
Definition exactly_one_pattern (cbs : list callback) : Prop :=
  cbs = [on_connection_failed] \/ cbs = [on_connected; on_disconnected].

(** What the worker does: it fires exactly one of [on_connection_failed]
    (and answers -1) and [on_connected] (and answers 0); a list query
    fires nothing else; otherwise the termination hook adds
    [on_disconnected] once the observer is attached, after or before
    [on_connected], and also before [on_connection_failed] when the
    establishment fails after the observer was attached. *)
Definition callback_patterns (query : bool) (r : Z) (cbs : list callback)
  : Prop :=
  (r = (-1)%Z /\ cbs = [on_connection_failed]) \/
  (query = true /\ r = 0%Z /\ cbs = [on_connected]) \/
  (query = false /\ r = (-1)%Z /\
   cbs = [on_disconnected; on_connection_failed]) \/
  (query = false /\ r = 0%Z /\
   (cbs = [on_connected; on_disconnected] \/
    cbs = [on_disconnected; on_connected])).

(** The callbacks and the start of the process observer. *)
Definition callback_or_init (e : event) : bool :=
  match e with
  | EvCallback _ | EvObserverInit _ _ => true
  | _ => false
  end.

Definition not_callback_or_init (e : event) : bool :=
  negb (callback_or_init e).

(** The callbacks of a run together with the start of the observer:
    [on_disconnected] fires exactly when the observer was started, and
    after that; a run that fails then fires it before
    [on_connection_failed], a run that succeeds fires it after or before
    [on_connected]; a run whose observer was not started, or could not
    be started, fires [on_connection_failed] or, for a list query that
    succeeds, [on_connected], and nothing else. *)
Definition callback_trace (query : bool) (r : Z) (o : list event) : Prop :=
  (r = (-1)%Z /\ o = [EvCallback on_connection_failed]) \/
  (query = true /\ r = 0%Z /\ o = [EvCallback on_connected]) \/
  (query = false /\
   exists pid,
     (r = (-1)%Z /\
      o = [EvObserverInit pid false; EvCallback on_connection_failed]) \/
     (r = (-1)%Z /\
      o = [EvObserverInit pid true; EvCallback on_disconnected;
           EvCallback on_connection_failed]) \/
     (r = 0%Z /\
      (o = [EvObserverInit pid true; EvCallback on_connected;
            EvCallback on_disconnected] \/
       o = [EvObserverInit pid true; EvCallback on_disconnected;
            EvCallback on_connected]))).

(** ** Example worlds and inputs *)

(** Answers read from a list, then a default. *)
Definition script {A} (l : list A) (default : A) : nat -> A :=
  fun t => nth t l default.

(** A configuration with every option at its default. *)
Definition default_params : sc_server_params := {|
  scid := 169552957;            (* 0x0a1b2c3d *)
  req_serial := None; log_level := SC_LOG_LEVEL_INFO;
  video_codec := SC_CODEC_H264; audio_codec := SC_CODEC_OPUS;
  video_source := SC_VIDEO_SOURCE_DISPLAY;
  audio_source := SC_AUDIO_SOURCE_OUTPUT;
  crop := None; video_codec_options := None; audio_codec_options := None;
  video_encoder := None; audio_encoder := None; camera_id := None;
  camera_position := SC_CAMERA_POSITION_ALL;
  port_range := (27183, 27199)%N; tunnel_host := 0; tunnel_port := 0;
  max_size := 0; video_bit_rate := 0; audio_bit_rate := 0; max_fps := 0;
  lock_video_orientation := (-1); control := true; display_id := 0;
  video := true; audio := true; show_touches := false; stay_awake := false;
  force_adb_forward := false; power_off_on_close := false;
  clipboard_autosync := true; downsize_on_error := true;
  tcpip := false; tcpip_dst := None; select_usb := false;
  select_tcpip := false; cleanup := true; power_on := true;
  list_encoders := false; list_displays := false; list_cameras := false;
  kill_adb_on_close := false |}.

(** The same configuration with [--list-encoders]. *)
Definition list_encoders_params : sc_server_params := {|
  scid := 169552957;
  req_serial := None; log_level := SC_LOG_LEVEL_INFO;
  video_codec := SC_CODEC_H264; audio_codec := SC_CODEC_OPUS;
  video_source := SC_VIDEO_SOURCE_DISPLAY;
  audio_source := SC_AUDIO_SOURCE_OUTPUT;
  crop := None; video_codec_options := None; audio_codec_options := None;
  video_encoder := None; audio_encoder := None; camera_id := None;
  camera_position := SC_CAMERA_POSITION_ALL;
  port_range := (27183, 27199)%N; tunnel_host := 0; tunnel_port := 0;
  max_size := 0; video_bit_rate := 0; audio_bit_rate := 0; max_fps := 0;
  lock_video_orientation := (-1); control := true; display_id := 0;
  video := true; audio := true; show_touches := false; stay_awake := false;
  force_adb_forward := false; power_off_on_close := false;
  clipboard_autosync := true; downsize_on_error := true;
  tcpip := false; tcpip_dst := None; select_usb := false;
  select_tcpip := false; cleanup := true; power_on := true;
  list_encoders := true; list_displays := false; list_cameras := false;
  kill_adb_on_close := false |}.

(** A configuration away from the defaults: no audio, h265, a bit rate
    and a size limit, no clipboard synchronisation. *)
Definition custom_params : sc_server_params := {|
  scid := 48879;                (* 0x0000beef *)
  req_serial := None; log_level := SC_LOG_LEVEL_DEBUG;
  video_codec := SC_CODEC_H265; audio_codec := SC_CODEC_OPUS;
  video_source := SC_VIDEO_SOURCE_DISPLAY;
  audio_source := SC_AUDIO_SOURCE_OUTPUT;
  crop := None; video_codec_options := None; audio_codec_options := None;
  video_encoder := None; audio_encoder := None; camera_id := None;
  camera_position := SC_CAMERA_POSITION_ALL;
  port_range := (27183, 27199)%N; tunnel_host := 0; tunnel_port := 0;
  max_size := 1024; video_bit_rate := 8000000; audio_bit_rate := 0;
  max_fps := 0;
  lock_video_orientation := (-1); control := true; display_id := 0;
  video := true; audio := false; show_touches := false; stay_awake := false;
  force_adb_forward := true; power_off_on_close := false;
  clipboard_autosync := false; downsize_on_error := true;
  tcpip := false; tcpip_dst := None; select_usb := false;
  select_tcpip := false; cleanup := true; power_on := true;
  list_encoders := false; list_displays := false; list_cameras := false;
  kill_adb_on_close := false |}.

(** The state [sc_server_init] leaves, before the worker starts. *)
Definition initial_state (p : sc_server_params) : state :=
  {| clock := 0; next_block := 0; server := sc_server_init p;
     bg := {| interrupted := false; observer_attached := false;
              observer_fired := false |} |}.

(** The state at the entry of [execute_server] or [sc_server_connect_to]:
    the serial is known and the tunnel is open. *)
Definition tunnel_state (p : sc_server_params) (fwd : bool) : state :=
  {| clock := 0; next_block := 0;
     server :=
       {| params := p; serial := Some "A1B2C3";
          device_socket_name := Some "scrcpy_0a1b2c3d";
          tunnel := {| enabled := true; forward := fwd;
                       server_socket := if fwd then None else Some 3%Z;
                       local_port := 27183 |};
          video_socket := SC_SOCKET_NONE; audio_socket := SC_SOCKET_NONE;
          control_socket := SC_SOCKET_NONE; info_device_name := [] |};
     bg := {| interrupted := false; observer_attached := false;
              observer_fired := false |} |}.

(** A world where every call succeeds: one USB device ["A1B2C3"], fresh
    sockets, a full device name, and a remote process that runs until it
    is terminated. *)
Definition cooperative_world : world := {|
  ask_bool := fun _ => true;
  ask_socket := fun t => Some (Z.of_nat t);
  ask_string := fun _ => Some "A1B2C3";
  ask_recv := fun _ => Some (repeat x50 64);
  ask_pid := fun _ => Some 42%Z;
  ask_port := fun _ => 27183%N;
  ask_exit := fun _ => false;
  adb_executable := "adb";
  env_ANDROID_SERIAL := None;
  env_SCRCPY_SERVER_PATH := None;
  SCRCPY_VERSION := "2.2";
  PREFIX := "/usr/local";
  SC_DEVICE_NAME_FIELD_LENGTH := 64;
  IPV4_LOCALHOST := 2130706433;
  SC_LOCK_VIDEO_ORIENTATION_UNLOCKED := (-1);
  sc_str_parse_integer := parse_decimal;
  sc_adb_device_get_type := fun _ => SC_ADB_DEVICE_TYPE_USB
|}.

Definition with_answers (bools : nat -> bool)
    (strings : nat -> option string) (recvs : nat -> option (list byte))
    (w : world) : world := {|
  ask_bool := bools;
  ask_socket := ask_socket w;
  ask_string := strings;
  ask_recv := recvs;
  ask_pid := ask_pid w;
  ask_port := ask_port w;
  ask_exit := ask_exit w;
  adb_executable := adb_executable w;
  env_ANDROID_SERIAL := env_ANDROID_SERIAL w;
  env_SCRCPY_SERVER_PATH := env_SCRCPY_SERVER_PATH w;
  SCRCPY_VERSION := SCRCPY_VERSION w;
  PREFIX := PREFIX w;
  SC_DEVICE_NAME_FIELD_LENGTH := SC_DEVICE_NAME_FIELD_LENGTH w;
  IPV4_LOCALHOST := IPV4_LOCALHOST w;
  SC_LOCK_VIDEO_ORIENTATION_UNLOCKED := SC_LOCK_VIDEO_ORIENTATION_UNLOCKED w;
  sc_str_parse_integer := sc_str_parse_integer w;
  sc_adb_device_get_type := sc_adb_device_get_type w
|}.

(** The device answers its address, and its property says that TCP/IP
    mode is already enabled on port 5556. *)
Definition world_port_5556 : world :=
  with_answers (fun _ => true)
    (script [Some "192.168.1.7"; Some "5556"] None)
    (fun _ => None) cooperative_world.

(** The device answers its address and an empty property; once TCP/IP
    mode is requested the property reads 5555 at the third poll (the
    clock values 5, 7 and 9 are those of the polls). *)
Definition world_port_unset : world :=
  with_answers (fun _ => true)
    (script [Some "192.168.1.7"; Some ""; None; None; None; None; None;
             None; None; Some "5555"] None)
    (fun _ => None) cooperative_world.

(** The forward tunnel answers the probe at the third attempt: the first
    read is empty, the second fails (the clock values 2, 8 and 14 are
    those of the probes, 4 and 10 those of the interruption checks). *)
Definition world_slow_forward : world :=
  with_answers (fun t => negb (Nat.eqb t 4) && negb (Nat.eqb t 10))
    (fun _ => Some "A1B2C3")
    (fun t => if Nat.eqb t 2 then Some []
              else if Nat.eqb t 8 then None
              else if Nat.eqb t 14 then Some [x01]
              else Some (repeat x50 64))
    cooperative_world.

(** The device name arrives one byte short. *)
Definition world_short_name : world :=
  with_answers (fun _ => true) (fun _ => Some "A1B2C3")
    (fun _ => Some (repeat x50 63)) cooperative_world.

(** The remote process exits as soon as it is observed, and no
    connection is accepted. *)
Definition world_remote_exits : world := {|
  ask_bool := fun _ => true;
  ask_socket := fun _ => None;
  ask_string := fun _ => Some "A1B2C3";
  ask_recv := fun _ => None;
  ask_pid := fun _ => Some 42%Z;
  ask_port := fun _ => 27183%N;
  ask_exit := fun _ => true;
  adb_executable := "adb";
  env_ANDROID_SERIAL := None;
  env_SCRCPY_SERVER_PATH := None;
  SCRCPY_VERSION := "2.2";
  PREFIX := "/usr/local";
  SC_DEVICE_NAME_FIELD_LENGTH := 64;
  IPV4_LOCALHOST := 2130706433;
  SC_LOCK_VIDEO_ORIENTATION_UNLOCKED := (-1);
  sc_str_parse_integer := parse_decimal;
  sc_adb_device_get_type := fun _ => SC_ADB_DEVICE_TYPE_USB
|}.

(** The claim on the unknown-address switch as the spec states it: the
    request is skipped exactly when the port read is 5555, and a
    successful switch answers the address joined with 5555. *)
Definition tcpip_switch_as_claimed (w : world) (device : string) (st : state)
  : Prop :=
  forall ip r rest,
    worker_events (sc_server_switch_to_tcpip w device) st =
      EvAdbGetDeviceIp device (Some ip) :: getprop_port device r :: rest ->
    (tcpip_requests (worker_events (sc_server_switch_to_tcpip w device) st)
       = [] <-> port_of_property w r = SC_ADB_PORT_DEFAULT) /\
    (forall s, result (sc_server_switch_to_tcpip w device) st = Some s ->
       s = ip_port_string ip SC_ADB_PORT_DEFAULT).

(** The argument vector spawned for [custom_params] over a forward
    tunnel. *)
Definition custom_argv : list string :=
  Eval vm_compute in
    hd [] (executed (events (execute_server cooperative_world custom_params)
                       (tunnel_state custom_params true))).

(** What follows the two first events of the switch in
    [world_port_unset]. *)
Definition port_unset_rest : list event :=
  Eval vm_compute in
    skipn 2 (worker_events
               (sc_server_switch_to_tcpip world_port_unset "A1B2C3")
               (initial_state default_params)).

(** ** Notions used by the proofs *)

(** A postcondition speaks of the result, the final state and the events
    emitted; [wp phi m Q st] holds when the run of [m] from [st] satisfies
    [Q] on the events selected by [phi]. *)
Definition post (A : Type) : Type := A -> state -> list event -> Prop.

Definition wp {A} (phi : event -> bool) (m : M A) (Q : post A) (st : state)
  : Prop :=
  Q (result m st) (final m st) (filter phi (events m st)).

(** The two events of the termination hook are the only ones the worker
    does not emit itself; [quiet phi] says [phi] ignores them. *)
Definition quiet (phi : event -> bool) : Prop :=
  phi EvIntrInterrupt = false /\ phi (EvCallback on_disconnected) = false.

(** How one poll of the observer moves the shared part of the state. *)
Inductive bg_step (b : background) : background -> list event -> Prop :=
| bg_idle : bg_step b b []
| bg_fire :
    observer_attached b = true -> observer_fired b = false ->
    bg_step b {| interrupted := true; observer_attached := true;
                 observer_fired := true |}
            [EvIntrInterrupt; EvCallback on_disconnected].

(** The state after one call to the outside: the clock has advanced and
    the observer may have moved. *)
Definition after_call (b' : background) (st : state) : state :=
  {| clock := S (clock st); next_block := next_block st;
     server := server st; bg := b' |}.

(** Two steps of [X] that run alike can be exchanged. *)
Definition X_eq (a b : X) : Prop := forall cmd st, a cmd st = b cmd st.

(** The summary of a run of [execute_server] used by the theorems below:
    [k] parameters were allocated; either all of them, and the process
    was spawned with them, or allocation [k] failed and nothing was
    spawned. *)
Definition execute_server_outcome (w : world) (p : sc_server_params)
    (st : state) (r : sc_pid) (o : list event) : Prop :=
  let l := server_params_list w (forward (tunnel (server st))) p in
  let head := execute_server_head w (serial (server st)) in
  (o = alloc_events (next_block st) l ++
       [EvAdbExecute
          (argv_of (head ++ alloc_entries (next_block st) l ++ [Null])) r] ++
       free_events (next_block st) l)
  \/
  (exists k, k < List.length l /\ r = SC_PROCESS_NONE /\
     o = alloc_events (next_block st) (firstn k l) ++
         [EvAsprintf None] ++
         free_events (next_block st) (firstn k l)).

(** A step of [X] is plain when it is so on every command line. *)
Definition plainX (w : world) (allowed : event -> bool) (a : X) : Prop :=
  forall cmd, plain w allowed (a cmd).

(** The kinds of events of the connection to the device. *)
Definition connect_kinds : list event_kind :=
  [KSocket; KProbe; KHandshake; KSync; KTunnelClose].

(** The kinds of events of the switch to TCP/IP. *)
Definition tcpip_kinds : list event_kind := [KAllocator; KAdb; KSync].

(** The events emitted while the first socket is being established. *)
Definition establishing (e : event) : bool :=
  of_kinds [KSocket; KProbe; KSync] e.

(** A socket as the list of descriptors it holds. *)
Definition socket_list (s : sc_socket) : list Z :=
  match s with Some z => [z] | None => [] end.

(** The events of the hook among the callback events of plain code. *)
Definition hook_events (b b' : background) (o : list event) : Prop :=
  observer_attached b' = observer_attached b /\
  ((observer_fired b' = observer_fired b /\ o = []) \/
   (observer_attached b = true /\ observer_fired b = false /\
    observer_fired b' = true /\ o = [EvCallback on_disconnected])).

(** Selects the openings of the tunnel. *)
Definition tunnel_open_event (e : event) : bool := of_kinds [KTunnelOpen] e.
(** * Further observations *)

(** The array [cmd] of [execute_server] has 128 slots. *)
Definition cmd_capacity : nat := 128.

(** The sockets held by the controller, in the order video, audio,
    control. *)
Definition stream_sockets (srv : sc_server) : list Z :=
  socket_list (video_socket srv) ++ socket_list (audio_socket srv) ++
  socket_list (control_socket srv).

(** The number of streams enabled. *)
Definition enabled_streams (p : sc_server_params) : nat :=
  (if video p then 1 else 0) + (if audio p then 1 else 0) +
  (if control p then 1 else 0).

(** The sockets accepted, in order, with the socket listened on. *)
Definition accepts (out : list event) : list (sc_socket * sc_socket) :=
  flat_map (fun e => match e with
                     | EvNetAccept srv r => [(srv, r)]
                     | _ => []
                     end) out.

(** What the establishment may do over a reverse tunnel: accept on the
    listening socket of the tunnel, close a socket, close the tunnel and
    read the device name. *)
Definition reverse_event (listener : sc_socket) (e : event) : Prop :=
  match e with
  | EvNetAccept srv _ => srv = listener
  | EvNetClose _ | EvAdbTunnelClose _ _ | EvNetRecvAll _ _ _ => True
  | _ => False
  end.

(** What it may do over a forward tunnel: anything but accept, and
    connect to the address of the tunnel only. *)
Definition forward_event (host port : N) (e : event) : Prop :=
  match e with
  | EvNetConnect _ h p _ => h = host /\ p = port
  | EvNetAccept _ _ => False
  | _ => True
  end.

(** The tunnel is closed for the serial and the socket name of the
    controller. *)
Definition closes_tunnel_of (srv : sc_server) (e : event) : Prop :=
  match e with
  | EvAdbTunnelClose s n => s = serial srv /\ n = device_socket_name srv
  | EvAdbTunnelOpen _ _ _ => False
  | _ => True
  end.

(** What every run of [sc_server_connect_to] leaves of the controller,
    and what its events are made of. *)
Definition connect_to_frame (w : world) (st : state) (r : bool) (st' : state)
    (o : list event) : Prop :=
  let srv := server st in
  let srv' := server st' in
  (params srv' = params srv /\ serial srv' = serial srv /\
   device_socket_name srv' = device_socket_name srv /\
   forward (tunnel srv') = forward (tunnel srv) /\
   server_socket (tunnel srv') = server_socket (tunnel srv) /\
   local_port (tunnel srv') = local_port (tunnel srv)) /\
  (r = false ->
     video_socket srv' = video_socket srv /\
     audio_socket srv' = audio_socket srv /\
     control_socket srv' = control_socket srv /\
     info_device_name srv' = info_device_name srv) /\
  (r = true ->
     video (params srv) || audio (params srv) || control (params srv) = true ->
     opened o = closed o ++ stream_sockets srv') /\
  (forward (tunnel srv) = false ->
     Forall (reverse_event (server_socket (tunnel srv))) o /\
     List.length (accepts o) <= enabled_streams (params srv) /\
     (r = true -> List.length (accepts o) = enabled_streams (params srv))) /\
  (forward (tunnel srv) = true ->
     Forall (forward_event (forward_host w srv) (forward_port srv)) o) /\
  Forall (closes_tunnel_of srv) o.

(** The sleeps of a run: delay and whether the sleep ended without a
    stop. *)
Definition sleeps (out : list event) : list (N * bool) :=
  flat_map (fun e => match e with EvSleep d ok => [(d, ok)] | _ => [] end) out.

(** The events of [push_server]. *)
Definition path_events (e : event) : bool :=
  match e with
  | EvAsprintf _ | EvFree _ | EvFileIsRegular _ _ | EvAdbPush _ _ _ _ => true
  | _ => false
  end.

(** The events of the two TCP/IP configurations. *)
Definition switch_events (e : event) : bool :=
  match e with
  | EvAsprintf _ | EvAdbGetDeviceIp _ _ | EvAdbGetprop _ _ _ _
  | EvAdbTcpip _ _ _ _ | EvSleep _ _ | EvAdbDisconnect _ _
  | EvAdbConnect _ _ _ => true
  | _ => false
  end.

(** The wake-ups of the stream sockets. *)
Definition interrupt_events (e : event) : bool :=
  match e with EvNetInterrupt _ => true | _ => false end.

(** The events of [sc_server_kill_adb_if_requested]. *)
Definition kill_events (e : event) : bool :=
  match e with EvAdbKillServer _ => true | _ => false end.

(** A configuration writes the serial only, and a successful one leaves
    a serial. *)
Definition serial_set (st : state) (r : bool) (st' : state) : Prop :=
  exists s, server st' = with_serial s (server st) /\
            (r = true -> is_some s = true).

(** The openings and closings of the tunnel. *)
Definition tunnel_event (e : event) : bool :=
  of_kinds [KTunnelOpen; KTunnelClose] e.

(** Opening the tunnel writes the tunnel only, and enables it when it
    succeeds. *)
Definition tunnel_set (st : state) (r : bool) (st' : state) : Prop :=
  exists t, server st' = with_tunnel t (server st) /\
            (r = true -> enabled t = true) /\
            (r = false -> t = tunnel (server st)).

(** The establishment leaves the parameters, the serial and the socket
    name, and a disabled tunnel. *)
Definition established (st : state) (st' : state) : Prop :=
  params (server st') = params (server st) /\
  serial (server st') = serial (server st) /\
  device_socket_name (server st') = device_socket_name (server st) /\
  enabled (tunnel (server st')) = false.

(** The kills of the adb server and the callbacks fired by the worker. *)
Definition kill_or_callback (e : event) : bool :=
  match e with
  | EvAdbKillServer _ => true
  | EvCallback on_connection_failed | EvCallback on_connected => true
  | _ => false
  end.

(** The command issued by [sc_server_kill_adb_if_requested]. *)
Definition kill_adb : event :=
  EvAdbKillServer [SC_ADB_NO_STDOUT; SC_ADB_NO_STDERR; SC_ADB_NO_LOGERR].

(** The start of the adb server and the selections of a device. *)
Definition start_or_select (e : event) : bool :=
  match e with
  | EvAdbStartServer | EvAdbSelectDevice _ => true
  | _ => false
  end.

(** The spawn of the remote process and the calls on the process
    observer. *)
Definition observer_event (e : event) : bool :=
  of_kinds [KExecute; KObserver] e.

(** The spawn of the remote process and the calls on it. *)
Definition process_event (e : event) : bool :=
  of_kinds [KExecute; KProcess] e.

(** The check and the push of the server file, and the spawn. *)
Definition push_or_execute (e : event) : bool :=
  match e with
  | EvFileIsRegular _ _ | EvAdbPush _ _ _ _ | EvAdbExecute _ _ => true
  | _ => false
  end.

(** The path of the server file on the computer: the environment
    variable if it is set, the installed file otherwise. *)
Definition server_path (w : world) : string :=
  match env_SCRCPY_SERVER_PATH w with
  | Some path => path
  | None => SC_SERVER_PATH_DEFAULT w
  end.

(** The runs of [push_server], by result and worker events: the path
    cannot be allocated; or it is not a regular file, and is freed; or
    the file is pushed, and the path is freed. *)
Inductive push_outcome (w : world) (serial : string)
  : bool -> list event -> Prop :=
| push_no_path : push_outcome w serial false [EvAsprintf None]
| push_not_regular block :
    push_outcome w serial false
      [EvAsprintf (Some (block, server_path w));
       EvFileIsRegular (server_path w) false; EvFree block]
| push_done block ok :
    push_outcome w serial ok
      [EvAsprintf (Some (block, server_path w));
       EvFileIsRegular (server_path w) true;
       EvAdbPush serial (server_path w) SC_DEVICE_SERVER_PATH ok;
       EvFree block].


(** The opening of the tunnel and the spawn of the remote process. *)
Definition open_or_execute (e : event) : bool :=
  of_kinds [KTunnelOpen; KExecute] e.


(** The only device is already connected over TCP/IP. *)
Definition world_tcpip_device : world := {|
  ask_bool := fun _ => true;
  ask_socket := fun t => Some (Z.of_nat t);
  ask_string := fun _ => Some "192.168.1.7:5555";
  ask_recv := fun _ => Some (repeat x50 64);
  ask_pid := fun _ => Some 42%Z;
  ask_port := fun _ => 27183%N;
  ask_exit := fun _ => false;
  adb_executable := "adb";
  env_ANDROID_SERIAL := None;
  env_SCRCPY_SERVER_PATH := None;
  SCRCPY_VERSION := "2.2";
  PREFIX := "/usr/local";
  SC_DEVICE_NAME_FIELD_LENGTH := 64;
  IPV4_LOCALHOST := 2130706433;
  SC_LOCK_VIDEO_ORIENTATION_UNLOCKED := (-1);
  sc_str_parse_integer := parse_decimal;
  sc_adb_device_get_type := fun _ => SC_ADB_DEVICE_TYPE_TCPIP
|}.

(** The property is unset at the first read and reads 5555 at the
    second. *)
Definition world_port_appears : world :=
  with_answers (fun _ => true) (script [None; None; Some "5555"] None)
    (fun _ => None) cooperative_world.

(** ** The copy of the parameters *)

Module ParamsCopy.

(** A [char *]: [NULL], or the block it points to and the string
    there. *)
Definition str : Type := option (nat * string).

(** The fields of [struct sc_server_params] that are strings, as
    pointers: the seven that [sc_server_params_copy] duplicates, and
    [camera_id], which the file prints with [%s] and which the assignment
    [*dst = *src] copies like every other field. *)
Record strings := {
  req_serial : str;
  crop : str;
  video_codec_options : str;
  audio_codec_options : str;
  video_encoder : str;
  audio_encoder : str;
  camera_id : str;
  tcpip_dst : str
}.

Definition set_req_serial (v : str) (p : strings) : strings :=
  {| req_serial := v; crop := crop p;
     video_codec_options := video_codec_options p;
     audio_codec_options := audio_codec_options p;
     video_encoder := video_encoder p; audio_encoder := audio_encoder p;
     camera_id := camera_id p; tcpip_dst := tcpip_dst p |}.

Definition set_crop (v : str) (p : strings) : strings :=
  {| req_serial := req_serial p; crop := v;
     video_codec_options := video_codec_options p;
     audio_codec_options := audio_codec_options p;
     video_encoder := video_encoder p; audio_encoder := audio_encoder p;
     camera_id := camera_id p; tcpip_dst := tcpip_dst p |}.

Definition set_video_codec_options (v : str) (p : strings) : strings :=
  {| req_serial := req_serial p; crop := crop p;
     video_codec_options := v;
     audio_codec_options := audio_codec_options p;
     video_encoder := video_encoder p; audio_encoder := audio_encoder p;
     camera_id := camera_id p; tcpip_dst := tcpip_dst p |}.

Definition set_audio_codec_options (v : str) (p : strings) : strings :=
  {| req_serial := req_serial p; crop := crop p;
     video_codec_options := video_codec_options p;
     audio_codec_options := v;
     video_encoder := video_encoder p; audio_encoder := audio_encoder p;
     camera_id := camera_id p; tcpip_dst := tcpip_dst p |}.

Definition set_video_encoder (v : str) (p : strings) : strings :=
  {| req_serial := req_serial p; crop := crop p;
     video_codec_options := video_codec_options p;
     audio_codec_options := audio_codec_options p;
     video_encoder := v; audio_encoder := audio_encoder p;
     camera_id := camera_id p; tcpip_dst := tcpip_dst p |}.

Definition set_audio_encoder (v : str) (p : strings) : strings :=
  {| req_serial := req_serial p; crop := crop p;
     video_codec_options := video_codec_options p;
     audio_codec_options := audio_codec_options p;
     video_encoder := video_encoder p; audio_encoder := v;
     camera_id := camera_id p; tcpip_dst := tcpip_dst p |}.

Definition set_tcpip_dst (v : str) (p : strings) : strings :=
  {| req_serial := req_serial p; crop := crop p;
     video_codec_options := video_codec_options p;
     audio_codec_options := audio_codec_options p;
     video_encoder := video_encoder p; audio_encoder := audio_encoder p;
     camera_id := camera_id p; tcpip_dst := v |}.

Section Copy.

Variable w : world.

(** [free]: nothing for [NULL]. *)
Definition free (p : str) : M unit :=
  match p with
  | Some (b, _) => call w (EvFree b)
  | None => ret tt
  end.

(** [strdup]: a new block with the same string, or [NULL]. *)
Definition strdup (s : string) : M str :=
  r <- asprintf w s ;;
  ret (match r with Some b => Some (b, s) | None => None end).

Definition sc_server_params_destroy (params : strings) : M unit :=
  free (req_serial params) ;;
  free (crop params) ;;
  free (video_codec_options params) ;;
  free (audio_codec_options params) ;;
  free (video_encoder params) ;;
  free (audio_encoder params) ;;
  free (tcpip_dst params).

(** The macro [COPY]: the field of [dst] is set to [NULL], then to a
    copy of the field of [src] if there is one; [false] is [goto
    error]. *)
Definition COPY (field : strings -> str) (set : str -> strings -> strings)
    (src dst : strings) : M (bool * strings) :=
  let dst := set None dst in
  match field src with
  | Some (_, s) =>
      copy <- strdup s ;;
      let dst := set copy dst in
      if is_some copy then ret (true, dst) else ret (false, dst)
  | None => ret (true, dst)
  end.

(** One [COPY] after the other, up to the first that fails. *)
Definition and_then (a : M (bool * strings))
    (k : strings -> M (bool * strings)) : M (bool * strings) :=
  r <- a ;;
  if fst r then k (snd r) else ret r.

(** [sc_server_params_copy]: the result and the value of [*dst]. *)
Definition sc_server_params_copy (src : strings) : M (bool * strings) :=
  let dst := src in
  r <- and_then (COPY req_serial set_req_serial src dst) (fun dst =>
       and_then (COPY crop set_crop src dst) (fun dst =>
       and_then (COPY video_codec_options set_video_codec_options src dst)
         (fun dst =>
       and_then (COPY audio_codec_options set_audio_codec_options src dst)
         (fun dst =>
       and_then (COPY video_encoder set_video_encoder src dst) (fun dst =>
       and_then (COPY audio_encoder set_audio_encoder src dst) (fun dst =>
       COPY tcpip_dst set_tcpip_dst src dst)))))) ;;
  if fst r then ret (true, snd r)
  else
    (* error: *)
    sc_server_params_destroy (snd r) ;;
    ret (false, snd r).

End Copy.

(** The seven fields that are copied, in the order of the copies. *)
Definition fields (p : strings) : list str :=
  [ req_serial p; crop p; video_codec_options p; audio_codec_options p;
    video_encoder p; audio_encoder p; tcpip_dst p ].

(** The blocks and the strings that pointers point to. *)
Definition blocks (l : list str) : list nat :=
  flat_map (fun p => match p with Some (b, _) => [b] | None => [] end) l.

Definition content (p : str) : option string := option_map snd p.

(** *** Observations on the copy *)

(** The copy of a pointer in the block [nb], the events of that copy,
    and the next free block. *)
Definition copied (nb : nat) (p : str) : str :=
  match p with Some (_, s) => Some (nb, s) | None => None end.

Definition copy_events (nb : nat) (p : str) : list event :=
  match p with Some (_, s) => [EvAsprintf (Some (nb, s))] | None => [] end.

Definition bump (nb : nat) (p : str) : nat :=
  match p with Some _ => S nb | None => nb end.

Fixpoint copies (nb : nat) (l : list str) : list str :=
  match l with
  | [] => []
  | p :: rest => copied nb p :: copies (bump nb p) rest
  end.

Fixpoint copies_events (nb : nat) (l : list str) : list event :=
  match l with
  | [] => []
  | p :: rest => copy_events nb p ++ copies_events (bump nb p) rest
  end.

Definition free_events_of (l : list str) : list event :=
  flat_map (fun p => match p with Some (b, _) => [EvFree b] | None => [] end) l.

(** The runs of [sc_server_params_copy]: every field is copied; or the
    copy of the field [k] fails after the fields before it were copied,
    and the destination is destroyed as it is then: the copies, [NULL]
    for the field [k], and the pointers of the source in the fields that
    follow.  In both cases [camera_id] is the pointer of the source. *)
Definition copy_outcome (src : strings) (nb : nat) (r : bool * strings)
    (o : list event) : Prop :=
  camera_id (snd r) = camera_id src /\
  ((fst r = true /\
   fields (snd r) = copies nb (fields src) /\
   o = copies_events nb (fields src)) \/
  (exists k,
     k < 7 /\ nth k (fields src) None <> None /\
     fst r = false /\
     fields (snd r) =
       copies nb (firstn k (fields src)) ++ [None] ++
       skipn (S k) (fields src) /\
     o = copies_events nb (firstn k (fields src)) ++ [EvAsprintf None] ++
         free_events_of (fields (snd r)))).

(** *** Examples *)

(** Parameters with four strings, in blocks of the caller. *)
Definition copy_source : strings := {|
  req_serial := Some (100, "A1B2C3");
  crop := None;
  video_codec_options := Some (101, "profile=1");
  audio_codec_options := None;
  video_encoder := Some (102, "OMX.qcom.video.encoder.avc");
  audio_encoder := None;
  camera_id := Some (104, "0");
  tcpip_dst := Some (103, "192.168.1.7")
|}.

(** The second allocation fails. *)
Definition world_second_alloc_fails : world :=
  with_answers (script [true; false] true) (fun _ => None) (fun _ => None)
    cooperative_world.

End ParamsCopy.
(** ** Lemmas on the conversions *)

Module FmtFacts.
Local Open Scope string_scope.
Import Fmt.


Lemma length_app (s t : string) :
  String.length (s ++ t) = String.length s + String.length t.
Proof. induction s; simpl; auto. Qed.







Lemma forallb_app (f : ascii -> bool) (s t : string) :
  string_forallb f (s ++ t) = string_forallb f s && string_forallb f t.
Proof.
  induction s as [|c s IH]; simpl; [reflexivity|].
  now rewrite IH, andb_assoc.
Qed.



End FmtFacts.


(** ** Reasoning about worker computations *)

Section Reasoning.

Variable w : world.

Lemma bind_unfold {A B} (m : M A) (k : A -> M B) (st : state) :
  bind m k st =
  (result (k (result m st)) (final m st),
   final (k (result m st)) (final m st),
   events m st ++ events (k (result m st)) (final m st)).
Proof.
  unfold bind, result, final, events.
  destruct (m st) as [[a st1] o1]. cbn.
  destruct (k a st1) as [[b st2] o2]. reflexivity.
Qed.

Lemma result_bind {A B} (m : M A) (k : A -> M B) st :
  result (bind m k) st = result (k (result m st)) (final m st).
Proof. unfold result at 1. now rewrite bind_unfold. Qed.

Lemma final_bind {A B} (m : M A) (k : A -> M B) st :
  final (bind m k) st = final (k (result m st)) (final m st).
Proof. unfold final at 1. now rewrite bind_unfold. Qed.

Lemma events_bind {A B} (m : M A) (k : A -> M B) st :
  events (bind m k) st = events m st ++ events (k (result m st)) (final m st).
Proof. unfold events at 1. now rewrite bind_unfold. Qed.

Lemma wp_ret {A} phi (a : A) (Q : post A) st :
  Q a st [] -> wp phi (ret a) Q st.
Proof. exact (fun H => H). Qed.

Lemma wp_bind {A B} phi (m : M A) (k : A -> M B) (Q : post B) st :
  wp phi m (fun a st1 o1 =>
    wp phi (k a) (fun b st2 o2 => Q b st2 (o1 ++ o2)) st1) st ->
  wp phi (bind m k) Q st.
Proof.
  unfold wp. now rewrite result_bind, final_bind, events_bind, filter_app.
Qed.

Lemma wp_conseq {A} phi (m : M A) (Q Q' : post A) st :
  wp phi m Q st -> (forall a st' o, Q a st' o -> Q' a st' o) ->
  wp phi m Q' st.
Proof. unfold wp. auto. Qed.

Lemma wp_get_state phi (Q : post state) st :
  Q st st [] -> wp phi get_state Q st.
Proof. exact (fun H => H). Qed.

Lemma wp_get_server phi (Q : post sc_server) st :
  Q (server st) st [] -> wp phi get_server Q st.
Proof. exact (fun H => H). Qed.

Lemma wp_modify phi f (Q : post unit) st :
  Q tt (f st) [] -> wp phi (modify f) Q st.
Proof. exact (fun H => H). Qed.

Lemma wp_update_server phi f (Q : post unit) st :
  Q tt (set_server f st) [] -> wp phi (update_server f) Q st.
Proof. exact (fun H => H). Qed.

Lemma wp_emit phi e (Q : post unit) st :
  Q tt st (filter phi [e]) -> wp phi (emit e) Q st.
Proof. exact (fun H => H). Qed.

Lemma wp_when phi (c : bool) (m : M unit) (Q : post unit) st :
  (c = true -> wp phi m Q st) -> (c = false -> Q tt st []) ->
  wp phi (when c m) Q st.
Proof.
  intros H1 H2. destruct c; [apply H1 | apply wp_ret, H2]; reflexivity.
Qed.

(** The hook, run from a state where it has not run yet. *)
Lemma wp_on_terminated phi (Q : post unit) st :
  Q tt (set_interrupted true st)
    (filter phi [EvIntrInterrupt; EvCallback on_disconnected]) ->
  wp phi (sc_server_on_terminated) Q st.
Proof. exact (fun H => H). Qed.

Lemma wp_poll phi (Q : post unit) st :
  (forall b' noise, bg_step (bg st) b' noise ->
     Q tt (set_bg b' st) (filter phi noise)) ->
  wp phi (observer_poll w) Q st.
Proof.
  intros H. unfold observer_poll.
  apply wp_bind, wp_get_state.
  destruct (observer_attached (bg st)) eqn:Ha;
    destruct (observer_fired (bg st)) eqn:Hf;
    destruct (ask_exit w (clock st)); cbn [andb negb];
    try (apply wp_ret; specialize (H _ _ (bg_idle (bg st)));
         destruct st; exact H).
  apply wp_bind, wp_modify, wp_on_terminated.
  specialize (H _ _ (bg_fire (bg st) Ha Hf)).
  destruct st; exact H.
Qed.

Lemma wp_tick {A} phi (ask : world -> nat -> A) (Q : post A) st :
  (forall b' noise, bg_step (bg st) b' noise ->
     Q (ask w (clock st)) (after_call b' st) (filter phi noise)) ->
  wp phi (tick w ask) Q st.
Proof.
  intros H. unfold tick.
  apply wp_bind, wp_poll. intros b' noise Hs.
  apply wp_bind, wp_get_state, wp_bind, wp_modify, wp_ret.
  rewrite !app_nil_r. exact (H _ _ Hs).
Qed.

Lemma wp_ext {A} phi (ask : world -> nat -> A) ev (Q : post A) st :
  (forall b' noise, bg_step (bg st) b' noise ->
     Q (ask w (clock st)) (after_call b' st)
       (filter phi noise ++ filter phi [ev (ask w (clock st))])) ->
  wp phi (ext w ask ev) Q st.
Proof.
  intros H. unfold ext.
  apply wp_bind, wp_tick. intros b' noise Hs.
  apply wp_bind, wp_emit, wp_ret.
  rewrite app_nil_r. exact (H _ _ Hs).
Qed.

Lemma quiet_noise phi b b' noise :
  quiet phi -> bg_step b b' noise -> filter phi noise = [].
Proof.
  intros [H1 H2] [|]; [reflexivity|]. cbn. now rewrite H1, H2.
Qed.

(** For a [quiet] selection the observer is invisible in the events. *)
Lemma wp_tick_quiet {A} phi (ask : world -> nat -> A) (Q : post A) st :
  quiet phi ->
  (forall b', Q (ask w (clock st)) (after_call b' st) []) ->
  wp phi (tick w ask) Q st.
Proof.
  intros Hq H. apply wp_tick. intros b' noise Hs.
  rewrite (quiet_noise _ _ _ _ Hq Hs). apply H.
Qed.

Lemma wp_ext_quiet {A} phi (ask : world -> nat -> A) ev (Q : post A) st :
  quiet phi ->
  (forall b', Q (ask w (clock st)) (after_call b' st)
                (filter phi [ev (ask w (clock st))])) ->
  wp phi (ext w ask ev) Q st.
Proof.
  intros Hq H. apply wp_ext. intros b' noise Hs.
  rewrite (quiet_noise _ _ _ _ Hq Hs). apply H.
Qed.

Lemma wp_call_quiet phi e (Q : post unit) st :
  quiet phi ->
  (forall b', Q tt (after_call b' st) (filter phi [e])) ->
  wp phi (call w e) Q st.
Proof. intros Hq H. unfold call. now apply wp_ext_quiet. Qed.

End Reasoning.

(** One step of symbolic execution under a [quiet] selection. *)
Ltac wp_quiet_step Hq :=
  lazymatch goal with
  | |- wp _ (bind _ _) _ _ => apply wp_bind
  | |- wp _ (ret _) _ _ => apply wp_ret
  | |- wp _ get_state _ _ => apply wp_get_state
  | |- wp _ get_server _ _ => apply wp_get_server
  | |- wp _ (modify _) _ _ => apply wp_modify
  | |- wp _ (update_server _) _ _ => apply wp_update_server
  | |- wp _ (emit _) _ _ => apply wp_emit
  | |- wp _ (ext _ _ _) _ _ => apply (wp_ext_quiet _ _ _ _ _ _ Hq); intros ?b
  | |- wp _ (call _ _) _ _ => apply (wp_call_quiet _ _ _ _ _ Hq); intros ?b
  | |- wp _ (tick _ _) _ _ => apply (wp_tick_quiet _ _ _ _ _ Hq); intros ?b
  end.

Lemma quiet_worker_event : quiet worker_event.
Proof. split; reflexivity. Qed.

(** One step of symbolic execution for the events of the worker; a test
    of the code is decided by case analysis. *)
Ltac wp_step :=
  cbv beta;
  lazymatch goal with
  | |- wp _ (bind _ _) _ _ => apply wp_bind
  | |- wp _ (ret _) _ _ => apply wp_ret
  | |- wp _ get_state _ _ => apply wp_get_state
  | |- wp _ get_server _ _ => apply wp_get_server
  | |- wp _ (modify _) _ _ => apply wp_modify
  | |- wp _ (update_server _) _ _ => apply wp_update_server
  | |- wp _ (emit _) _ _ => apply wp_emit
  | |- wp _ (ext _ _ _) _ _ =>
      apply wp_ext_quiet; [exact quiet_worker_event | intros ?b]
  | |- wp _ (call _ _) _ _ =>
      apply wp_call_quiet; [exact quiet_worker_event | intros ?b]
  | |- wp _ (tick _ _) _ _ =>
      apply wp_tick_quiet; [exact quiet_worker_event | intros ?b]
  | |- wp _ (when ?c _) _ _ => apply wp_when; intros ?
  | |- wp _ (if ?c then _ else _) _ _ => destruct c eqn:?
  | |- wp _ (match ?c with _ => _ end) _ _ => destruct c eqn:?
  end.

(** Symbolic execution to the end of a computation: a test whose outcome
    is already known is rewritten, the others are decided by case analysis
    on the value tested. *)
Ltac wp_norm :=
  cbv beta zeta;
  cbn [is_some negb andb orb fst snd when filter worker_event app
       clock next_block server bg after_call set_server set_bg set_clock
       set_next_block tunnel params serial device_socket_name
       with_tunnel with_sockets with_device_name with_serial
       with_device_socket_name enabled forward server_socket local_port
       video_socket audio_socket control_socket info_device_name].

Ltac wp_known :=
  match goal with
  | H : ?t = _ |- wp _ (if ?t then _ else _) _ _ => rewrite H
  | H : ?t = _ |- wp _ (if negb ?t then _ else _) _ _ => rewrite H
  | H : ?t = _ |- wp _ (if is_some ?t then _ else _) _ _ => rewrite H
  | H : ?t = _ |- wp _ (if negb (is_some ?t) then _ else _) _ _ => rewrite H
  | H : ?t = _ |- wp _ (match ?t with _ => _ end) _ _ => rewrite H
  end.

Ltac wp_go_step :=
  wp_norm;
  first
  [ wp_known
  | lazymatch goal with
    | |- wp _ (bind _ _) _ _ => apply wp_bind
    | |- wp _ (ret _) _ _ => apply wp_ret
    | |- wp _ get_state _ _ => apply wp_get_state
    | |- wp _ get_server _ _ => apply wp_get_server
    | |- wp _ (modify _) _ _ => apply wp_modify
    | |- wp _ (update_server _) _ _ => apply wp_update_server
    | |- wp _ (emit _) _ _ => apply wp_emit
    | |- wp _ (ext _ _ _) _ _ =>
        apply wp_ext_quiet; [exact quiet_worker_event | intros ?b]
    | |- wp _ (call _ _) _ _ =>
        apply wp_call_quiet; [exact quiet_worker_event | intros ?b]
    | |- wp _ (tick _ _) _ _ =>
        apply wp_tick_quiet; [exact quiet_worker_event | intros ?b]
    | |- wp _ (when _ _) _ _ => unfold when
    | |- wp _ (if negb (is_some ?x) then _ else _) _ _ => destruct x eqn:?
    | |- wp _ (if is_some ?x then _ else _) _ _ => destruct x eqn:?
    | |- wp _ (if negb ?c then _ else _) _ _ => destruct c eqn:?
    | |- wp _ (if ?c then _ else _) _ _ => destruct c eqn:?
    | |- wp _ (match ?c with _ => _ end) _ _ => destruct c eqn:?
    end ].

(** Rewrite the goal with the outcomes recorded during the execution. *)
Ltac use_known :=
  repeat match goal with
         | H : ?t = _ |- context [?t] => rewrite H
         end.

(** ** Facts on [execute_server] *)

Section ExecuteServerFacts.

Variable w : world.

Lemma wp_asprintf (s : string) (Q : post (option nat)) st :
  (ask_bool w (clock st) = true -> forall b',
     Q (Some (next_block st))
       {| clock := S (clock st); next_block := S (next_block st);
          server := server st; bg := b' |}
       [EvAsprintf (Some (next_block st, s))]) ->
  (ask_bool w (clock st) = false -> forall b',
     Q None (after_call b' st) [EvAsprintf None]) ->
  wp worker_event (asprintf w s) Q st.
Proof.
  intros Hok Hfail. unfold asprintf.
  apply wp_bind, wp_tick_quiet; [exact quiet_worker_event|]. intros b'.
  destruct (ask_bool w (clock st)) eqn:E.
  - repeat wp_quiet_step quiet_worker_event. cbn. now apply Hok.
  - repeat wp_quiet_step quiet_worker_event. cbn. now apply Hfail.
Qed.

Lemma X_eq_refl a : X_eq a a.
Proof. now intros cmd st. Qed.

Lemma bind_ext {A B} (m m' : M A) (k k' : A -> M B) st :
  m st = m' st -> (forall a st1, k a st1 = k' a st1) ->
  bind m k st = bind m' k' st.
Proof.
  intros Hm Hk. unfold bind. rewrite Hm.
  destruct (m' st) as [[a st1] o1]. now rewrite Hk.
Qed.

Lemma seqX_eq a a' b b' : X_eq a a' -> X_eq b b' -> X_eq (a ;;; b) (a' ;;; b').
Proof.
  intros Ha Hb cmd st. unfold seqX. apply bind_ext; [apply Ha|].
  intros [ok cmd'] st1. cbn. destruct ok; [apply Hb | reflexivity].
Qed.

Lemma seqX_skip_l b : X_eq (skipX ;;; b) b.
Proof.
  intros cmd st. unfold seqX, skipX, bind, ret. cbn.
  now destruct (b cmd st) as [[r st'] o].
Qed.

Lemma seqX_assoc a b c : X_eq ((a ;;; b) ;;; c) (a ;;; (b ;;; c)).
Proof.
  intros cmd st. unfold seqX, bind, ret.
  destruct (a cmd st) as [[[ok cmd1] st1] o1]. cbn.
  destruct ok; cbn.
  - destruct (b cmd1 st1) as [[[ok2 cmd2] st2] o2]. cbn.
    destruct ok2; cbn.
    + destruct (c cmd2 st2) as [[r3 st3] o3]. now rewrite app_assoc.
    + now rewrite !app_nil_r.
  - now rewrite !app_nil_r.
Qed.

Lemma add_params_app l1 l2 :
  X_eq (add_params w (l1 ++ l2)) (add_params w l1 ;;; add_params w l2).
Proof.
  induction l1 as [|s l1 IH]; cbn [add_params app].
  - intros cmd st. symmetry. apply seqX_skip_l.
  - intros cmd st. rewrite seqX_assoc.
    apply seqX_eq; [apply X_eq_refl | exact IH].
Qed.

Lemma add_params_one s : X_eq (ADD_PARAM w s) (add_params w [s]).
Proof.
  intros cmd st. cbn. unfold seqX, skipX, bind, ret.
  destruct (ADD_PARAM w s cmd st) as [[[ok cmd1] st1] o1]. cbn.
  destruct ok; now rewrite app_nil_r.
Qed.

Lemma add_params_opt c s : X_eq (ifX c (ADD_PARAM w s)) (add_params w (opt c s)).
Proof. destruct c; [apply add_params_one | apply X_eq_refl]. Qed.

(** One more step in front of a list of parameters. *)
Lemma add_params_cons a l1 b l2 :
  X_eq a (add_params w l1) -> X_eq b (add_params w l2) ->
  X_eq (a ;;; b) (add_params w (l1 ++ l2)).
Proof.
  intros Ha Hb cmd st. rewrite add_params_app. now apply seqX_eq.
Qed.

(** [execute_server_params] adds the strings of [server_params_list]. *)
Lemma execute_server_params_list fwd p :
  X_eq (execute_server_params w fwd p) (add_params w (server_params_list w fwd p)).
Proof.
  unfold execute_server_params, server_params_list.
  repeat (apply add_params_cons;
          [first [apply add_params_one | apply add_params_opt | idtac]|]);
    try apply add_params_opt.
  destruct (is_camera (video_source p) && negb (is_all (camera_position p)))
    eqn:E; [|apply X_eq_refl].
  destruct (camera_position p); try apply add_params_one.
  now rewrite andb_false_r in E.
Qed.

Lemma firstn_S_cons {A} k (x : A) l : firstn (S k) (x :: l) = x :: firstn k l.
Proof. reflexivity. Qed.

(** [add_params] allocates a prefix of its list: [k] strings, all of them
    unless an allocation failed. *)
Lemma wp_add_params (l : list string) : forall cmd (Q : post (bool * list cmd_entry)) st,
  (forall k c' b', k <= List.length l ->
     Q ((k =? List.length l)%nat,
        cmd ++ alloc_entries (next_block st) (firstn k l))
       {| clock := c'; next_block := next_block st + k;
          server := server st; bg := b' |}
       (alloc_events (next_block st) (firstn k l) ++
        if (k =? List.length l)%nat then [] else [EvAsprintf None])) ->
  wp worker_event (add_params w l cmd) Q st.
Proof.
  induction l as [|s l IH]; intros cmd Q st H.
  - cbn [add_params]. apply wp_ret.
    specialize (H 0 (clock st) (bg st) (le_n _)).
    cbn in H. rewrite app_nil_r, Nat.add_0_r in H. destruct st; exact H.
  - cbn [add_params]. unfold seqX at 1.
    apply wp_bind. unfold ADD_PARAM.
    apply wp_bind, wp_asprintf; intros E b'.
    + apply wp_ret. cbn [fst snd]. apply IH. intros k c' b2 Hk.
      specialize (H (S k) c' b2 ltac:(cbn; lia)).
      cbn [List.length Nat.eqb firstn alloc_entries alloc_events
           next_block server app] in *.
      rewrite <- app_assoc. cbn [app].
      replace (next_block st + S k) with (S (next_block st) + k) in H by lia.
      exact H.
    + apply wp_ret. cbn [fst snd]. apply wp_ret.
      specialize (H 0 (S (clock st)) b' ltac:(lia)).
      cbn in H. rewrite app_nil_r, Nat.add_0_r in H. exact H.
Qed.

Lemma wp_free_all_allocated (l : list string) : forall base tail (Q : post unit) st,
  (forall c' b',
     wp worker_event (free_all w tail)
        (fun r st' o => Q r st' (free_events base l ++ o))
        {| clock := c'; next_block := next_block st;
           server := server st; bg := b' |}) ->
  wp worker_event (free_all w (alloc_entries base l ++ tail)) Q st.
Proof.
  induction l as [|s l IH]; intros base tail Q st H.
  - cbn. specialize (H (clock st) (bg st)). destruct st; exact H.
  - cbn [alloc_entries app free_all free].
    apply wp_bind, wp_call_quiet; [exact quiet_worker_event|]. intros b'.
    apply IH. intros c' b2. specialize (H c' b2).
    cbn [free_events filter worker_event app after_call next_block server].
    exact H.
Qed.

Lemma argv_of_app_static (head : list cmd_entry) :
  Forall (fun e => e <> Null) head ->
  forall base l tail,
  argv_of (head ++ alloc_entries base l ++ Null :: tail) =
  argv_of head ++ l.
Proof.
  induction 1 as [|e head He _ IH]; intros base l tail.
  - cbn [app argv_of]. revert base.
    induction l as [|s l IHl]; intros base; cbn; [reflexivity|].
    now rewrite IHl.
  - cbn [app]. destruct e; cbn [argv_of]; try congruence;
      now rewrite IH.
Qed.

Lemma skipn_head_app {A} (head rest : list A) :
  skipn (List.length head) (head ++ rest) = rest.
Proof. induction head; cbn; auto. Qed.

(** What a run of [execute_server] does, as seen from the worker: either
    every parameter is allocated, the process is spawned with them, and
    they are freed; or the allocations stop at the first failure, nothing
    is spawned, and what was allocated is freed. *)
Lemma wp_execute_server p (Q : post sc_pid) st :
  let l := server_params_list w (forward (tunnel (server st))) p in
  let head := execute_server_head w (serial (server st)) in
  (forall c c' b',
     Q (ask_pid w c)
       {| clock := c'; next_block := next_block st + List.length l;
          server := server st; bg := b' |}
       (alloc_events (next_block st) l ++
        [EvAdbExecute
           (argv_of (head ++ alloc_entries (next_block st) l ++ [Null]))
           (ask_pid w c)] ++
        free_events (next_block st) l)) ->
  (forall k c' b', k < List.length l ->
     Q SC_PROCESS_NONE
       {| clock := c'; next_block := next_block st + k;
          server := server st; bg := b' |}
       (alloc_events (next_block st) (firstn k l) ++
        [EvAsprintf None] ++
        free_events (next_block st) (firstn k l))) ->
  wp worker_event (execute_server w p) Q st.
Proof.
  intros l head Hok Hfail. unfold execute_server.
  apply wp_bind, wp_get_server. fold head.
  apply wp_bind.
  unfold wp at 1. unfold result, final, events.
  rewrite (execute_server_params_list _ p head st).
  fold l.
  change (wp worker_event (add_params w l head)
    (fun a st1 o1 =>
       wp worker_event
         (if fst a
          then pid <- sc_adb_execute w (snd a ++ [Null]) ;;
               free_all w (skipn (List.length head) (snd a ++ [Null])) ;;
               ret pid
          else free_all w (skipn (List.length head) (snd a)) ;;
               ret SC_PROCESS_NONE)
         (fun b st2 o2 => Q b st2 ([] ++ o1 ++ o2)) st1) st).
  apply wp_add_params. intros k c' b' Hk. cbn [fst snd app].
  destruct (Nat.eqb_spec k (List.length l)) as [->|Hne].
  - rewrite firstn_all, app_nil_r, <- app_assoc.
    apply wp_bind. unfold sc_adb_execute.
    apply wp_ext_quiet; [exact quiet_worker_event|]. intros b1.
    apply wp_bind. rewrite skipn_head_app.
    apply wp_free_all_allocated. intros c2 b2.
    cbn [free_all free]. repeat wp_quiet_step quiet_worker_event.
    cbn [filter worker_event app after_call next_block server clock].
    rewrite !app_nil_r. apply Hok.
  - apply wp_bind. rewrite skipn_head_app.
    rewrite <- (app_nil_r (alloc_entries _ _)).
    apply wp_free_all_allocated. intros c2 b2.
    cbn [free_all]. repeat wp_quiet_step quiet_worker_event.
    cbn [next_block server]. rewrite !app_nil_r, <- app_assoc.
    apply Hfail. lia.
Qed.

End ExecuteServerFacts.

(** ** Facts on the list of server parameters *)

Section ParamsFacts.

Variable w : world.

Lemma has_key_app k l1 l2 :
  has_key k (l1 ++ l2) = has_key k l1 || has_key k l2.
Proof. apply existsb_app. Qed.

Lemma has_key_opt k c s :
  has_key k (opt c s) = String.eqb (key_of s) k && c.
Proof. destruct c; cbn; now rewrite ?orb_false_r, ?andb_true_r, ?andb_false_r. Qed.

Lemma has_key_one k s : has_key k [s] = String.eqb (key_of s) k.
Proof. cbn. apply orb_false_r. Qed.

Lemma in_opt a c s : In a (opt c s) -> c = true /\ a = s.
Proof. destruct c; cbn; intuition. Qed.

Lemma in_one (a s : string) : In a [s] -> a = s.
Proof. cbn; intuition. Qed.

(** [%u] prints ["0"] for zero only. *)
Lemma fmt_u_zero n : Fmt.fmt_u n = "0" -> n = 0%N.
Proof.
  unfold Fmt.fmt_u. intros H.
  rewrite <- (DecimalN.Unsigned.of_to n).
  destruct (N.to_uint n) as [|d|d|d|d|d|d|d|d|d|d]; try discriminate H;
    [reflexivity|].
  cbn in H. injection H as H.
  destruct d; try discriminate H. reflexivity.
Qed.

Lemma to_int_not_nil z :
  Z.to_int z <> Decimal.Pos Decimal.Nil /\
  Z.to_int z <> Decimal.Neg Decimal.Nil.
Proof.
  destruct z as [|q|q]; cbn; split; try discriminate; intros H;
    injection H as H; now apply DecimalPos.Unsigned.to_uint_nonnil in H.
Qed.

(** [%i] prints different numbers differently. *)
Lemma fmt_i_inj a b : Fmt.fmt_i a = Fmt.fmt_i b -> a = b.
Proof.
  unfold Fmt.fmt_i. intros H. apply DecimalZ.to_int_inj.
  destruct (to_int_not_nil a), (to_int_not_nil b).
  assert (E : Some (Z.to_int a) = Some (Z.to_int b)).
  { rewrite <- (NilZero.isi (Z.to_int a)), <- (NilZero.isi (Z.to_int b))
      by assumption.
    now rewrite H. }
  now injection E.
Qed.

Lemma append_inj_r (k a b : string) : k +++ a = k +++ b -> a = b.
Proof.
  induction k as [|c k IH]; cbn [String.append]; [auto|].
  intros H. injection H. auto.
Qed.

(** The key of [key=value], for a key without [=]. *)
Lemma key_of_append k v : strchr k "=" = false -> key_of (k +++ "=" +++ v) = k.
Proof.
  induction k as [|c k IH]; [reflexivity|].
  cbn [strchr String.append key_of] in *.
  intros [Hc Hk]%orb_false_iff. rewrite Hc. now rewrite (IH Hk).
Qed.

Lemma distinct_NoDup l : distinct l = true -> NoDup l.
Proof.
  induction l as [|x l IH]; cbn; [constructor|].
  intros [Hx Hl]%andb_true_iff. constructor; [|auto].
  intros Hin. apply negb_true_iff in Hx.
  assert (existsb (String.eqb x) l = true); [|congruence].
  apply existsb_exists. exists x. split; [exact Hin | apply String.eqb_refl].
Qed.

(** *** A table of emissions and the arguments it gives *)

Lemma well_keyed_tail row t : well_keyed (row :: t) -> well_keyed t.
Proof.
  intros [Hn Hf]. split; [now inversion Hn | now inversion Hf].
Qed.

Lemma in_emitted t a :
  In a (flat_map emitted_argument t) ->
  exists row, In row t /\ em_emitted row = true /\
              a = em_key row +++ "=" +++ em_value row.
Proof.
  induction t as [|row t IH]; cbn [flat_map]; [contradiction|].
  intros [H|H]%in_app_or.
  - apply in_opt in H as [Hc ->]. exists row. split; [now left | now split].
  - destruct (IH H) as (row' & Hin & Hc & E). exists row'.
    split; [now right | now split].
Qed.

Lemma well_keyed_same_key t row row' :
  well_keyed t -> In row t -> In row' t -> em_key row' = em_key row ->
  row' = row.
Proof.
  intros [Hn _]. induction t as [|x t IH]; [contradiction|].
  cbn [map] in Hn. inversion Hn as [|? ? Hx Hn']; subst.
  intros [->|H1] [->|H2] E; auto.
  - exfalso. apply Hx. rewrite <- E. now apply in_map.
  - exfalso. apply Hx. rewrite E. now apply in_map.
Qed.

Lemma has_key_emitted t row :
  well_keyed t -> In row t ->
  has_key (em_key row) (flat_map emitted_argument t) = em_emitted row.
Proof.
  intros Hk Hin.
  destruct (has_key (em_key row) (flat_map emitted_argument t)) eqn:E.
  - unfold has_key in E. apply existsb_exists in E as (a & Ha & Hka).
    apply String.eqb_eq in Hka.
    destruct (in_emitted _ _ Ha) as (row' & Hin' & Hc & ->).
    destruct Hk as [Hn Hf].
    rewrite key_of_append in Hka
      by (rewrite Forall_forall in Hf; now apply Hf).
    now rewrite <- (well_keyed_same_key t row row' (conj Hn Hf) Hin Hin' Hka).
  - destruct (em_emitted row) eqn:Hc; [|reflexivity].
    assert (has_key (em_key row) (flat_map emitted_argument t) = true);
      [|congruence].
    unfold has_key. apply existsb_exists.
    exists (em_key row +++ "=" +++ em_value row). split.
    + apply in_flat_map. exists row. split; [exact Hin|].
      unfold emitted_argument. rewrite Hc. now left.
    + apply String.eqb_eq, key_of_append.
      destruct Hk as [_ Hf]. rewrite Forall_forall in Hf. now apply Hf.
Qed.

Lemma emitted_with_key t row a :
  well_keyed t -> In row t ->
  In a (flat_map emitted_argument t) -> key_of a = em_key row ->
  a = em_key row +++ "=" +++ em_value row /\ em_emitted row = true.
Proof.
  intros Hk Hin Ha Hka.
  destruct (in_emitted _ _ Ha) as (row' & Hin' & Hc & ->).
  rewrite key_of_append in Hka
    by (destruct Hk as [_ Hf]; rewrite Forall_forall in Hf; now apply Hf).
  rewrite (well_keyed_same_key t row row' Hk Hin Hin' Hka) in *. now split.
Qed.

End ParamsFacts.

(** ** The events of [execute_server] *)

Section ExecuteServerEvents.

Variable w : world.

Lemma allocated_app o1 o2 : allocated (o1 ++ o2) = allocated o1 ++ allocated o2.
Proof. apply flat_map_app. Qed.

Lemma freed_app o1 o2 : freed (o1 ++ o2) = freed o1 ++ freed o2.
Proof. apply flat_map_app. Qed.

Lemma executed_app o1 o2 : executed (o1 ++ o2) = executed o1 ++ executed o2.
Proof. apply flat_map_app. Qed.

Lemma worker_event_false e :
  worker_event e = false ->
  e = EvIntrInterrupt \/ e = EvCallback on_disconnected.
Proof. destruct e as [| | | | | | | | | | | | | | | | | | | | | | | | | | | | | | | | | | |[]]; cbn; auto; discriminate. Qed.

Lemma flat_map_worker {B} (f : event -> list B) out :
  f EvIntrInterrupt = [] -> f (EvCallback on_disconnected) = [] ->
  flat_map f (filter worker_event out) = flat_map f out.
Proof.
  intros H1 H2. induction out as [|e out IH]; [reflexivity|].
  cbn. destruct (worker_event e) eqn:E; cbn; rewrite IH; [reflexivity|].
  destruct (worker_event_false e E) as [-> | ->]; now rewrite ?H1, ?H2.
Qed.

Lemma allocated_worker out : allocated (filter worker_event out) = allocated out.
Proof. now apply flat_map_worker. Qed.

Lemma freed_worker out : freed (filter worker_event out) = freed out.
Proof. now apply flat_map_worker. Qed.

Lemma executed_worker out : executed (filter worker_event out) = executed out.
Proof. now apply flat_map_worker. Qed.

Lemma in_worker e out :
  worker_event e = true -> (In e (filter worker_event out) <-> In e out).
Proof. intros H. rewrite filter_In. tauto. Qed.

Lemma allocated_alloc_events base l :
  allocated (alloc_events base l) = seq base (List.length l).
Proof. revert base; induction l; intros; cbn; now rewrite ?IHl. Qed.

Lemma freed_alloc_events base l : freed (alloc_events base l) = [].
Proof. revert base; induction l; intros; cbn; auto. Qed.

Lemma executed_alloc_events base l : executed (alloc_events base l) = [].
Proof. revert base; induction l; intros; cbn; auto. Qed.

Lemma allocated_free_events base l : allocated (free_events base l) = [].
Proof. revert base; induction l; intros; cbn; auto. Qed.

Lemma freed_free_events base l :
  freed (free_events base l) = seq base (List.length l).
Proof. revert base; induction l; intros; cbn; now rewrite ?IHl. Qed.

Lemma executed_free_events base l : executed (free_events base l) = [].
Proof. revert base; induction l; intros; cbn; auto. Qed.

Lemma in_alloc_events e base l :
  In e (alloc_events base l) -> exists p s, e = EvAsprintf (Some (p, s)).
Proof.
  revert base; induction l as [|s l IH]; intros base; cbn; [tauto|].
  intros [<-|H]; eauto.
Qed.

Lemma in_free_events e base l :
  In e (free_events base l) -> exists p, e = EvFree p.
Proof.
  revert base; induction l as [|s l IH]; intros base; cbn; [tauto|].
  intros [<-|H]; eauto.
Qed.

Lemma execute_server_outcomes p st :
  execute_server_outcome w p st
    (result (execute_server w p) st)
    (filter worker_event (events (execute_server w p) st)).
Proof.
  change (wp worker_event (execute_server w p)
            (fun r _ o => execute_server_outcome w p st r o) st).
  apply wp_execute_server.
  - intros c c' b'. now left.
  - intros k c' b' Hk. right. now exists k.
Qed.

Lemma argv_of_head s :
  argv_of (execute_server_head w (Some s)) =
  [ adb_executable w; "-s"; s; "shell";
    "CLASSPATH=" +++ SC_DEVICE_SERVER_PATH; "app_process"; "/";
    "com.genymobile.scrcpy.Server"; SCRCPY_VERSION w ].
Proof. reflexivity. Qed.

(** The argument vector of the spawned process: the fixed head followed
    by the parameters. *)
Lemma execute_server_argv p st s argv pid :
  serial (server st) = Some s ->
  In (EvAdbExecute argv pid) (events (execute_server w p) st) ->
  argv = argv_of (execute_server_head w (Some s)) ++
         server_params_list w (forward (tunnel (server st))) p.
Proof.
  intros Hs Hin.
  apply (in_worker (EvAdbExecute argv pid)) in Hin; [|reflexivity].
  destruct (execute_server_outcomes p st) as [E|(k & _ & _ & E)];
    rewrite E in Hin; clear E.
  - rewrite Hs in Hin.
    apply in_app_or in Hin as [Hin|Hin].
    { apply in_alloc_events in Hin as (? & ? & ?). discriminate. }
    destruct Hin as [Hin|Hin].
    + transitivity
        (argv_of (execute_server_head w (Some s) ++
                  alloc_entries (next_block st)
                    (server_params_list w (forward (tunnel (server st))) p) ++
                  [Null])).
      { now injection Hin. }
      apply argv_of_app_static.
      unfold execute_server_head. repeat constructor; discriminate.
    + apply in_free_events in Hin as (? & ?). discriminate.
  - apply in_app_or in Hin as [Hin|Hin].
    { apply in_alloc_events in Hin as (? & ? & ?). discriminate. }
    destruct Hin as [Hin|Hin]; [discriminate|].
    apply in_free_events in Hin as (? & ?). discriminate.
Qed.

End ExecuteServerEvents.

(** ** Facts on plain worker code *)

Section PlainFacts.

Variable w : world.

Lemma callbacks_app o1 o2 : callbacks (o1 ++ o2) = callbacks o1 ++ callbacks o2.
Proof. apply flat_map_app. Qed.

Lemma hook_step_refl b : hook_step b b [].
Proof. split; auto. Qed.

Lemma hook_step_trans b1 b2 b3 c1 c2 :
  hook_step b1 b2 c1 -> hook_step b2 b3 c2 -> hook_step b1 b3 (c1 ++ c2).
Proof.
  intros [A1 [[F1 ->]|(a1 & f1 & F1 & ->)]] [A2 [[F2 ->]|(a2 & f2 & F2 & ->)]];
    split; try congruence; cbn.
  - left. split; congruence.
  - right. repeat split; congruence.
  - right. repeat split; congruence.
Qed.

Section Allowed.

Variable allowed : event -> bool.

Lemma plain_get_server : plain w allowed get_server.
Proof.
  unfold get_server. apply plain_bind; [apply plain_get_state|].
  intros st. apply plain_ret.
Qed.

Lemma plain_update_server f : plain w allowed (update_server f).
Proof. unfold update_server. apply plain_modify. intros st. now split. Qed.

Lemma plain_set_interrupted b : plain w allowed (modify (set_interrupted b)).
Proof. apply plain_modify. intros st. now split. Qed.

Lemma plain_set_next_block n : plain w allowed (modify (set_next_block n)).
Proof. apply plain_modify. intros st. now split. Qed.

Lemma plain_tick {A} (ask : world -> nat -> A) : plain w allowed (tick w ask).
Proof.
  unfold tick. apply plain_bind; [apply plain_poll|]. intros _.
  apply plain_bind; [apply plain_get_state|]. intros st.
  apply plain_bind; [|intros _; apply plain_ret].
  apply plain_modify. intros st'. now split.
Qed.

Lemma plain_ext {A} (ask : world -> nat -> A) ev :
  (forall a, allowed (ev a) = true) -> plain w allowed (ext w ask ev).
Proof.
  intros H. unfold ext. apply plain_bind; [apply plain_tick|]. intros a.
  apply plain_bind; [now apply plain_emit|]. intros _. apply plain_ret.
Qed.

Lemma plain_call e : allowed e = true -> plain w allowed (call w e).
Proof. intros H. unfold call. now apply plain_ext. Qed.

Lemma plain_when c m : plain w allowed m -> plain w allowed (when c m).
Proof. destruct c; cbn; [auto | intros _; apply plain_ret]. Qed.

(** The worker events of plain code are allowed events. *)
Lemma plain_footprint {A} (m : M A) :
  plain w allowed m ->
  forall st, Forall (fun e => allowed e = true)
               (filter worker_event (events m st)).
Proof.
  induction 1 as [A a|A B m k Hm IHm Hk IHk| |f Hf|e He|]; intros st.
  - constructor.
  - rewrite events_bind, filter_app. apply Forall_app. split; auto.
  - constructor.
  - constructor.
  - cbn. destruct (worker_event e); repeat constructor. exact He.
  - change (wp worker_event (observer_poll w)
              (fun _ _ o => Forall (fun e => allowed e = true) o) st).
    apply wp_poll. intros b' noise Hs.
    rewrite (quiet_noise _ _ _ _ quiet_worker_event Hs). constructor.
Qed.

(** Plain code whose events are not callbacks shows no callback but the
    one of the hook. *)
Lemma plain_hook_step {A} (m : M A) :
  plain w allowed m ->
  (forall e, allowed e = true -> is_callback e = false) ->
  forall st, hook_step (bg st) (bg (final m st)) (callbacks (events m st)).
Proof.
  intros Hp Hcb.
  induction Hp as [A a|A B m k Hm IHm Hk IHk| |f Hf|e He|]; intros st.
  - apply hook_step_refl.
  - rewrite events_bind, final_bind, callbacks_app.
    eapply hook_step_trans; [apply IHm | apply IHk].
  - apply hook_step_refl.
  - destruct (Hf st) as [H1 H2]. split; [exact H1|]. left. now split.
  - specialize (Hcb e He). cbn. destruct e; try discriminate; apply hook_step_refl.
  - unfold observer_poll.
    rewrite events_bind, final_bind. cbn [get_state result final events fst snd app].
    destruct (observer_attached (bg st)) eqn:Ha;
      destruct (observer_fired (bg st)) eqn:Hf;
      destruct (ask_exit w (clock st)); cbn [andb negb];
      try (rewrite <- Ha at 1; rewrite <- Hf at 1; apply hook_step_refl);
      try apply hook_step_refl.
    split; cbn; [now rewrite Ha|]. right. now rewrite Ha, Hf.
Qed.

End Allowed.

Lemma plain_weaken {A} allowed allowed' (m : M A) :
  (forall e, allowed e = true -> allowed' e = true) ->
  plain w allowed m -> plain w allowed' m.
Proof.
  intros H. induction 1.
  - apply plain_ret.
  - apply plain_bind; auto.
  - apply plain_get_state.
  - now apply plain_modify.
  - apply plain_emit; auto.
  - apply plain_poll.
Qed.

End PlainFacts.

(** One step of a proof that a computation is plain. *)
Ltac plain_step :=
  lazymatch goal with
  | |- plain _ _ (bind _ _) => apply plain_bind; [|intros ?]
  | |- plain _ _ (ret _) => apply plain_ret
  | |- plain _ _ (observer_poll _) => apply plain_poll
  | |- plain _ _ get_state => apply plain_get_state
  | |- plain _ _ get_server => apply plain_get_server
  | |- plain _ _ (update_server _) => apply plain_update_server
  | |- plain _ _ (modify (set_interrupted _)) => apply plain_set_interrupted
  | |- plain _ _ (modify (set_next_block _)) => apply plain_set_next_block
  | |- plain _ _ (tick _ _) => apply plain_tick
  | |- plain _ _ (ext _ _ _) => apply plain_ext; intros; reflexivity
  | |- plain _ _ (call _ _) => apply plain_call; reflexivity
  | |- plain _ _ (emit _) => apply plain_emit; reflexivity
  | |- plain _ _ (when _ _) => apply plain_when
  | |- plain _ _ (if ?c then _ else _) => destruct c
  | |- plain _ _ (match ?c with _ => _ end) => destruct c
  end.

(** ** The functions of the file are plain, with these footprints *)

Section Footprints.

Variable w : world.

Ltac plain_auto := repeat plain_step.

Lemma plain_asprintf s : plain w (of_kinds [KAllocator]) (asprintf w s).
Proof. unfold asprintf. plain_auto. Qed.

Lemma plain_free e : plain w (of_kinds [KAllocator]) (free w e).
Proof. destruct e; cbn [free]; plain_auto. Qed.

Lemma plain_free_all l : plain w (of_kinds [KAllocator]) (free_all w l).
Proof.
  induction l as [|e l IH]; cbn [free_all]; [apply plain_ret|].
  apply plain_bind; [apply plain_free | intros _; exact IH].
Qed.

Lemma plain_seqX allowed a b :
  plainX w allowed a -> plainX w allowed b -> plainX w allowed (a ;;; b).
Proof.
  intros Ha Hb cmd. unfold seqX. apply plain_bind; [apply Ha|].
  intros r. destruct (fst r); [apply Hb | apply plain_ret].
Qed.

Lemma plain_skipX allowed : plainX w allowed skipX.
Proof. intros cmd. apply plain_ret. Qed.

Lemma plain_ifX allowed c a : plainX w allowed a -> plainX w allowed (ifX c a).
Proof. destruct c; [auto | intros _; apply plain_skipX]. Qed.

Lemma plain_ADD_PARAM s : plainX w (of_kinds [KAllocator]) (ADD_PARAM w s).
Proof.
  intros cmd. unfold ADD_PARAM.
  apply plain_bind; [apply plain_asprintf|]. intros [p|]; apply plain_ret.
Qed.

Lemma plain_execute_server_params fwd p :
  plainX w (of_kinds [KAllocator]) (execute_server_params w fwd p).
Proof.
  unfold execute_server_params.
  repeat (apply plain_seqX;
          [first [apply plain_ADD_PARAM
                 | apply plain_ifX; apply plain_ADD_PARAM
                 | idtac]|]);
    try (apply plain_ifX; apply plain_ADD_PARAM).
  apply plain_ifX. destruct (camera_position p);
    first [apply plain_ADD_PARAM | apply plain_skipX].
Qed.

Lemma plain_execute_server p :
  plain w (of_kinds [KAllocator; KExecute]) (execute_server w p).
Proof.
  unfold execute_server.
  apply plain_bind; [apply plain_get_server|]. intros srv.
  apply plain_bind.
  { eapply plain_weaken; [|apply plain_execute_server_params].
    intros e. unfold of_kinds. cbn. destruct (kind_of e); cbn; auto. }
  intros r. destruct (fst r).
  - apply plain_bind; [unfold sc_adb_execute; plain_auto|]. intros pid.
    apply plain_bind; [|intros _; apply plain_ret].
    eapply plain_weaken; [|apply plain_free_all].
    intros e. unfold of_kinds. cbn. destruct (kind_of e); cbn; auto.
  - apply plain_bind; [|intros _; apply plain_ret].
    eapply plain_weaken; [|apply plain_free_all].
    intros e. unfold of_kinds. cbn. destruct (kind_of e); cbn; auto.
Qed.

(** The socket layer and the tunnel. *)
Lemma plain_sc_adb_tunnel_close :
  plain w (of_kinds [KTunnelClose]) (sc_adb_tunnel_close w).
Proof. unfold sc_adb_tunnel_close. plain_auto. Qed.

Lemma plain_sc_adb_tunnel_open f :
  plain w (of_kinds [KTunnelOpen]) (sc_adb_tunnel_open w f).
Proof. unfold sc_adb_tunnel_open. plain_auto. Qed.

Lemma plain_connect_and_read_byte s h p :
  plain w (of_kinds connect_kinds) (connect_and_read_byte w s h p).
Proof.
  unfold connect_and_read_byte, net_connect_intr, net_recv_intr. plain_auto.
Qed.

Lemma plain_sc_intr_is_interrupted :
  plain w (of_kinds connect_kinds) (sc_intr_is_interrupted w).
Proof. unfold sc_intr_is_interrupted. plain_auto. Qed.

Lemma plain_connect_to_server_loop fuel : forall attempts delay h p,
  plain w (of_kinds connect_kinds)
    (connect_to_server_loop w fuel attempts delay h p).
Proof.
  induction fuel as [|fuel IH]; intros attempts delay h p;
    cbn [connect_to_server_loop]; [apply plain_ret|].
  unfold net_socket, net_close, sc_server_sleep.
  repeat first
    [ apply IH
    | apply plain_connect_and_read_byte
    | apply plain_sc_intr_is_interrupted
    | plain_step ].
Qed.

Lemma plain_connect_to_server attempts delay h p :
  plain w (of_kinds connect_kinds) (connect_to_server w attempts delay h p).
Proof.
  unfold connect_to_server.
  apply plain_bind; [apply plain_connect_to_server_loop|].
  intros r. apply plain_ret.
Qed.

Lemma plain_device_read_info s :
  plain w (of_kinds connect_kinds) (device_read_info w s).
Proof. unfold device_read_info, net_recv_all_intr. plain_auto. Qed.

Lemma plain_connect_to_fail v a c :
  plain w (of_kinds connect_kinds) (connect_to_fail w v a c).
Proof.
  unfold connect_to_fail, net_close, sc_adb_tunnel_close. plain_auto.
Qed.

Lemma plain_connect_to_finish v a c :
  plain w (of_kinds connect_kinds) (connect_to_finish w v a c).
Proof.
  unfold connect_to_finish, sc_adb_tunnel_close.
  repeat first
    [ apply plain_device_read_info | apply plain_connect_to_fail | plain_step ].
Qed.

Lemma plain_sc_server_connect_to :
  plain w (of_kinds connect_kinds) (sc_server_connect_to w).
Proof.
  unfold sc_server_connect_to, net_accept_intr, net_socket, net_connect_intr.
  repeat first
    [ apply plain_connect_to_server
    | apply plain_connect_to_finish
    | apply plain_connect_to_fail
    | plain_step ].
Qed.

Lemma plain_get_adb_tcp_port serial :
  plain w (of_kinds tcpip_kinds) (get_adb_tcp_port w serial).
Proof. unfold get_adb_tcp_port, sc_adb_getprop. plain_auto. Qed.

Lemma plain_wait_loop fuel : forall serial port attempts delay,
  plain w (of_kinds tcpip_kinds)
    (wait_tcpip_mode_enabled_loop w fuel serial port attempts delay).
Proof.
  induction fuel as [|fuel IH]; intros serial port attempts delay;
    cbn [wait_tcpip_mode_enabled_loop]; [apply plain_ret|].
  unfold sc_server_sleep.
  repeat first [ apply IH | apply plain_get_adb_tcp_port | plain_step ].
Qed.

Lemma plain_wait_tcpip_mode_enabled serial port attempts delay :
  plain w (of_kinds tcpip_kinds)
    (wait_tcpip_mode_enabled w serial port attempts delay).
Proof.
  unfold wait_tcpip_mode_enabled.
  repeat first [ apply plain_wait_loop | apply plain_get_adb_tcp_port | plain_step ].
Qed.

Lemma plain_asprintf_tcpip s : plain w (of_kinds tcpip_kinds) (asprintf w s).
Proof. unfold asprintf. plain_auto. Qed.

Lemma plain_append_port ip port :
  plain w (of_kinds tcpip_kinds) (append_port w ip port).
Proof.
  unfold append_port. repeat first [ apply plain_asprintf_tcpip | plain_step ].
Qed.

Lemma plain_strdup s : plain w (of_kinds tcpip_kinds) (strdup w s).
Proof. unfold strdup. repeat first [ apply plain_asprintf_tcpip | plain_step ]. Qed.

Lemma plain_sc_server_switch_to_tcpip serial :
  plain w (of_kinds tcpip_kinds) (sc_server_switch_to_tcpip w serial).
Proof.
  unfold sc_server_switch_to_tcpip, sc_adb_get_device_ip, sc_adb_tcpip.
  repeat first
    [ apply plain_append_port | apply plain_wait_tcpip_mode_enabled
    | apply plain_get_adb_tcp_port | plain_step ].
Qed.

Lemma plain_sc_server_connect_to_tcpip ip_port :
  plain w (of_kinds tcpip_kinds) (sc_server_connect_to_tcpip w ip_port).
Proof.
  unfold sc_server_connect_to_tcpip, sc_adb_disconnect, sc_adb_connect.
  plain_auto.
Qed.

Lemma plain_configure_known addr :
  plain w (of_kinds tcpip_kinds)
    (sc_server_configure_tcpip_known_address w addr).
Proof.
  unfold sc_server_configure_tcpip_known_address.
  repeat first
    [ apply plain_append_port | apply plain_strdup
    | apply plain_sc_server_connect_to_tcpip | plain_step ].
Qed.

Lemma plain_configure_unknown serial :
  plain w (of_kinds tcpip_kinds)
    (sc_server_configure_tcpip_unknown_address w serial).
Proof.
  unfold sc_server_configure_tcpip_unknown_address.
  repeat first
    [ apply plain_sc_server_switch_to_tcpip | apply plain_strdup
    | apply plain_sc_server_connect_to_tcpip | plain_step ].
Qed.

Lemma plain_strdup_block s :
  plain w (of_kinds tcpip_kinds) (strdup_block w s).
Proof.
  unfold strdup_block. repeat first [ apply plain_asprintf_tcpip | plain_step ].
Qed.

Lemma plain_push_server serial :
  plain w (of_kinds tcpip_kinds) (push_server w serial).
Proof.
  unfold push_server, get_server_path, sc_file_is_regular, sc_adb_push.
  cbn [free].
  repeat first [ apply plain_strdup_block | plain_step ].
Qed.

Lemma plain_kill_adb :
  plain w (of_kinds tcpip_kinds) (sc_server_kill_adb_if_requested w).
Proof.
  unfold sc_server_kill_adb_if_requested, sc_adb_kill_server. plain_auto.
Qed.

End Footprints.

(** ** Facts on the socket establishment *)

Section ConnectFacts.

Variable w : world.

Lemma decr_unsigned_pred n :
  (1 <= n < 2 ^ 32)%N -> decr_unsigned n = (n - 1)%N.
Proof.
  intros H. unfold decr_unsigned.
  replace (n + 2 ^ 32 - 1)%N with ((n - 1) + 1 * 2 ^ 32)%N by lia.
  rewrite N.Div0.mod_add. apply N.mod_small. lia.
Qed.

(** The probe: one connect, then a receive of exactly one byte on the
    same socket; it succeeds when the connect succeeds and the byte is
    read. *)
Lemma wp_connect_and_read_byte s h p (Q : post bool) st :
  (forall b', Q false (after_call b' st) [EvNetConnect s h p false]) ->
  (forall r c' b', r <> 1%Z ->
     Q false {| clock := c'; next_block := next_block st;
                server := server st; bg := b' |}
       [EvNetConnect s h p true; EvNetRecv s 1 r]) ->
  (forall c' b',
     Q true {| clock := c'; next_block := next_block st;
               server := server st; bg := b' |}
       [EvNetConnect s h p true; EvNetRecv s 1 1]) ->
  wp worker_event (connect_and_read_byte w s h p) Q st.
Proof.
  intros Hc Hr Hok.
  unfold connect_and_read_byte, net_connect_intr, net_recv_intr.
  wp_step. wp_step. cbn [filter worker_event].
  destruct (ask_bool w (clock st)) eqn:E; cbn [negb].
  - wp_step. wp_step. wp_step. wp_step.
    cbn [fst snd clock after_call filter worker_event app] in *.
    destruct (Z.eqb_spec (recv_count 1 (ask_recv w (S (clock st)))) 1)
      as [E1|E1]; cbn [negb]; wp_step.
    + rewrite E1. apply Hok.
    + now apply Hr.
  - wp_step. rewrite app_nil_r. apply Hc.
Qed.

Lemma wp_sc_intr_is_interrupted (Q : post bool) st :
  (forall r c' b', Q r {| clock := c'; next_block := next_block st;
                          server := server st; bg := b' |}
                     [EvIntrIsInterrupted r]) ->
  wp worker_event (sc_intr_is_interrupted w) Q st.
Proof.
  intros H. unfold sc_intr_is_interrupted, when.
  repeat wp_step; cbn [filter worker_event app]; apply H.
Qed.

(** The loop of [connect_to_server] with fuel for all its attempts: it
    ends within [attempts] attempts, its events have the shape of
    [connect_trace], and it leaves the controller as it was. *)
Lemma wp_connect_to_server_loop delay h p (fuel : nat) :
  forall (attempts : N) (Q : post (option sc_socket)) st,
  (1 <= attempts < 2 ^ 32)%N -> (N.to_nat attempts <= fuel) ->
  (forall n r c' b' o,
     1 <= n <= N.to_nat attempts ->
     connect_trace h p delay (N.to_nat attempts) n r o ->
     Q (Some r) {| clock := c'; next_block := next_block st;
                   server := server st; bg := b' |} o) ->
  wp worker_event (connect_to_server_loop w fuel attempts delay h p) Q st.
Proof.
  induction fuel as [|fuel IH]; intros attempts Q st Ha Hf H; [lia|].
  cbn [connect_to_server_loop].
  assert (Hne : (attempts =? 0)%N = false) by (apply N.eqb_neq; lia).
  rewrite Hne, (decr_unsigned_pred _ Ha). cbn [negb].
  cbv zeta.
  destruct (N.to_nat attempts) as [|a] eqn:Ea; [lia|].
  assert (Ea' : N.to_nat (attempts - 1) = a) by lia.
  (* what follows a failed attempt whose events are [o] *)
  assert (Hafter : forall o st1,
    failed_attempt h p o ->
    next_block st1 = next_block st -> server st1 = server st ->
    wp worker_event
      (intr <- sc_intr_is_interrupted w ;;
       if intr then ret (Some SC_SOCKET_NONE)
       else
         ok <- sc_server_sleep w delay ;;
         if negb ok then ret (Some SC_SOCKET_NONE)
         else if (attempts - 1 =? 0)%N then ret (Some SC_SOCKET_NONE)
         else connect_to_server_loop w fuel (attempts - 1) delay h p)
      (fun r st2 o2 => Q r st2 (o ++ o2)) st1).
  { intros o st1 Ho Hnb Hsrv.
    wp_step. apply wp_sc_intr_is_interrupted. intros r c1 b1.
    destruct r.
    - wp_step. rewrite app_nil_r, Hnb, Hsrv.
      apply (H 1); [lia|]. now apply connect_interrupted.
    - unfold sc_server_sleep. wp_step. wp_step.
      cbn [filter worker_event clock next_block server after_call].
      rewrite Hnb, Hsrv.
      destruct (ask_bool w c1); cbn [negb].
      + destruct (N.eqb_spec (attempts - 1) 0) as [Hz|Hz].
        * wp_step. cbn [app].
          apply (H 1); [lia|].
          assert (a = 0) as -> by lia. now apply connect_given_up.
        * apply IH; [lia|lia|].
          intros n r c' b' o2 Hn Ht.
          cbn [next_block server].
          apply (H (S n)); [lia|].
          change ([EvIntrIsInterrupted false] ++ [EvSleep delay true] ++ o2)
            with ([EvIntrIsInterrupted false; EvSleep delay true] ++ o2).
          rewrite Ea' in Ht. destruct a as [|a']; [lia|].
          now apply connect_retry.
      + wp_step. cbn [app].
        apply (H 1); [lia|]. now apply connect_stopped. }
  unfold net_socket. wp_step. wp_step. cbn [filter worker_event].
  destruct (ask_socket w (clock st)) as [s|] eqn:Es; cbn [is_some].
  - wp_step. apply wp_connect_and_read_byte.
    + intros b'. unfold net_close. wp_step. wp_step.
      cbn [filter worker_event].
      apply (Hafter [EvNetSocket (Some s); EvNetConnect (Some s) h p false;
                     EvNetClose (Some s)]);
        [constructor|reflexivity|reflexivity].
    + intros r c' b' Hr. unfold net_close. wp_step. wp_step.
      cbn [filter worker_event].
      apply (Hafter [EvNetSocket (Some s); EvNetConnect (Some s) h p true;
                     EvNetRecv (Some s) 1 r; EvNetClose (Some s)]);
        [now constructor|reflexivity|reflexivity].
    + intros c' b'. wp_step. rewrite app_nil_r. cbn [app].
      apply (H 1); [lia|]. apply connect_success.
  - apply (Hafter [EvNetSocket SC_SOCKET_NONE]);
      [constructor|reflexivity|reflexivity].
Qed.

Lemma wp_connect_to_server attempts delay h p (Q : post sc_socket) st :
  (1 <= attempts < 2 ^ 32)%N ->
  (forall n r c' b' o,
     1 <= n <= N.to_nat attempts ->
     connect_trace h p delay (N.to_nat attempts) n r o ->
     Q r {| clock := c'; next_block := next_block st;
            server := server st; bg := b' |} o) ->
  wp worker_event (connect_to_server w attempts delay h p) Q st.
Proof.
  intros Ha H. unfold connect_to_server.
  wp_step. apply wp_connect_to_server_loop; [exact Ha | lia |].
  intros n r c' b' o Hn Ht. wp_step. rewrite app_nil_r. now apply (H n).
Qed.

Lemma opened_app o1 o2 : opened (o1 ++ o2) = opened o1 ++ opened o2.
Proof. apply flat_map_app. Qed.

Lemma closed_app o1 o2 : closed (o1 ++ o2) = closed o1 ++ closed o2.
Proof. apply flat_map_app. Qed.

Lemma handshakes_app o1 o2 :
  handshakes (o1 ++ o2) = handshakes o1 ++ handshakes o2.
Proof. apply flat_map_app. Qed.

Lemma tunnel_closes_app o1 o2 :
  tunnel_closes (o1 ++ o2) = tunnel_closes o1 + tunnel_closes o2.
Proof. unfold tunnel_closes. now rewrite filter_app, length_app. Qed.

Lemma probes_app o1 o2 : probes (o1 ++ o2) = probes o1 ++ probes o2.
Proof. apply filter_app. Qed.

Lemma failed_attempt_establishing h p o :
  failed_attempt h p o -> forallb establishing o = true.
Proof. now destruct 1. Qed.

Lemma connect_trace_establishing h p d a n r o :
  connect_trace h p d a n r o -> forallb establishing o = true.
Proof.
  induction 1 as [a s|a o Ho|a o Ho|o Ho|a o n r rest Ho _ IH];
    rewrite ?forallb_app, ?(failed_attempt_establishing _ _ _ Ho), ?IH;
    reflexivity.
Qed.

Lemma establishing_tunnel_closes o :
  forallb establishing o = true -> tunnel_closes o = 0.
Proof.
  induction o as [|e o IH]; [reflexivity|]. cbn [forallb].
  intros [He Ho]%andb_true_iff. unfold tunnel_closes in *. cbn [filter].
  replace (of_kinds [KTunnelClose] e) with false; [auto|].
  unfold establishing, of_kinds in *. destruct (kind_of e); cbn in *; congruence.
Qed.

Lemma establishing_handshakes o :
  forallb establishing o = true -> handshakes o = [].
Proof.
  induction o as [|e o IH]; [reflexivity|]. cbn [forallb].
  intros [He Ho]%andb_true_iff.
  unfold handshakes in *. cbn [flat_map]. rewrite (IH Ho).
  destruct e; try reflexivity; discriminate He.
Qed.

Lemma establishing_phases o rest :
  forallb establishing o = true ->
  phases Establishing (o ++ rest) = phases Establishing rest.
Proof.
  induction o as [|e o IH]; [reflexivity|]. cbn [forallb].
  intros [He Ho]%andb_true_iff. cbn [app phases].
  replace (phase_step Establishing e) with (Some Establishing); [auto|].
  unfold establishing, of_kinds, phase_step in *.
  destruct (kind_of e); cbn in *; congruence.
Qed.

Lemma failed_attempt_sockets h p o :
  failed_attempt h p o -> opened o = closed o.
Proof. now destruct 1. Qed.

(** The loop closes every socket it opened but the one it returns. *)
Lemma connect_trace_sockets h p d a n r o :
  connect_trace h p d a n r o -> opened o = closed o ++ socket_list r.
Proof.
  induction 1 as [a s|a o Ho|a o Ho|o Ho|a o n r rest Ho _ IH];
    rewrite ?opened_app, ?closed_app, ?(failed_attempt_sockets _ _ _ Ho), ?IH;
    cbn; rewrite ?app_nil_r, <- ?app_assoc; reflexivity.
Qed.

Lemma connect_trace_none h p d a n o :
  connect_trace h p d a n SC_SOCKET_NONE o -> opened o = closed o.
Proof.
  intros H. rewrite (connect_trace_sockets _ _ _ _ _ _ _ H). apply app_nil_r.
Qed.

End ConnectFacts.

(** ** The postcondition of [sc_server_connect_to] *)

Section ConnectPost.

Variable w : world.

Lemma recv_count_le len a : (recv_count len a <= Z.of_nat len)%Z.
Proof. destruct a as [bs|]; cbn; lia. Qed.

Lemma recv_count_full len a :
  (recv_count len a <? Z.of_nat len)%Z = false ->
  recv_count len a = Z.of_nat len.
Proof. intros H%Z.ltb_ge. pose proof (recv_count_le len a). lia. Qed.

Lemma length_set_nth {A} i (x : A) l :
  List.length (set_nth i x l) = List.length l.
Proof.
  revert i; induction l as [|h t IH]; intros [|i]; cbn; auto.
Qed.

Lemma nth_error_set_nth {A} i (x : A) l :
  i < List.length l -> nth_error (set_nth i x l) i = Some x.
Proof.
  revert i; induction l as [|h t IH]; intros [|i]; cbn; try lia; auto.
  intros H. apply IH. lia.
Qed.

(** After a full read the stored name fills the field and ends with NUL. *)
Lemma device_name_nul len a :
  (recv_count len a <? Z.of_nat len)%Z = false -> 0 < len ->
  nul_terminated_field len
    (firstn len (set_nth (len - 1) x00 (recv_bytes len a))).
Proof.
  intros H%Z.ltb_ge Hlen. destruct a as [bs|]; cbn in H; [|lia].
  assert (Hb : len <= List.length bs) by lia.
  assert (Hf : List.length (firstn len bs) = len)
    by (rewrite length_firstn; lia).
  cbn [recv_bytes]. split.
  - rewrite length_firstn, length_set_nth, Hf. lia.
  - rewrite nth_error_firstn.
    destruct (Nat.ltb_spec (len - 1) len); [|lia].
    apply nth_error_set_nth. lia.
Qed.

Ltac leaf_tunnel :=
  first
    [ reflexivity
    | intros; congruence
    | intros _;
      rewrite ?tunnel_closes_app;
      repeat match goal with
             | H : forallb establishing ?o = true |- context [tunnel_closes ?o] =>
                 rewrite (establishing_tunnel_closes o H)
             end;
      reflexivity ].

Ltac use_known_in Hs :=
  repeat match goal with
         | H : ?t = ?v |- _ =>
             lazymatch v with
             | true => idtac
             | false => idtac
             end;
             lazymatch t with
             | orb _ _ => fail
             | _ => rewrite H in Hs
             end
         end.

Ltac leaf_success :=
  first
    [ intros H; discriminate H
    | intros _;
      split;
      [ rewrite ?establishing_phases by assumption; reflexivity |];
      split;
      [ rewrite ?handshakes_app;
        rewrite ?establishing_handshakes by assumption;
        cbn [handshakes flat_map app]; unfold first_socket_of;
        wp_norm; use_known;
        match goal with
        | H : (recv_count _ _ <? _)%Z = false |- _ =>
            rewrite (recv_count_full _ _ H)
        end;
        reflexivity |];
      split; [reflexivity|];
      split;
      [ unfold sockets_match_streams; wp_norm; use_known; auto |];
      intros; apply device_name_nul; assumption ].

Ltac leaf_failure Hsock :=
  first
    [ intros H; discriminate H
    | intros _ Hs;
      rewrite ?opened_app, ?closed_app;
      try (cbn [socket_list] in Hsock; rewrite Hsock);
      cbn [opened closed flat_map app];
      rewrite <- ?app_assoc, ?app_nil_r; cbn [app];
      first
        [ apply Permutation_refl
        | exfalso; use_known_in Hs; discriminate Hs ] ].

Ltac leaf_handshake :=
  intros s l r Hin;
  rewrite ?handshakes_app in Hin;
  rewrite ?establishing_handshakes in Hin by assumption;
  cbn [handshakes flat_map app In] in Hin;
  first
    [ contradiction
    | destruct Hin as [Hin|[]]; injection Hin as <- <- <-;
      split; [reflexivity|];
      match goal with
      | H : (recv_count _ _ <? _)%Z = true |- _ =>
          apply Z.ltb_lt in H; split; intros; [reflexivity | exact H]
      | H : (recv_count _ _ <? _)%Z = false |- _ =>
          apply Z.ltb_ge in H; split; intros; [lia | discriminate]
      end ].

Ltac leaf_forward n pre Hn Htrace :=
  first
    [ intros H; congruence
    | intros _; exists n; eexists; exists pre; eexists;
      split; [cbn in Hn; lia|];
      split; [exact Htrace|];
      split; reflexivity ].

(** Every path through [sc_server_connect_to] satisfies [connect_to_post]. *)
Lemma connect_to_spec st :
  wp worker_event (sc_server_connect_to w) (connect_to_post w st) st.
Proof.
  unfold sc_server_connect_to, connect_to_finish, connect_to_fail,
    device_read_info, sc_adb_tunnel_close, net_accept_intr, net_socket,
    net_connect_intr, net_close, net_recv_all_intr, SC_SOCKET_NONE.
  wp_go_step. wp_go_step. wp_norm.
  destruct (video (params (server st))) eqn:Hvideo,
           (audio (params (server st))) eqn:Haudio,
           (control (params (server st))) eqn:Hcontrol.
  all: repeat first
    [ apply wp_connect_to_server;
      [lia | intros n first c' b' pre Hn Htrace;
             pose proof (connect_trace_establishing _ _ _ _ _ _ _ Htrace) as Hest;
             pose proof (connect_trace_sockets _ _ _ _ _ _ _ Htrace) as Hsock]
    | wp_go_step ].
  all: wp_norm; use_known.
  all: unfold connect_to_post; wp_norm.
  all: split; [leaf_tunnel|].
  all: split; [leaf_tunnel|].
  all: split; [leaf_success|].
  all: split; [leaf_failure Hsock|].
  all: split; [leaf_handshake|].
  all: leaf_forward n pre Hn Htrace.
Qed.

End ConnectPost.

(** ** Facts on the TCP/IP switch *)

Section TcpipFacts.

Variable w : world.

Lemma wp_get_adb_tcp_port serial (Q : post N) st :
  (forall b',
     Q (port_of_property w (ask_string w (clock st))) (after_call b' st)
       [getprop_port serial (ask_string w (clock st))]) ->
  wp worker_event (get_adb_tcp_port w serial) Q st.
Proof.
  intros H. unfold get_adb_tcp_port, sc_adb_getprop.
  wp_step. wp_step. cbn [filter worker_event].
  specialize (H b). unfold port_of_property, getprop_port in H.
  destruct (ask_string w (clock st)) as [s|]; [|wp_step; now rewrite app_nil_r].
  destruct (sc_str_parse_integer w s) as [v|]; [|wp_step; now rewrite app_nil_r].
  destruct ((v <? 0) || (v >? 65535))%Z; wp_step; now rewrite app_nil_r.
Qed.

Lemma wp_wait_loop serial expected delay (fuel : nat) :
  forall (attempts : N) (Q : post (option bool)) st,
  (1 <= attempts < 2 ^ 32)%N -> N.to_nat attempts <= fuel ->
  (forall n r c' b' o,
     1 <= n <= N.to_nat attempts ->
     wait_trace w serial expected delay (N.to_nat attempts) n r o ->
     Q (Some r) {| clock := c'; next_block := next_block st;
                   server := server st; bg := b' |} o) ->
  wp worker_event
    (wait_tcpip_mode_enabled_loop w fuel serial expected attempts delay) Q st.
Proof.
  induction fuel as [|fuel IH]; intros attempts Q st Ha Hf H; [lia|].
  cbn [wait_tcpip_mode_enabled_loop].
  rewrite (decr_unsigned_pred _ Ha).
  destruct (N.to_nat attempts) as [|a] eqn:Ea; [lia|].
  assert (Ea' : N.to_nat (attempts - 1) = a) by lia.
  unfold sc_server_sleep. wp_step. wp_step. cbn [filter worker_event].
  destruct (ask_bool w (clock st)); cbn [negb].
  - wp_step. apply wp_get_adb_tcp_port. intros b1.
    cbn [clock after_call].
    destruct (N.eqb_spec (port_of_property w (ask_string w (S (clock st))))
                expected) as [E|E].
    + wp_step. cbn [app]. apply (H 1); [lia|]. now apply wait_found.
    + destruct (N.eqb_spec (attempts - 1) 0) as [Hz|Hz].
      * wp_step. cbn [app]. apply (H 1); [lia|].
        assert (a = 0) as -> by lia. now apply wait_exhausted.
      * apply IH; [lia|lia|]. intros n r c' b' o Hn Ht.
        cbn [next_block server after_call].
        apply (H (S n)); [lia|].
        change ([EvSleep delay true] ++
                [getprop_port serial (ask_string w (S (clock st)))] ++ o)
          with ([EvSleep delay true;
                 getprop_port serial (ask_string w (S (clock st)))] ++ o).
        rewrite Ea' in Ht. destruct a as [|a']; [lia|].
        now apply wait_again.
  - wp_step. cbn [app]. apply (H 1); [lia|]. apply wait_interrupted.
Qed.

Lemma wp_wait_tcpip_mode_enabled serial expected attempts delay
    (Q : post bool) st :
  (1 <= attempts < 2 ^ 32)%N ->
  (forall r c' b' o,
     wait_outcome w serial expected delay (N.to_nat attempts) r o ->
     Q r {| clock := c'; next_block := next_block st;
            server := server st; bg := b' |} o) ->
  wp worker_event
    (wait_tcpip_mode_enabled w serial expected attempts delay) Q st.
Proof.
  intros Ha H. unfold wait_tcpip_mode_enabled.
  wp_step. apply wp_get_adb_tcp_port. intros b1.
  destruct (N.eqb_spec (port_of_property w (ask_string w (clock st)))
              expected) as [E|E].
  - wp_step. cbn [app]. apply H. now apply wait_already.
  - wp_step. apply wp_wait_loop; [exact Ha|lia|].
    intros n r c' b' o Hn Ht. wp_step. rewrite app_nil_r.
    cbn [next_block server after_call app].
    apply H. now apply wait_polled with (n := n).
Qed.

Lemma wp_asprintf_outcome s (Q : post (option nat)) st :
  (forall res c' nb b' o,
     alloc_outcome s (match res with Some _ => Some s | None => None end) o ->
     Q res {| clock := c'; next_block := nb;
              server := server st; bg := b' |} o) ->
  wp worker_event (asprintf w s) Q st.
Proof.
  intros H. apply wp_asprintf; intros _ b'.
  - apply (H (Some (next_block st))). apply alloc_ok.
  - apply (H None). apply alloc_failed.
Qed.

Lemma wp_append_port ip port (Q : post (option string)) st :
  (forall res c' nb b' o,
     alloc_outcome (ip_port_string ip port) res o ->
     Q res {| clock := c'; next_block := nb;
              server := server st; bg := b' |} o) ->
  wp worker_event (append_port w ip port) Q st.
Proof.
  intros H. unfold append_port. wp_step. apply wp_asprintf_outcome.
  intros res c' nb b' o Ho. wp_step. rewrite app_nil_r.
  destruct res; now apply H.
Qed.

Lemma wp_strdup s (Q : post (option string)) st :
  (forall res c' nb b' o,
     alloc_outcome s res o ->
     Q res {| clock := c'; next_block := nb;
              server := server st; bg := b' |} o) ->
  wp worker_event (strdup w s) Q st.
Proof.
  intros H. unfold strdup. wp_step. apply wp_asprintf_outcome.
  intros res c' nb b' o Ho. wp_step. rewrite app_nil_r.
  destruct res; now apply H.
Qed.

(** Every run of [sc_server_switch_to_tcpip] is one of [switch_outcome],
    and leaves the controller as it was. *)
Lemma wp_switch_to_tcpip serial (Q : post (option string)) st :
  (forall res c' nb b' o,
     switch_outcome w serial res o ->
     Q res {| clock := c'; next_block := nb;
              server := server st; bg := b' |} o) ->
  wp worker_event (sc_server_switch_to_tcpip w serial) Q st.
Proof.
  intros H. unfold sc_server_switch_to_tcpip, sc_adb_get_device_ip, sc_adb_tcpip.
  wp_step. wp_step. cbn [filter worker_event].
  destruct (ask_string w (clock st)) as [ip|].
  2:{ wp_step. cbn [app]. apply H. apply switch_no_ip. }
  wp_step. apply wp_get_adb_tcp_port. intros b1. cbn [clock after_call].
  set (r := ask_string w (S (clock st))).
  destruct (N.eqb_spec (port_of_property w r) 0) as [E|E]; cbn [negb].
  - wp_step. wp_step. wp_norm.
    destruct (ask_bool w (S (S (clock st)))); cbn [negb].
    + wp_step. apply wp_wait_tcpip_mode_enabled; [lia|].
      intros ok c' b' ow Hw. cbn [next_block server].
      destruct ok; cbn [negb].
      * apply wp_append_port. intros res c2 nb b2 oa Hoa.
        cbn [server app]. apply H.
        now apply (switch_enabled w serial ip r ow res oa).
      * wp_step. cbn [app]. rewrite app_nil_r. apply H.
        now apply (switch_timeout w serial ip r ow).
    + wp_step. cbn [app]. apply H. now apply switch_refused.
  - apply wp_append_port. intros res c2 nb b2 oa Hoa.
    cbn [server app]. apply H.
    now apply (switch_already w serial ip r res oa).
Qed.

End TcpipFacts.

(** ** Properties of [execute_server] *)

Section ExecuteServerClaims.

Variable w : world.

Arguments Fmt.fmt_08x : simpl never.
Arguments Fmt.fmt_u : simpl never.
Arguments Fmt.fmt_i : simpl never.

(** Case analysis on the membership of an argument in the list of
    parameters: one case per [ADD_PARAM] of [execute_server]. *)
Ltac in_params H :=
  unfold server_params_list in H;
  repeat (apply in_app_or in H; destruct H as [H|H]);
  first [ apply in_one in H | apply in_opt in H; destruct H as [? H] ].

Lemma params_has_key_flags fwd p k flag :
  In (k, flag) (disabling_flags p) ->
  has_key k (server_params_list w fwd p) = negb flag.
Proof.
  intros H. unfold disabling_flags in H.
  repeat (destruct H as [H|H]; [injection H as <- <-|]); [..|destruct H];
    unfold server_params_list;
    rewrite !has_key_app, !has_key_opt, !has_key_one;
    destruct (camera_position p); cbn;
    rewrite ?orb_false_r; reflexivity.
Qed.

Lemma params_flag_value fwd p k flag a :
  In (k, flag) (disabling_flags p) ->
  In a (server_params_list w fwd p) -> key_of a = k -> a = k +++ "=false".
Proof.
  intros H Ha Hk. unfold disabling_flags in H.
  repeat (destruct H as [H|H]; [injection H as <- <-|]); [..|destruct H];
    in_params Ha; subst a; try reflexivity;
    try (destruct (camera_position p)); cbn in Hk; discriminate Hk.
Qed.

Lemma params_has_key_numeric fwd p k n :
  In (k, n) (numeric_keys p) ->
  has_key k (server_params_list w fwd p) = negb (n =? 0)%N.
Proof.
  intros H. unfold numeric_keys in H.
  repeat (destruct H as [H|H]; [injection H as <- <-|]); [..|destruct H];
    unfold server_params_list;
    rewrite !has_key_app, !has_key_opt, !has_key_one;
    destruct (camera_position p); cbn;
    rewrite ?orb_false_r; reflexivity.
Qed.

Lemma params_has_key_codecs fwd p :
  has_key "video_codec" (server_params_list w fwd p) =
    negb (sc_codec_eqb (video_codec p) SC_CODEC_H264) /\
  has_key "audio_codec" (server_params_list w fwd p) =
    negb (sc_codec_eqb (audio_codec p) SC_CODEC_OPUS).
Proof.
  split; unfold server_params_list;
    rewrite !has_key_app, !has_key_opt, !has_key_one;
    destruct (camera_position p); cbn;
    rewrite ?orb_false_r; reflexivity.
Qed.

Lemma params_never_default fwd p kv :
  In kv documented_defaults ->
  ~ In (key_value kv) (server_params_list w fwd p).
Proof.
  intros H Ha. unfold documented_defaults in H.
  repeat (destruct H as [H|H]; [subst kv|]); [..|destruct H];
    unfold key_value in Ha; cbn [fst snd] in Ha;
    in_params Ha;
    first
      [ solve [cbn in Ha; discriminate Ha]
      | solve [destruct (camera_position p); cbn in Ha; discriminate Ha]
      | solve [destruct (video_codec p); cbn in *; congruence]
      | solve [destruct (audio_codec p); cbn in *; congruence]
      | solve [cbn in Ha; injection Ha as Ha; symmetry in Ha;
               apply fmt_u_zero in Ha; rewrite Ha in *; discriminate] ].
Qed.

(** The list of parameters is [scid], [log_level] and the arguments of
    the table, in this order. *)
Lemma server_params_table fwd p :
  server_params_list w fwd p =
  [ "scid=" +++ Fmt.fmt_08x (scid p);
    "log_level=" +++ log_level_to_server_string (log_level p) ] ++
  flat_map emitted_argument (emission_table w fwd p).
Proof.
  unfold server_params_list, emission_table.
  cbn [flat_map]. rewrite app_nil_r.
  unfold emitted_argument. cbn [em_key em_emitted em_value].
  destruct (video_source p), (camera_position p); reflexivity.
Qed.

Lemma emission_table_well_keyed fwd p : well_keyed (emission_table w fwd p).
Proof.
  split.
  - apply distinct_NoDup. reflexivity.
  - unfold emission_table. repeat constructor.
Qed.

Lemma emission_table_other_keys fwd p :
  Forall (fun row => em_key row <> "scid" /\ em_key row <> "log_level")
    (emission_table w fwd p).
Proof.
  unfold emission_table. repeat constructor; discriminate.
Qed.

(** In every row the test of the code implies that the text emitted is
    not the text of the default. *)
Lemma emission_table_differs fwd p :
  Forall (fun row => em_emitted row = true ->
                     em_default row <> Some (em_value row))
    (emission_table w fwd p).
Proof.
  unfold emission_table.
  repeat (constructor; [cbn [em_emitted em_default em_value]; intros Hc E|]);
    [..|constructor];
    try discriminate E;
    try (injection E as E; symmetry in E; apply fmt_u_zero in E;
         rewrite E in Hc; rewrite ?andb_false_r in Hc; discriminate Hc).
  - destruct (video_codec p); cbn in *; congruence.
  - destruct (audio_codec p); cbn in *; congruence.
  - injection E as E. apply fmt_i_inj in E. rewrite E, Z.eqb_refl in Hc.
    discriminate Hc.
Qed.

Lemma params_table_rules fwd p row :
  In row (emission_table w fwd p) ->
  has_key (em_key row) (server_params_list w fwd p) = em_emitted row /\
  (forall a, In a (server_params_list w fwd p) -> key_of a = em_key row ->
     a = em_key row +++ "=" +++ em_value row) /\
  (em_emitted row = true -> em_default row <> Some (em_value row)) /\
  (forall d, em_default row = Some d ->
     ~ In (em_key row +++ "=" +++ d) (server_params_list w fwd p)).
Proof.
  intros Hin.
  pose proof (emission_table_well_keyed fwd p) as Hk.
  pose proof (emission_table_other_keys fwd p) as Ho.
  pose proof (emission_table_differs fwd p) as Hd.
  rewrite Forall_forall in Ho, Hd.
  destruct (Ho row Hin) as [Hs Hl]. specialize (Hd row Hin).
  assert (Hnk : strchr (em_key row) "=" = false)
    by (destruct Hk as [_ Hf]; rewrite Forall_forall in Hf; now apply Hf).
  rewrite server_params_table.
  assert (Hfixed : forall a,
    In a ["scid=" +++ Fmt.fmt_08x (scid p);
          "log_level=" +++ log_level_to_server_string (log_level p)] ->
    key_of a <> em_key row).
  { intros a [<-|[<-|[]]]; cbn [key_of String.append Ascii.eqb Bool.eqb];
      congruence. }
  split; [|split; [|split]].
  - rewrite has_key_app, (has_key_emitted _ _ Hk Hin).
    replace (has_key (em_key row) _) with false; [reflexivity|].
    symmetry. unfold has_key. cbn [existsb].
    rewrite !(proj2 (String.eqb_neq _ _)); [reflexivity| |];
      apply Hfixed; cbn; auto.
  - intros a [Ha|Ha]%in_app_or Hka.
    + now apply Hfixed in Ha.
    + now apply (emitted_with_key _ _ _ Hk Hin Ha Hka).
  - exact Hd.
  - intros d Hdef [Ha|Ha]%in_app_or.
    + apply Hfixed in Ha. apply Ha. now apply key_of_append.
    + destruct (emitted_with_key _ _ _ Hk Hin Ha (key_of_append _ _ Hnk))
        as [E Hc].
      apply append_inj_r, append_inj_r in E.
      apply (Hd Hc). now rewrite Hdef, E.
Qed.

Lemma params_keys fwd p a :
  In a (server_params_list w fwd p) ->
  In (key_of a)
     ("scid" :: "log_level" :: map em_key (emission_table w fwd p)).
Proof.
  rewrite server_params_table.
  intros [Ha|Ha]%in_app_or.
  - destruct Ha as [<-|[<-|[]]]; cbn [key_of String.append Ascii.eqb Bool.eqb];
      [now left | right; now left].
  - right. right.
    destruct (in_emitted _ _ Ha) as (row & Hin & _ & ->).
    rewrite key_of_append.
    + now apply in_map.
    + destruct (emission_table_well_keyed fwd p) as [_ Hf].
      rewrite Forall_forall in Hf. now apply Hf.
Qed.

Lemma params_emission_rules fwd p :
  emission_rules w fwd p (server_params_list w fwd p).
Proof.
  unfold emission_rules.
  split; [|split; [|split; [|split; [|split; [|split; [|split; [|split]]]]]]].
  - unfold server_params_list. now left.
  - unfold server_params_list. right. now left.
  - intros k flag H. split.
    + now apply params_has_key_flags.
    + intros a Ha Hk. now apply params_flag_value with (fwd := fwd) (p := p) (flag := flag).
  - apply params_has_key_codecs.
  - apply params_has_key_codecs.
  - intros k n H. now apply params_has_key_numeric.
  - intros kv H. now apply params_never_default.
  - intros a. apply params_keys.
  - intros row. apply params_table_rules.
Qed.

(** C3: the argument vector passed to the spawned process carries, after
    its nine fixed entries, [scid=] and [log_level=] always, and any
    other key only with a value that differs from the server-side
    default: [key=false] for the flags that default to true only when the
    flag is disabled, the codecs only when not h264 / opus, the bit
    rates, [max_size] and [max_fps] only when non-zero, and never a
    documented default value.  This holds of every key: an argument has
    one of the 33 keys of the code, and each key other than [scid] and
    [log_level] is present exactly when the test of the code on its
    value holds, with the text of that value, which differs from the text
    of the default. *)
Theorem execute_server_emits_only_non_defaults
    (p : sc_server_params) (st : state) (s : string) (argv : list string)
    (pid : sc_pid) :
  serial (server st) = Some s ->
  In (EvAdbExecute argv pid) (events (execute_server w p) st) ->
  emission_rules w (forward (tunnel (server st))) p (skipn 9 argv).
Proof.
  intros Hs Hin.
  rewrite (execute_server_argv w p st s argv pid Hs Hin).
  rewrite argv_of_head. cbn [skipn app].
  apply params_emission_rules.
Qed.

Lemma no_other_event e base l mid :
  (forall q, e <> EvFree q) -> (forall q s, e <> EvAsprintf (Some (q, s))) ->
  e <> mid ->
  ~ In e (alloc_events base l ++ [mid] ++ free_events base l).
Proof.
  intros Hf Ha Hm H.
  destruct (in_app_or _ _ _ H) as [H1|[H1|H1]].
  - apply in_alloc_events in H1 as (q & s & ->). now apply (Ha q s).
  - now apply Hm.
  - apply in_free_events in H1 as (q & ->). now apply (Hf q).
Qed.

(** C10: when an allocation of [execute_server] fails, the function
    answers [SC_PROCESS_NONE] and spawns nothing; and on every run the
    blocks given back are exactly the blocks obtained, each once, and
    nothing else is freed. *)
Theorem execute_server_frees_what_it_allocated
    (p : sc_server_params) (st : state) :
  let out := events (execute_server w p) st in
  (In (EvAsprintf None) out ->
     result (execute_server w p) st = SC_PROCESS_NONE /\ executed out = []) /\
  freed out = allocated out /\
  NoDup (allocated out) /\
  ~ In EvFreeNotAllocated out.
Proof.
  intros out. subst out.
  rewrite <- (in_worker (EvAsprintf None)) by reflexivity.
  rewrite <- (in_worker EvFreeNotAllocated) by reflexivity.
  rewrite <- freed_worker, <- allocated_worker, <- executed_worker.
  destruct (execute_server_outcomes w p st) as [E|(k & Hk & Hr & E)];
    rewrite E; clear E;
    rewrite !freed_app, !allocated_app, !executed_app,
      ?freed_alloc_events, ?freed_free_events, ?allocated_alloc_events,
      ?allocated_free_events, ?executed_alloc_events, ?executed_free_events;
    cbn [freed allocated executed flat_map app]; rewrite ?app_nil_r.
  - split; [|split; [|split]].
    + intros Hn. exfalso. revert Hn.
      apply no_other_event; [discriminate| |discriminate].
      intros p0 s0; discriminate.
    + reflexivity.
    + apply seq_NoDup.
    + apply no_other_event; [discriminate| |discriminate].
      intros p0 s0; discriminate.
  - split; [|split; [|split]].
    + intros _. now split.
    + reflexivity.
    + apply seq_NoDup.
    + apply no_other_event; [discriminate| |discriminate].
      intros p0 s0; discriminate.
Qed.

End ExecuteServerClaims.

(** ** Properties of the socket establishment *)

Section ConnectClaims.

Variable w : world.

Lemma failed_attempt_tried h p o : failed_attempt h p o -> sockets_tried o = 1.
Proof. now destruct 1. Qed.

Lemma sockets_tried_app o1 o2 :
  sockets_tried (o1 ++ o2) = sockets_tried o1 + sockets_tried o2.
Proof. unfold sockets_tried. now rewrite filter_app, length_app. Qed.

Lemma connect_trace_tried h p d a n r o :
  connect_trace h p d a n r o -> sockets_tried o = n.
Proof.
  induction 1 as [a s|a o Ho|a o Ho|o Ho|a o n r rest Ho _ IH];
    rewrite ?sockets_tried_app, ?(failed_attempt_tried _ _ _ Ho), ?IH;
    reflexivity.
Qed.




Lemma connect_to_run st :
  connect_to_post w st
    (result (sc_server_connect_to w) st)
    (final (sc_server_connect_to w) st)
    (worker_events (sc_server_connect_to w) st).
Proof. exact (connect_to_spec w st). Qed.


(** C5: on success the only handshake read asks for
    [SC_DEVICE_NAME_FIELD_LENGTH] bytes on the video socket if video is
    enabled, else the audio socket if audio is enabled, else the control
    socket, after the sockets of the enabled streams are established, and
    the stored name ends with NUL at the end of the field; a handshake
    read that returns fewer bytes makes the establishment fail with every
    opened stream socket closed and the tunnel closed. *)
Theorem handshake_reads_device_name (st : state) :
  0 < SC_DEVICE_NAME_FIELD_LENGTH w ->
  video (params (server st)) || audio (params (server st))
    || control (params (server st)) = true ->
  enabled (tunnel (server st)) = true ->
  let len := SC_DEVICE_NAME_FIELD_LENGTH w in
  let r := result (sc_server_connect_to w) st in
  let st' := final (sc_server_connect_to w) st in
  let o := worker_events (sc_server_connect_to w) st in
  (r = true ->
     phases Establishing o = Some HandshakeRead /\
     handshakes o = [(first_socket_of (server st'), len, Z.of_nat len)] /\
     sockets_match_streams (server st') /\
     nul_terminated_field len (info_device_name (server st'))) /\
  (forall s l n, In (s, l, n) (handshakes o) ->
     l = len /\
     ((n < Z.of_nat len)%Z ->
        r = false /\
        Permutation (opened o) (closed o) /\
        tunnel_closes o = 1 /\
        enabled (tunnel (server st')) = false)).
Proof.
  intros Hlen Hstreams Hen len r st' o.
  destruct (connect_to_run st) as (Hclosed & Hcount & Hok & Hfail & Hhs & _).
  fold r st' o in Hclosed, Hcount, Hok, Hfail, Hhs. split.
  - intros Hr. destruct (Hok Hr) as (H1 & H2 & _ & H4 & H5). auto.
  - intros s l n Hin. destruct (Hhs s l n Hin) as (Hl & Hlt & _).
    split; [exact Hl|]. intros Hn. specialize (Hlt Hn). auto.
Qed.

(** C7: a run of [sc_server_connect_to] entered with the tunnel enabled
    closes it exactly once and returns with the tunnel disabled; on
    success the close comes after the socket events and immediately
    before the handshake read. *)
Theorem connect_to_leaves_tunnel_closed (st : state) :
  enabled (tunnel (server st)) = true ->
  let r := result (sc_server_connect_to w) st in
  let st' := final (sc_server_connect_to w) st in
  let o := worker_events (sc_server_connect_to w) st in
  enabled (tunnel (server st')) = false /\
  tunnel_closes o = 1 /\
  (r = true -> phases Establishing o = Some HandshakeRead).
Proof.
  intros Hen r st' o.
  destruct (connect_to_run st) as (Hclosed & Hcount & Hok & _).
  repeat split; auto. intros Hr. now destruct (Hok Hr).
Qed.

End ConnectClaims.

(** ** Properties of the TCP/IP switch *)

Section TcpipClaims.

Variable w : world.

Lemma switch_to_tcpip_run serial st :
  switch_outcome w serial
    (result (sc_server_switch_to_tcpip w serial) st)
    (worker_events (sc_server_switch_to_tcpip w serial) st).
Proof.
  change (wp worker_event (sc_server_switch_to_tcpip w serial)
            (fun res _ o => switch_outcome w serial res o) st).
  apply wp_switch_to_tcpip. auto.
Qed.

(** The runs that found the address [ip] and read the property [r]. *)
Lemma switch_outcome_inv serial res o ip r rest :
  switch_outcome w serial res o ->
  o = EvAdbGetDeviceIp serial (Some ip) :: getprop_port serial r :: rest ->
  (port_of_property w r <> 0%N /\
   alloc_outcome (ip_port_string ip (port_of_property w r)) res rest)
  \/
  (port_of_property w r = 0%N /\
   exists ok rest',
     rest = EvAdbTcpip serial SC_ADB_PORT_DEFAULT [SC_ADB_NO_STDOUT] ok :: rest' /\
     (ok = false -> rest' = [] /\ res = None) /\
     (ok = true ->
        exists b ow oa,
          wait_outcome w serial SC_ADB_PORT_DEFAULT 250 40 b ow /\
          rest' = ow ++ oa /\
          (b = false -> oa = [] /\ res = None) /\
          (b = true ->
             alloc_outcome (ip_port_string ip SC_ADB_PORT_DEFAULT) res oa))).
Proof.
  intros Ho E.
  destruct Ho as [|ip0 r0 res oa Hp Ha|ip0 r0 Hp|ip0 r0 ow Hp Hw
                  |ip0 r0 ow res oa Hp Hw Ha];
    cbn [app] in E; try discriminate E;
    injection E as <- <- <-.
  - left. now split.
  - right. split; [exact Hp|]. exists false, []. repeat split; discriminate.
  - right. split; [exact Hp|]. exists true, ow. repeat split; try discriminate.
    intros _. exists false, ow, []. rewrite app_nil_r.
    repeat split; auto; discriminate.
  - right. split; [exact Hp|]. exists true, (ow ++ oa).
    repeat split; try discriminate.
    intros _. exists true, ow, oa. repeat split; auto; discriminate.
Qed.

Lemma ports_read_app o1 o2 :
  ports_read w (o1 ++ o2) = ports_read w o1 ++ ports_read w o2.
Proof. apply flat_map_app. Qed.

(** The polling loop reads ports other than the expected one until,
    when it succeeds, the last read gives the expected port. *)
Lemma wait_trace_ports serial expected delay a n b o :
  wait_trace w serial expected delay a n b o ->
  exists others,
    ports_read w o = others ++ (if b then [expected] else []) /\
    Forall (fun p => p <> expected) others /\
    List.length others <= n.
Proof.
  induction 1 as [a|a r Hr|r Hr|a r n b rest Hr _ (others & E & F & L)].
  - exists []. repeat split; auto.
  - exists []. cbn. rewrite Hr. repeat split; auto.
  - exists [port_of_property w r]. cbn. repeat split; auto.
  - exists (port_of_property w r :: others).
    rewrite ports_read_app, E. cbn. repeat split; auto. lia.
Qed.

Lemma wait_outcome_ports serial expected delay attempts b o :
  wait_outcome w serial expected delay attempts b o ->
  exists others,
    ports_read w o = others ++ (if b then [expected] else []) /\
    Forall (fun p => p <> expected) others /\
    List.length others <= S attempts.
Proof.
  destruct 1 as [r Hr|r n b rest Hr Hn Ht].
  - exists []. cbn. rewrite Hr. repeat split; auto. lia.
  - destruct (wait_trace_ports _ _ _ _ _ _ _ Ht) as (others & E & F & L).
    exists (port_of_property w r :: others).
    change (getprop_port serial r :: rest)
      with ([getprop_port serial r] ++ rest).
    rewrite ports_read_app, E. cbn. repeat split; auto. lia.
Qed.

(** A loop that answers [false] has a reason to: a sleep was stopped,
    or every round was made and read a port. *)
Lemma wait_trace_gave_up serial expected delay a n o :
  wait_trace w serial expected delay a n false o ->
  (exists o', o = o' ++ [EvSleep delay false]) \/
  (n = a /\ List.length (ports_read w o) = n).
Proof.
  intros H. remember false as b eqn:Eb.
  induction H as [a|a r Hr|r Hr|a r n b rest Hr _ IH].
  - left. now exists [].
  - discriminate Eb.
  - right. now split.
  - destruct (IH Eb) as [(o' & ->)|(-> & L)].
    + left. exists ([EvSleep delay true; getprop_port serial r] ++ o').
      now rewrite <- app_assoc.
    + right. split; [reflexivity|].
      rewrite ports_read_app, length_app, L. reflexivity.
Qed.

Lemma wait_outcome_gave_up serial expected delay attempts o :
  wait_outcome w serial expected delay attempts false o ->
  wait_gave_up w delay attempts o.
Proof.
  intros H. remember false as b eqn:Eb.
  destruct H as [r Hr|r n b rest Hr Hn Ht]; [discriminate Eb|]. subst b.
  destruct (wait_trace_gave_up _ _ _ _ _ _ Ht) as [(o' & ->)|(-> & L)].
  - left. exists (getprop_port serial r :: o'). reflexivity.
  - right.
    change (getprop_port serial r :: rest)
      with ([getprop_port serial r] ++ rest).
    rewrite ports_read_app, length_app, L. reflexivity.
Qed.

Lemma tcpip_requests_alloc s res oa :
  alloc_outcome s res oa -> tcpip_requests oa = [].
Proof. now destruct 1. Qed.

Lemma alloc_outcome_result s res oa :
  alloc_outcome s res oa -> forall x, res = Some x -> x = s.
Proof. destruct 1; intros x E; congruence. Qed.

Lemma stored_serial device st :
  sc_adb_device_get_type w device = SC_ADB_DEVICE_TYPE_USB ->
  result (sc_server_configure_tcpip_unknown_address w device) st = true ->
  serial_stored_is_switch_result w device st.
Proof.
  unfold serial_stored_is_switch_result,
    sc_server_configure_tcpip_unknown_address.
  intros -> Hr. rewrite result_bind in Hr. rewrite final_bind.
  destruct (result (sc_server_switch_to_tcpip w device) st) as [s|];
    [clear Hr | discriminate Hr].
  set (st1 := final (sc_server_switch_to_tcpip w device) st).
  change (wp worker_event
            (update_server (with_serial (Some s)) ;;
             sc_server_connect_to_tcpip w s)
            (fun _ st' _ => serial (server st') = Some s) st1).
  unfold sc_server_connect_to_tcpip, sc_adb_disconnect, sc_adb_connect.
  repeat wp_go_step; reflexivity.
Qed.

(** C2 (amended): the request to enable TCP/IP mode is skipped exactly
    when the port read from the property is not zero, whatever that port
    is; and a successful switch answers the address of the device joined
    with that port, or with 5555 when the port read was zero and the mode
    had to be enabled.  The unknown-address configuration stores that
    answer as the serial. *)
Theorem tcpip_switch_keeps_enabled_port (serial : string) (st : state)
    (ip : string) (r : option string) (rest : list event) :
  worker_events (sc_server_switch_to_tcpip w serial) st =
    EvAdbGetDeviceIp serial (Some ip) :: getprop_port serial r :: rest ->
  let port := port_of_property w r in
  (tcpip_requests (worker_events (sc_server_switch_to_tcpip w serial) st) = []
   <-> port <> 0%N) /\
  (forall s, result (sc_server_switch_to_tcpip w serial) st = Some s ->
     s = ip_port_string ip
           (if (port =? 0)%N then SC_ADB_PORT_DEFAULT else port)) /\
  (sc_adb_device_get_type w serial = SC_ADB_DEVICE_TYPE_USB ->
   result (sc_server_configure_tcpip_unknown_address w serial) st = true ->
   serial_stored_is_switch_result w serial st).
Proof.
  intros E port.
  pose proof (switch_to_tcpip_run serial st) as Ho.
  destruct (switch_outcome_inv _ _ _ _ _ _ Ho E)
    as [[Hp Ha]|(Hp & ok & rest' & -> & Hrefused & Hok)].
  - split; [|split].
    + rewrite E. pose proof (tcpip_requests_alloc _ _ _ Ha) as Ht.
      unfold tcpip_requests in *. cbn [filter getprop_port]. rewrite Ht. tauto.
    + intros s Hs. fold port in Hp.
      destruct (N.eqb_spec port 0); [contradiction|].
      apply (alloc_outcome_result _ _ _ Ha _ Hs).
    + apply stored_serial.
  - split; [|split].
    + rewrite E. unfold tcpip_requests. cbn [filter getprop_port].
      split; [discriminate|]. fold port in Hp. congruence.
    + intros s Hs. fold port in Hp. rewrite Hp. cbn.
      destruct ok.
      * destruct (Hok eq_refl) as (b & ow & oa & _ & _ & Hf & Ht).
        destruct b.
        -- apply (alloc_outcome_result _ _ _ (Ht eq_refl) _ Hs).
        -- destruct (Hf eq_refl). congruence.
      * destruct (Hrefused eq_refl). congruence.
    + apply stored_serial.
Qed.

Lemma get_adb_tcp_port_result device st :
  result (get_adb_tcp_port w device) st =
  port_of_property w (ask_string w (clock st)).
Proof.
  change (wp worker_event (get_adb_tcp_port w device)
            (fun r _ _ => r = port_of_property w (ask_string w (clock st))) st).
  apply wp_get_adb_tcp_port. reflexivity.
Qed.

Lemma invalid_property_port r : invalid_property w r -> port_of_property w r = 0%N.
Proof.
  intros [->|(s & -> & [H|(v & H & Hv)])]; cbn; [reflexivity|..]; rewrite H;
    [reflexivity|].
  destruct (Z.ltb_spec v 0); [reflexivity|].
  destruct (Z.gtb_spec v 65535); [reflexivity|lia].
Qed.

(** C9: for a property that is absent, not an integer, negative or above
    0xFFFF, [get_adb_tcp_port] answers 0; the switch then requests TCP/IP
    mode on port 5555 and, when the request succeeds, polls the property,
    every 250 ms, until a read gives 5555: the polling goes on after
    every other read, and gives up only when a sleep is stopped or when
    the first read and the reads of the 40 rounds are made. *)
Theorem invalid_port_property_enables_tcpip (device : string) (st : state)
    (ip : string) (r : option string) (rest : list event) :
  worker_events (sc_server_switch_to_tcpip w device) st =
    EvAdbGetDeviceIp device (Some ip) :: getprop_port device r :: rest ->
  invalid_property w r ->
  let res := result (sc_server_switch_to_tcpip w device) st in
  port_of_property w r = 0%N /\
  (forall st1, result (get_adb_tcp_port w device) st1 =
               port_of_property w (ask_string w (clock st1))) /\
  exists ok rest',
    rest = EvAdbTcpip device SC_ADB_PORT_DEFAULT [SC_ADB_NO_STDOUT] ok :: rest' /\
    (ok = false -> rest' = [] /\ res = None) /\
    (ok = true ->
       exists b ow oa others,
         wait_outcome w device SC_ADB_PORT_DEFAULT 250 40 b ow /\
         rest' = ow ++ oa /\
         ports_read w ow = others ++ (if b then [SC_ADB_PORT_DEFAULT] else []) /\
         Forall (fun p => p <> SC_ADB_PORT_DEFAULT) others /\
         List.length others <= 41 /\
         (b = false ->
            oa = [] /\ res = None /\ wait_gave_up w 250 40 ow) /\
         (b = true ->
            alloc_outcome (ip_port_string ip SC_ADB_PORT_DEFAULT) res oa)).
Proof.
  intros E Hinv res.
  pose proof (invalid_property_port r Hinv) as Hp.
  split; [exact Hp|]. split; [intros st1; apply get_adb_tcp_port_result|].
  pose proof (switch_to_tcpip_run device st) as Ho.
  destruct (switch_outcome_inv _ _ _ _ _ _ Ho E)
    as [[Hne _]|(_ & ok & rest' & -> & Hrefused & Hok)]; [contradiction|].
  exists ok, rest'. split; [reflexivity|]. split; [exact Hrefused|].
  intros Hok'. destruct (Hok Hok') as (b & ow & oa & Hw & -> & Hf & Ht).
  destruct (wait_outcome_ports _ _ _ _ _ _ Hw) as (others & Ep & Fp & Lp).
  exists b, ow, oa, others.
  split; [exact Hw|]. split; [reflexivity|]. split; [exact Ep|].
  split; [exact Fp|]. split; [exact Lp|]. split; [|exact Ht].
  intros ->. destruct (Hf eq_refl) as [-> Hres].
  split; [reflexivity|]. split; [exact Hres|].
  now apply wait_outcome_gave_up with (serial := device)
    (expected := SC_ADB_PORT_DEFAULT).
Qed.

Lemma fmt_u_default_port : Fmt.fmt_u SC_ADB_PORT_DEFAULT = "5555".
Proof. reflexivity. Qed.

Lemma ip_port_default addr :
  ip_port_string addr SC_ADB_PORT_DEFAULT = addr +++ ":5555".
Proof. unfold ip_port_string. now rewrite fmt_u_default_port. Qed.

(** C8: a destination without [:] gets [:5555] appended, one with [:] is
    kept as it is; the address is disconnected with [SC_ADB_SILENT],
    then connected; whenever the normalized address could be allocated it
    is the serial of the controller, in particular on success. *)
Theorem known_address_is_normalized (addr : string) (st : state) :
  let r := result (sc_server_configure_tcpip_known_address w addr) st in
  let st' := final (sc_server_configure_tcpip_known_address w addr) st in
  let o := worker_events (sc_server_configure_tcpip_known_address w addr) st in
  let ip_port := normalized_address addr in
  (strchr addr ":" = false -> ip_port = addr +++ ":5555") /\
  (strchr addr ":" = true -> ip_port = addr) /\
  ((o = [EvAsprintf None] /\ r = false) \/
   (exists p ok,
      o = [EvAsprintf (Some (p, ip_port));
           EvAdbDisconnect ip_port [SC_ADB_SILENT];
           EvAdbConnect ip_port [] ok] /\
      r = ok /\
      serial (server st') = Some ip_port)).
Proof.
  intros r st' o ip_port. subst ip_port. unfold normalized_address.
  split; [now intros ->|]. split; [now intros ->|].
  subst r st' o.
  change (wp worker_event (sc_server_configure_tcpip_known_address w addr)
    (fun r st' o =>
       (o = [EvAsprintf None] /\ r = false) \/
       (exists p ok,
          o = [EvAsprintf (Some (p, if strchr addr ":" then addr
                                    else addr +++ ":5555"));
               EvAdbDisconnect (if strchr addr ":" then addr
                                else addr +++ ":5555") [SC_ADB_SILENT];
               EvAdbConnect (if strchr addr ":" then addr
                             else addr +++ ":5555") [] ok] /\
          r = ok /\
          serial (server st') =
            Some (if strchr addr ":" then addr else addr +++ ":5555"))) st).
  unfold sc_server_configure_tcpip_known_address, sc_server_connect_to_tcpip,
    sc_adb_disconnect, sc_adb_connect.
  wp_step.
  destruct (strchr addr ":").
  - apply wp_strdup. intros res c' nb b' oa Ha.
    destruct Ha as [p|].
    + repeat wp_go_step; right; exists p; eexists;
        (split; [reflexivity|]); split; reflexivity.
    + wp_step. now left.
  - apply wp_append_port. intros res c' nb b' oa Ha.
    rewrite ip_port_default in Ha.
    destruct Ha as [p|].
    + repeat wp_go_step; right; exists p; eexists;
        (split; [reflexivity|]); split; reflexivity.
    + wp_step. now left.
Qed.

End TcpipClaims.

(** C2 (as stated, refuted): with TCP/IP mode already enabled on port
    5556 the request is skipped although the port is not 5555, and the
    switch answers the address joined with 5556. *)
Lemma tcpip_switch_not_as_claimed :
  ~ tcpip_switch_as_claimed world_port_5556 "A1B2C3"
      (initial_state default_params).
Proof.
  intros H.
  destruct (H "192.168.1.7" (Some "5556")
              [EvAsprintf (Some (0, "192.168.1.7:5556"))] eq_refl)
    as [[Hskip _] _].
  specialize (Hskip eq_refl). discriminate Hskip.
Qed.

(** ** The callbacks of plain code *)

Section CallbackFacts.

Variable w : world.

Lemma of_kinds_not_callback ks e :
  existsb (event_kind_eqb KCallback) ks = false ->
  of_kinds ks e = true -> not_callback e = true.
Proof.
  intros Hk He. unfold not_callback, is_callback.
  destruct e; try reflexivity. exfalso.
  unfold of_kinds in He. cbn [kind_of] in He. congruence.
Qed.

Lemma plain_not_callback {A} ks (m : M A) :
  existsb (event_kind_eqb KCallback) ks = false ->
  plain w (of_kinds ks) m -> plain w not_callback m.
Proof.
  intros Hk. apply plain_weaken. intros e. now apply of_kinds_not_callback.
Qed.

Lemma filter_callbacks o :
  filter is_callback o = map EvCallback (callbacks o).
Proof.
  unfold callbacks.
  induction o as [|e o IH]; [reflexivity|].
  cbn [filter flat_map]. destruct e; cbn [is_callback app map];
    rewrite ?IH; reflexivity.
Qed.

Lemma callbacks_filter o : callbacks (filter is_callback o) = callbacks o.
Proof.
  unfold callbacks.
  induction o as [|e o IH]; [reflexivity|].
  cbn [filter flat_map]. destruct (is_callback e) eqn:E.
  - cbn [flat_map]. now rewrite IH.
  - rewrite IH. destruct e; try discriminate E; reflexivity.
Qed.

Lemma wp_plain_callbacks {A} (m : M A) (Q : post A) st :
  plain w not_callback m ->
  (forall a st' o, hook_events (bg st) (bg st') o -> Q a st' o) ->
  wp is_callback m Q st.
Proof.
  intros Hp H. apply H.
  assert (Hn : forall e, not_callback e = true -> is_callback e = false)
    by (intros e; unfold not_callback; now destruct (is_callback e)).
  destruct (plain_hook_step w not_callback m Hp Hn st)
    as [Ha [[Hf E]|(Ha1 & Hf1 & Hf2 & E)]];
    (split; [exact Ha|]); rewrite filter_callbacks, E; cbn; auto.
Qed.

(** Plain code that neither fires a callback nor starts the observer
    shows, of the callbacks and the start of the observer, the callback
    of the hook only. *)
Lemma of_kinds_unselected ks e :
  existsb (event_kind_eqb KCallback) ks = false ->
  existsb (event_kind_eqb KObserver) ks = false ->
  of_kinds ks e = true -> not_callback_or_init e = true.
Proof.
  intros Hc Ho He. unfold not_callback_or_init.
  destruct e; try reflexivity; exfalso;
    unfold of_kinds in He; cbn [kind_of] in He; congruence.
Qed.

Lemma plain_unselected {A} ks (m : M A) :
  existsb (event_kind_eqb KCallback) ks = false ->
  existsb (event_kind_eqb KObserver) ks = false ->
  plain w (of_kinds ks) m -> plain w not_callback_or_init m.
Proof.
  intros Hc Ho. apply plain_weaken. intros e. now apply of_kinds_unselected.
Qed.

Lemma filter_callback_or_init {A} (m : M A) :
  plain w not_callback_or_init m ->
  forall st,
    filter callback_or_init (events m st) = filter is_callback (events m st).
Proof.
  induction 1 as [A a|A B m k Hm IHm Hk IHk| |f Hf|e He|]; intros st.
  - reflexivity.
  - now rewrite events_bind, !filter_app, IHm, IHk.
  - reflexivity.
  - reflexivity.
  - unfold not_callback_or_init in He.
    destruct e; cbn in He |- *; first [reflexivity | discriminate He].
  - unfold observer_poll.
    rewrite events_bind. cbn [get_state result final events fst snd app].
    destruct (observer_attached (bg st) && negb (observer_fired (bg st))
              && ask_exit w (clock st)); reflexivity.
Qed.

Lemma wp_plain_hook {A} (m : M A) (Q : post A) st :
  plain w not_callback_or_init m ->
  (forall a st' o, hook_events (bg st) (bg st') o -> Q a st' o) ->
  wp callback_or_init m Q st.
Proof.
  intros Hp H. unfold wp. rewrite (filter_callback_or_init m Hp).
  apply (wp_plain_callbacks m Q st); [|exact H].
  eapply plain_weaken; [|exact Hp].
  intros e. unfold not_callback_or_init, not_callback.
  destruct e; cbn; congruence.
Qed.

Lemma callbacks_selected o :
  callbacks (filter callback_or_init o) = callbacks o.
Proof.
  unfold callbacks.
  induction o as [|e o IH]; [reflexivity|].
  cbn [filter flat_map]. destruct (callback_or_init e) eqn:E.
  - cbn [flat_map]. now rewrite IH.
  - rewrite IH. destruct e; try discriminate E; reflexivity.
Qed.

(** The functions called by [run_server] fire no callback themselves. *)
Lemma quiet_execute_server p : plain w not_callback (execute_server w p).
Proof. eapply plain_not_callback; [|apply plain_execute_server]; reflexivity. Qed.

Lemma quiet_connect_to : plain w not_callback (sc_server_connect_to w).
Proof. eapply plain_not_callback; [|apply plain_sc_server_connect_to]; reflexivity. Qed.

Lemma quiet_configure_known a :
  plain w not_callback (sc_server_configure_tcpip_known_address w a).
Proof. eapply plain_not_callback; [|apply plain_configure_known]; reflexivity. Qed.

Lemma quiet_configure_unknown a :
  plain w not_callback (sc_server_configure_tcpip_unknown_address w a).
Proof. eapply plain_not_callback; [|apply plain_configure_unknown]; reflexivity. Qed.

Lemma quiet_push_server s : plain w not_callback (push_server w s).
Proof. eapply plain_not_callback; [|apply plain_push_server]; reflexivity. Qed.

Lemma quiet_kill_adb : plain w not_callback (sc_server_kill_adb_if_requested w).
Proof. eapply plain_not_callback; [|apply plain_kill_adb]; reflexivity. Qed.

Lemma quiet_tunnel_open f : plain w not_callback (sc_adb_tunnel_open w f).
Proof. eapply plain_not_callback; [|apply plain_sc_adb_tunnel_open]; reflexivity. Qed.

Lemma quiet_tunnel_close : plain w not_callback (sc_adb_tunnel_close w).
Proof. eapply plain_not_callback; [|apply plain_sc_adb_tunnel_close]; reflexivity. Qed.

Lemma quiet_asprintf s : plain w not_callback (asprintf w s).
Proof. eapply plain_not_callback; [|apply plain_asprintf]; reflexivity. Qed.

Lemma quiet_tick {A} (ask : world -> nat -> A) : plain w not_callback (tick w ask).
Proof. apply plain_tick. Qed.

End CallbackFacts.

(** A proof that a call of [run_server] fires no callback itself. *)
Ltac quiet_call :=
  first
    [ apply quiet_execute_server | apply quiet_connect_to
    | apply quiet_configure_known | apply quiet_configure_unknown
    | apply quiet_push_server | apply quiet_kill_adb
    | apply quiet_tunnel_open | apply quiet_tunnel_close
    | apply quiet_asprintf | apply quiet_tick
    | apply plain_ext; intros; reflexivity
    | apply plain_call; reflexivity ].

(** A proof that it neither fires a callback nor starts the observer. *)
Ltac unselected_call :=
  first
    [ apply plain_tick
    | apply plain_ext; intros; reflexivity
    | apply plain_call; reflexivity
    | eapply plain_unselected;
      [ | | first
              [ apply plain_execute_server
              | apply plain_sc_server_connect_to
              | apply plain_configure_known
              | apply plain_configure_unknown
              | apply plain_push_server
              | apply plain_kill_adb
              | apply plain_sc_adb_tunnel_open
              | apply plain_sc_adb_tunnel_close
              | apply plain_asprintf ] ];
      reflexivity ].

(** The case analysis on what the hook did during a call; the cases that
    contradict what is known of the observer are closed at once. *)
Ltac hook_cases H :=
  destruct H as [?Hatt [[?Hfired ->]|(?Harmed & ?Hnotyet & ?Hfired & ->)]];
  cbn [bg set_observer set_bg set_interrupted set_server set_clock
       observer_attached observer_fired interrupted] in *;
  try (exfalso; congruence).

Ltac cb_step :=
  cbv beta zeta;
  cbn [is_some negb andb orb fst snd when filter callback_or_init app
       bg set_observer set_bg set_interrupted set_server set_clock
       observer_attached observer_fired interrupted];
  lazymatch goal with
  | |- wp _ (bind _ _) _ _ => apply wp_bind
  | |- wp _ (ret _) _ _ => apply wp_ret
  | |- wp _ get_state _ _ => apply wp_get_state
  | |- wp _ get_server _ _ => apply wp_get_server
  | |- wp _ (modify _) _ _ => apply wp_modify
  | |- wp _ (update_server _) _ _ => apply wp_update_server
  | |- wp _ (emit _) _ _ => apply wp_emit
  | |- wp _ (sc_server_on_terminated) _ _ => apply wp_on_terminated
  | |- wp _ (when _ _) _ _ => unfold when
  | |- wp _ (call _ (EvCallback _)) _ _ => unfold call, ext
  | |- wp _ (ext _ _ (EvObserverInit _)) _ _ => unfold ext
  | |- wp _ (if observer_attached (bg ?s) && negb (observer_fired (bg ?s))
             then _ else _) _ _ =>
      destruct (observer_attached (bg s)) eqn:?;
      destruct (observer_fired (bg s)) eqn:?;
      cbn [andb negb]; try (exfalso; congruence)
  | |- wp _ (if ?c then _ else _) _ _ => destruct c eqn:?
  | |- wp _ (match ?c with _ => _ end) _ _ => destruct c eqn:?
  | |- wp _ _ _ _ =>
      eapply wp_plain_hook;
      [ unselected_call
      | let a := fresh "a" in let st := fresh "st" in
        let o := fresh "o" in let H := fresh "Hhook" in
        intros a st o H; hook_cases H ]
  end.

(** ** The callbacks of [run_server] *)

Section CallbackClaims.

Variable w : world.

Lemma run_server_callbacks_wp st :
  observer_attached (bg st) = false ->
  wp callback_or_init (run_server w)
    (fun r _ o => callback_trace (list_query (params (server st))) r o) st.
Proof.
  intros Hstart.
  unfold run_server, run_server_connected, error_connection_failed,
    sc_adb_start_server, sc_adb_select_device, sc_process_wait,
    sc_process_close, sc_process_terminate, sc_process_observer_init,
    sc_process_observer_timedwait, sc_process_observer_join,
    sc_process_observer_destroy, wait_stopped, net_interrupt, cbs.
  cb_step. cb_step. cbv beta zeta.
  unfold list_query.
  destruct (list_encoders (params (server st))
            || list_displays (params (server st))
            || list_cameras (params (server st))) eqn:Hquery.
  all: repeat cb_step.
  all: cbn [app]; unfold callback_trace.
  all: try solve [ left; split; reflexivity
                 | right; left; repeat split; reflexivity
                 | right; right; split; [reflexivity|]; eexists;
                   first [ left; split; reflexivity
                         | right; left; split; reflexivity
                         | right; right; split; [reflexivity|];
                           first [left; reflexivity | right; reflexivity] ] ].
Qed.

Lemma callback_trace_patterns query r o :
  callback_trace query r o -> callback_patterns query r (callbacks o).
Proof.
  unfold callback_trace, callback_patterns.
  intros [[-> ->]|[(-> & -> & ->)|(-> & pid & H)]].
  - left. now split.
  - right. left. now repeat split.
  - destruct H as [[-> ->]|[[-> ->]|[-> [->| ->]]]]; cbn.
    + left. now split.
    + right. right. left. now repeat split.
    + right. right. right. repeat split; auto.
    + right. right. right. repeat split; auto.
Qed.

(** C1 (amended): a run of the worker that starts without an observer
    fires exactly one of [on_connection_failed], when it returns -1, and
    [on_connected], when it returns 0.  A list query fires nothing else.
    On the other paths [on_disconnected] fires exactly when the process
    observer was started with success, once, and after that start: a run
    that fails before the start of the observer, or because the observer
    cannot be started, fires [on_connection_failed] alone; a run that
    fails after the observer was started fires [on_disconnected] and
    then [on_connection_failed]; a run that succeeds fires
    [on_connected] and [on_disconnected], in this order or, when the
    termination hook runs before [on_connected] is called, in the other
    one. *)
Theorem run_server_callback_patterns (st : state) :
  observer_attached (bg st) = false ->
  callback_patterns (list_query (params (server st)))
    (result (run_server w) st)
    (callbacks (events (run_server w) st)) /\
  callback_trace (list_query (params (server st)))
    (result (run_server w) st)
    (filter callback_or_init (events (run_server w) st)).
Proof.
  intros Hstart.
  pose proof (run_server_callbacks_wp st Hstart) as H. unfold wp in H.
  split; [|exact H].
  rewrite <- callbacks_selected. now apply callback_trace_patterns.
Qed.

End CallbackClaims.

(** C1 (as stated, refuted): a list query on a cooperative device fires
    [on_connected] and nothing else. *)
Lemma list_query_fires_on_connected_only :
  callbacks (events (run_server cooperative_world)
               (initial_state list_encoders_params)) = [on_connected] /\
  ~ exactly_one_pattern
      (callbacks (events (run_server cooperative_world)
                    (initial_state list_encoders_params))).
Proof.
  assert (E : callbacks (events (run_server cooperative_world)
                            (initial_state list_encoders_params))
              = [on_connected]) by (vm_compute; reflexivity).
  split; [exact E|]. rewrite E. intros [H|H]; discriminate H.
Qed.

(** When the remote process exits during the establishment, the hook
    fires [on_disconnected] and the worker then fires
    [on_connection_failed]. *)
Example remote_exits_before_connection :
  callbacks (events (run_server world_remote_exits)
               (initial_state default_params))
  = [on_disconnected; on_connection_failed].
Proof. vm_compute. reflexivity. Qed.

(** ** The remote socket name *)

Section SocketName.

Variable w : world.

Lemma filter_quiet phi o :
  quiet phi -> filter phi o = filter phi (filter worker_event o).
Proof.
  intros [H1 H2]. induction o as [|e o IH]; [reflexivity|].
  cbn [filter]. destruct (worker_event e) eqn:E.
  - cbn [filter]. now rewrite IH.
  - destruct (worker_event_false e E) as [-> | ->];
      rewrite ?H1, ?H2; exact IH.
Qed.

(** Plain code is silent for a selection that its footprint excludes. *)
Lemma wp_plain_silent {A} phi ks (m : M A) (Q : post A) st :
  quiet phi ->
  plain w (of_kinds ks) m ->
  (forall e, of_kinds ks e = true -> phi e = false) ->
  (forall a st', Q a st' []) ->
  wp phi m Q st.
Proof.
  intros Hq Hp Hd H. unfold wp.
  replace (filter phi (events m st)) with (@nil event); [apply H|].
  rewrite (filter_quiet _ _ Hq).
  pose proof (plain_footprint w _ m Hp st) as F.
  induction F as [|e l He _ IH]; [reflexivity|].
  cbn [filter]. now rewrite (Hd e He).
Qed.

Lemma quiet_tunnel_open_event : quiet tunnel_open_event.
Proof. split; reflexivity. Qed.

Lemma not_tunnel_open ks e :
  existsb (event_kind_eqb KTunnelOpen) ks = false ->
  of_kinds ks e = true -> tunnel_open_event e = false.
Proof.
  intros Hk He. unfold tunnel_open_event, of_kinds in *.
  destruct (kind_of e); cbn in *; congruence.
Qed.

End SocketName.

Ltac silent_call_by L :=
  eapply (wp_plain_silent _ _ _ _ _ _ quiet_tunnel_open_event);
  [ apply L
  | intros ?e; apply not_tunnel_open; reflexivity
  | intros ?a ?st ].

Ltac silent_call :=
  first
    [ silent_call_by plain_execute_server
    | silent_call_by plain_sc_server_connect_to
    | silent_call_by plain_configure_known
    | silent_call_by plain_configure_unknown
    | silent_call_by plain_push_server
    | silent_call_by plain_kill_adb
    | silent_call_by plain_asprintf ].

Ltac name_step :=
  wp_norm; cbn [filter tunnel_open_event of_kinds kind_of existsb
                event_kind_eqb orb];
  lazymatch goal with
  | |- wp _ (bind _ _) _ _ => apply wp_bind
  | |- wp _ (ret _) _ _ => apply wp_ret
  | |- wp _ get_state _ _ => apply wp_get_state
  | |- wp _ get_server _ _ => apply wp_get_server
  | |- wp _ (modify _) _ _ => apply wp_modify
  | |- wp _ (update_server _) _ _ => apply wp_update_server
  | |- wp _ (emit _) _ _ => apply wp_emit
  | |- wp _ (sc_server_on_terminated) _ _ => apply wp_on_terminated
  | |- wp _ (ext _ _ _) _ _ =>
      apply wp_ext_quiet; [exact quiet_tunnel_open_event | intros ?b]
  | |- wp _ (call _ _) _ _ =>
      apply wp_call_quiet; [exact quiet_tunnel_open_event | intros ?b]
  | |- wp _ (tick _ _) _ _ =>
      apply wp_tick_quiet; [exact quiet_tunnel_open_event | intros ?b]
  | |- wp _ (when _ _) _ _ => unfold when
  | |- wp _ (if ?c then _ else _) _ _ => destruct c eqn:?
  | |- wp _ (match ?c with _ => _ end) _ _ => destruct c eqn:?
  | |- wp _ _ _ _ => silent_call
  end.

Section SocketNameClaim.

Variable w : world.

Lemma run_server_tunnel_name st :
  wp tunnel_open_event (run_server w)
    (fun _ _ o =>
       Forall (fun e => exists s ok,
                 e = EvAdbTunnelOpen s
                       (Some (SC_SOCKET_NAME_PREFIX +++
                              Fmt.fmt_08x (scid (params (server st))))) ok) o)
    st.
Proof.
  unfold run_server, run_server_connected, error_connection_failed,
    sc_adb_start_server, sc_adb_select_device, sc_process_wait,
    sc_process_close, sc_process_terminate, sc_process_observer_init,
    sc_process_observer_timedwait, sc_process_observer_join,
    sc_process_observer_destroy, wait_stopped, net_interrupt, cbs,
    sc_adb_tunnel_open, sc_adb_tunnel_close.
  repeat name_step.
  all: cbn [app]; repeat constructor; eexists; eexists; reflexivity.
Qed.

End SocketNameClaim.

(** ** The theorems at concrete inputs *)

(** The scenario of the spec: one USB device, all streams, defaults. *)
Example default_run_argv :
  executed (events (run_server cooperative_world)
              (initial_state default_params))
  = [ [ "adb"; "-s"; "A1B2C3"; "shell";
        "CLASSPATH=/data/local/tmp/scrcpy-server.jar"; "app_process"; "/";
        "com.genymobile.scrcpy.Server"; "2.2";
        "scid=0a1b2c3d"; "log_level=info" ] ].
Proof. vm_compute. reflexivity. Qed.

Example custom_argv_value :
  custom_argv
  = [ "adb"; "-s"; "A1B2C3"; "shell";
      "CLASSPATH=/data/local/tmp/scrcpy-server.jar"; "app_process"; "/";
      "com.genymobile.scrcpy.Server"; "2.2";
      "scid=0000beef"; "log_level=debug"; "video_bit_rate=8000000";
      "audio=false"; "video_codec=h265"; "max_size=1024";
      "tunnel_forward=true"; "clipboard_autosync=false" ].
Proof. reflexivity. Qed.

(** The third attempt of the forward tunnel reads its byte. *)
Example slow_forward_trace :
  worker_events (sc_server_connect_to world_slow_forward)
    (tunnel_state custom_params true)
  = [ EvNetSocket (Some 0%Z); EvNetConnect (Some 0%Z) 2130706433 27183 true;
      EvNetRecv (Some 0%Z) 1 0; EvNetClose (Some 0%Z);
      EvIntrIsInterrupted false; EvSleep 100 true;
      EvNetSocket (Some 6%Z); EvNetConnect (Some 6%Z) 2130706433 27183 true;
      EvNetRecv (Some 6%Z) 1 (-1); EvNetClose (Some 6%Z);
      EvIntrIsInterrupted false; EvSleep 100 true;
      EvNetSocket (Some 12%Z); EvNetConnect (Some 12%Z) 2130706433 27183 true;
      EvNetRecv (Some 12%Z) 1 1;
      EvNetSocket (Some 15%Z); EvNetConnect (Some 15%Z) 2130706433 27183 true;
      EvAdbTunnelClose (Some "A1B2C3") (Some "scrcpy_0a1b2c3d");
      EvNetRecvAll (Some 12%Z) 64 64 ].
Proof. vm_compute. reflexivity. Qed.

(** A device name one byte short: the sockets and the tunnel are closed. *)
Example short_name_trace :
  result (sc_server_connect_to world_short_name)
    (tunnel_state default_params false) = false /\
  worker_events (sc_server_connect_to world_short_name)
    (tunnel_state default_params false)
  = [ EvNetAccept (Some 3%Z) (Some 0%Z); EvNetAccept (Some 3%Z) (Some 1%Z);
      EvNetAccept (Some 3%Z) (Some 2%Z);
      EvAdbTunnelClose (Some "A1B2C3") (Some "scrcpy_0a1b2c3d");
      EvNetRecvAll (Some 0%Z) 64 63;
      EvNetClose (Some 0%Z); EvNetClose (Some 1%Z); EvNetClose (Some 2%Z) ].
Proof. split; vm_compute; reflexivity. Qed.

(** The switch of a device whose property is empty. *)
Example port_unset_switch :
  result (sc_server_switch_to_tcpip world_port_unset "A1B2C3")
    (initial_state default_params) = Some "192.168.1.7:5555" /\
  ports_read world_port_unset
    (worker_events (sc_server_switch_to_tcpip world_port_unset "A1B2C3")
       (initial_state default_params))
  = [0; 0; 0; 0; 5555]%N.
Proof. split; vm_compute; reflexivity. Qed.

Lemma run_server_callback_patterns_witness :
  observer_attached (bg (initial_state default_params)) = false /\
  callback_patterns
    (list_query (params (server (initial_state default_params))))
    (result (run_server cooperative_world) (initial_state default_params))
    (callbacks (events (run_server cooperative_world)
                  (initial_state default_params))) /\
  callback_trace
    (list_query (params (server (initial_state default_params))))
    (result (run_server cooperative_world) (initial_state default_params))
    (filter callback_or_init
       (events (run_server cooperative_world)
          (initial_state default_params))).
Proof.
  split; [reflexivity|].
  apply (run_server_callback_patterns cooperative_world). reflexivity.
Defined.

Lemma tcpip_switch_keeps_enabled_port_witness :
  (tcpip_requests
     (worker_events (sc_server_switch_to_tcpip world_port_5556 "A1B2C3")
        (initial_state default_params)) = []
   <-> port_of_property world_port_5556 (Some "5556") <> 0%N) /\
  (forall s,
     result (sc_server_switch_to_tcpip world_port_5556 "A1B2C3")
       (initial_state default_params) = Some s ->
     s = ip_port_string "192.168.1.7"
           (if (port_of_property world_port_5556 (Some "5556") =? 0)%N
            then SC_ADB_PORT_DEFAULT
            else port_of_property world_port_5556 (Some "5556"))) /\
  (sc_adb_device_get_type world_port_5556 "A1B2C3" = SC_ADB_DEVICE_TYPE_USB ->
   result (sc_server_configure_tcpip_unknown_address world_port_5556 "A1B2C3")
     (initial_state default_params) = true ->
   serial_stored_is_switch_result world_port_5556 "A1B2C3"
     (initial_state default_params)).
Proof.
  apply (tcpip_switch_keeps_enabled_port world_port_5556 "A1B2C3"
           (initial_state default_params) "192.168.1.7" (Some "5556")
           [EvAsprintf (Some (0, "192.168.1.7:5556"))]).
  reflexivity.
Defined.

Lemma execute_server_emits_only_non_defaults_witness :
  emission_rules cooperative_world true custom_params (skipn 9 custom_argv).
Proof.
  apply (execute_server_emits_only_non_defaults cooperative_world
           custom_params (tunnel_state custom_params true) "A1B2C3"
           custom_argv (ask_pid cooperative_world 0)).
  - reflexivity.
  - vm_compute. repeat first [left; reflexivity | right].
Defined.


Lemma handshake_reads_device_name_witness :
  result (sc_server_connect_to world_short_name)
    (tunnel_state default_params false) = false /\
  Permutation
    (opened (worker_events (sc_server_connect_to world_short_name)
               (tunnel_state default_params false)))
    (closed (worker_events (sc_server_connect_to world_short_name)
               (tunnel_state default_params false))) /\
  tunnel_closes (worker_events (sc_server_connect_to world_short_name)
                   (tunnel_state default_params false)) = 1 /\
  enabled (tunnel (server (final (sc_server_connect_to world_short_name)
                             (tunnel_state default_params false))))
  = false.
Proof.
  destruct (handshake_reads_device_name world_short_name
              (tunnel_state default_params false)) as [_ H].
  - cbn. lia.
  - reflexivity.
  - reflexivity.
  - destruct (H (Some 0%Z) 64 63%Z) as [_ H'].
    + vm_compute. left. reflexivity.
    + apply H'. reflexivity.
Defined.

Lemma connect_to_leaves_tunnel_closed_witness :
  enabled (tunnel (server (final (sc_server_connect_to cooperative_world)
                             (tunnel_state default_params false)))) = false /\
  tunnel_closes (worker_events (sc_server_connect_to cooperative_world)
                   (tunnel_state default_params false)) = 1 /\
  (result (sc_server_connect_to cooperative_world)
     (tunnel_state default_params false) = true ->
   phases Establishing
     (worker_events (sc_server_connect_to cooperative_world)
        (tunnel_state default_params false)) = Some HandshakeRead).
Proof.
  apply (connect_to_leaves_tunnel_closed cooperative_world
           (tunnel_state default_params false)).
  reflexivity.
Defined.

Lemma invalid_port_property_enables_tcpip_witness :
  port_of_property world_port_unset (Some "") = 0%N /\
  exists ok rest',
    port_unset_rest =
      EvAdbTcpip "A1B2C3" SC_ADB_PORT_DEFAULT [SC_ADB_NO_STDOUT] ok :: rest' /\
    (ok = true ->
       exists b ow oa others,
         wait_outcome world_port_unset "A1B2C3" SC_ADB_PORT_DEFAULT 250 40 b ow /\
         rest' = ow ++ oa /\
         ports_read world_port_unset ow =
           others ++ (if b then [SC_ADB_PORT_DEFAULT] else []) /\
         Forall (fun p => p <> SC_ADB_PORT_DEFAULT) others /\
         List.length others <= 41 /\
         (b = false -> wait_gave_up world_port_unset 250 40 ow)).
Proof.
  destruct (invalid_port_property_enables_tcpip world_port_unset "A1B2C3"
              (initial_state default_params) "192.168.1.7" (Some "")
              port_unset_rest)
    as (Hp & _ & ok & rest' & E & _ & Hok).
  - reflexivity.
  - right. exists "". split; [reflexivity|]. left. reflexivity.
  - split; [exact Hp|]. exists ok, rest'. split; [exact E|].
    intros H.
    destruct (Hok H) as (b & ow & oa & others & A & B & C & D & F & G & _).
    exists b, ow, oa, others.
    split; [exact A|]. split; [exact B|]. split; [exact C|].
    split; [exact D|]. split; [exact F|].
    intros Hb. exact (proj2 (proj2 (G Hb))).
Defined.

(** ** More on the argument vector of [execute_server] *)

Section ExecuteServerArgv.

Variable w : world.

Arguments Fmt.fmt_08x : simpl never.
Arguments Fmt.fmt_u : simpl never.
Arguments Fmt.fmt_i : simpl never.

Lemma length_opt (c : bool) (s : string) : List.length (opt c s) <= 1.
Proof. destruct c; cbn; lia. Qed.

Lemma map_opt {B} (f : string -> B) c s :
  map f (opt c s) = if c then [f s] else [].
Proof. now destruct c. Qed.

(** Between two and thirty-two parameters follow the fixed head. *)
Lemma length_server_params_list fwd p :
  2 <= List.length (server_params_list w fwd p) <= 32.
Proof.
  unfold server_params_list.
  destruct (video_source p);
    cbn [is_display is_camera negb andb opt app];
    rewrite ?andb_false_r; cbn [opt app];
    repeat (progress (cbn [List.length]; rewrite ?List.length_app));
    repeat match goal with
           | |- context [List.length (opt ?c ?s)] =>
               let n := fresh "n" in
               pose proof (length_opt c s);
               set (n := List.length (opt c s)) in *; clearbody n
           end;
    lia.
Qed.

Lemma NoDup_opt_app (c : bool) (k : string) l :
  ~ In k l -> NoDup l -> NoDup ((if c then [k] else []) ++ l).
Proof. destruct c; cbn; [now constructor | auto]. Qed.

Lemma in_if_app (c : bool) (k a : string) l :
  In a ((if c then [k] else []) ++ l) -> a = k \/ In a l.
Proof. destruct c; cbn; intuition. Qed.

Ltac key_absent :=
  let H := fresh "H" in
  intros H;
  repeat first
    [ apply in_if_app in H; destruct H as [H|H]; [discriminate H|]
    | destruct H as [H|H]; [discriminate H|] ];
  first [ destruct H
        | match type of H with
          | In _ (if ?c then _ else _) =>
              destruct c; cbn in H; intuition discriminate
          end ].

Lemma camera_position_key (c : bool) cp :
  map key_of
    (opt (c && negb (is_all cp))
       match cp with
       | SC_CAMERA_POSITION_FRONT => "camera_position=front"
       | SC_CAMERA_POSITION_BACK => "camera_position=back"
       | SC_CAMERA_POSITION_EXTERNAL => "camera_position=external"
       | SC_CAMERA_POSITION_ALL => ""
       end)
  = if c && negb (is_all cp) then ["camera_position"] else [].
Proof. destruct cp, c; reflexivity. Qed.

(** No key is passed twice. *)
Lemma server_params_keys_NoDup fwd p :
  NoDup (map key_of (server_params_list w fwd p)).
Proof.
  unfold server_params_list.
  repeat (progress (cbn [map app]; rewrite ?map_app)).
  rewrite camera_position_key, !map_opt.
  cbn [key_of String.append Ascii.eqb Bool.eqb].
  repeat first
    [ apply NoDup_opt_app; [key_absent|]
    | apply NoDup_cons; [key_absent|]
    | apply NoDup_nil
    | match goal with
      | |- NoDup (if ?c then _ else _) =>
          destruct c; repeat constructor; intros []
      end ].
Qed.

(** Every parameter has the form [key=value]. *)
Lemma server_params_have_key fwd p a :
  In a (server_params_list w fwd p) -> strchr a "=" = true.
Proof.
  intros H. unfold server_params_list in H.
  repeat (apply in_app_or in H; destruct H as [H|H]);
    first [ apply in_one in H | apply in_opt in H; destruct H as [? H] ];
    subst a; try reflexivity.
  destruct (camera_position p); try reflexivity.
  now rewrite andb_false_r in *.
Qed.

(** Finds a parameter that is present in the list. *)
Ltac find_param :=
  repeat first
    [ apply in_or_app; left; now left
    | apply in_or_app; right ].

Lemma params_has_key_sources fwd p :
  let l := server_params_list w fwd p in
  has_key "video_source" l = negb (is_display (video_source p)) /\
  has_key "display_id" l =
    is_display (video_source p) && negb (display_id p =? 0)%N /\
  has_key "camera_id" l =
    is_camera (video_source p) && is_some (camera_id p) /\
  has_key "camera_position" l =
    is_camera (video_source p) && negb (is_all (camera_position p)) /\
  has_key "tunnel_forward" l = fwd.
Proof.
  cbv zeta. repeat split; unfold server_params_list;
    rewrite !has_key_app, !has_key_opt, !has_key_one;
    destruct (camera_position p); cbn;
    rewrite ?orb_false_r, ?andb_false_r; reflexivity.
Qed.

(** The argument vector and its [NULL] terminator fit in the array
    [cmd]: the vector has between 11 and 41 strings. *)
Theorem execute_server_argv_fits_cmd
    (p : sc_server_params) (st : state) (s : string) (argv : list string)
    (pid : sc_pid) :
  serial (server st) = Some s ->
  In (EvAdbExecute argv pid) (events (execute_server w p) st) ->
  11 <= List.length argv <= 41 /\ S (List.length argv) <= cmd_capacity.
Proof.
  intros Hs Hin.
  rewrite (execute_server_argv w p st s argv pid Hs Hin), argv_of_head.
  rewrite List.length_app. cbn [List.length].
  pose proof (length_server_params_list (forward (tunnel (server st))) p).
  unfold cmd_capacity. lia.
Qed.

(** After the fixed head every argument has the form [key=value], and
    no key occurs twice. *)
Theorem execute_server_keys_are_unique
    (p : sc_server_params) (st : state) (s : string) (argv : list string)
    (pid : sc_pid) :
  serial (server st) = Some s ->
  In (EvAdbExecute argv pid) (events (execute_server w p) st) ->
  NoDup (map key_of (skipn 9 argv)) /\
  (forall a, In a (skipn 9 argv) -> strchr a "=" = true).
Proof.
  intros Hs Hin.
  rewrite (execute_server_argv w p st s argv pid Hs Hin), argv_of_head.
  cbn [skipn app]. split.
  - apply server_params_keys_NoDup.
  - apply server_params_have_key.
Qed.


(** The remote server is told [tunnel_forward=true] exactly when the
    tunnel of the controller is a forward tunnel. *)
Theorem execute_server_tunnel_forward_flag
    (p : sc_server_params) (st : state) (s : string) (argv : list string)
    (pid : sc_pid) :
  serial (server st) = Some s ->
  In (EvAdbExecute argv pid) (events (execute_server w p) st) ->
  (In "tunnel_forward=true" (skipn 9 argv) <->
   forward (tunnel (server st)) = true) /\
  has_key "tunnel_forward" (skipn 9 argv) = forward (tunnel (server st)).
Proof.
  intros Hs Hin.
  rewrite (execute_server_argv w p st s argv pid Hs Hin), argv_of_head.
  cbn [skipn app].
  destruct (params_has_key_sources (forward (tunnel (server st))) p)
    as (_ & _ & _ & _ & Hf).
  cbv zeta in Hf. split; [|exact Hf].
  split.
  - intros H. rewrite <- Hf. unfold has_key. apply existsb_exists.
    exists "tunnel_forward=true". now split.
  - intros H. unfold server_params_list. rewrite H.
    cbn [opt]. find_param.
Qed.

End ExecuteServerArgv.

Lemma custom_argv_executed :
  In (EvAdbExecute custom_argv (Some 42%Z))
     (events (execute_server cooperative_world custom_params)
        (tunnel_state custom_params true)).
Proof. vm_compute. repeat first [left; reflexivity | right]. Qed.

Lemma execute_server_argv_fits_cmd_witness :
  11 <= List.length custom_argv <= 41 /\
  S (List.length custom_argv) <= cmd_capacity.
Proof.
  apply (execute_server_argv_fits_cmd cooperative_world custom_params
           (tunnel_state custom_params true) "A1B2C3" custom_argv
           (Some 42%Z)).
  - reflexivity.
  - exact custom_argv_executed.
Defined.

Lemma execute_server_keys_are_unique_witness :
  NoDup (map key_of (skipn 9 custom_argv)) /\
  (forall a, In a (skipn 9 custom_argv) -> strchr a "=" = true).
Proof.
  apply (execute_server_keys_are_unique cooperative_world custom_params
           (tunnel_state custom_params true) "A1B2C3" custom_argv
           (Some 42%Z)).
  - reflexivity.
  - exact custom_argv_executed.
Defined.


Lemma execute_server_tunnel_forward_flag_witness :
  (In "tunnel_forward=true" (skipn 9 custom_argv) <->
   forward (tunnel (server (tunnel_state custom_params true))) = true) /\
  has_key "tunnel_forward" (skipn 9 custom_argv) =
    forward (tunnel (server (tunnel_state custom_params true))).
Proof.
  apply (execute_server_tunnel_forward_flag cooperative_world custom_params
           (tunnel_state custom_params true) "A1B2C3" custom_argv
           (Some 42%Z)).
  - reflexivity.
  - exact custom_argv_executed.
Defined.

(** ** More on the socket establishment *)

Section ConnectFrame.

Variable w : world.

Lemma failed_attempt_forward h p o :
  failed_attempt h p o -> Forall (forward_event h p) o.
Proof. destruct 1; repeat constructor. Qed.

Lemma connect_trace_forward h p d a n r o :
  connect_trace h p d a n r o -> Forall (forward_event h p) o.
Proof.
  induction 1 as [a s|a o Ho|a o Ho|o Ho|a o n r rest Ho _ IH];
    repeat first
      [ apply Forall_app; split
      | exact (failed_attempt_forward _ _ _ Ho)
      | exact IH
      | constructor ].
Qed.

Ltac leaf_stored Hsock :=
  first
    [ intros H; discriminate H
    | intros _ Hs;
      rewrite ?opened_app, ?closed_app;
      try (cbn [socket_list] in Hsock; rewrite Hsock);
      unfold stream_sockets; wp_norm;
      cbn [opened closed flat_map app socket_list];
      rewrite <- ?app_assoc, ?app_nil_r; cbn [app];
      first
        [ reflexivity
        | exfalso;
          repeat match goal with
                 | H : ?t = false |- _ => rewrite H in Hs
                 end;
          discriminate Hs ] ].

Ltac leaf_reverse :=
  first
    [ intros H; congruence
    | intros _;
      split; [repeat constructor|];
      unfold enabled_streams; use_known;
      rewrite ?app_nil_r; cbn [accepts flat_map app List.length];
      split; [lia|];
      first [ intros H; discriminate H | intros _; reflexivity ] ].

Ltac leaf_forward_only Hfwd :=
  first
    [ intros H; congruence
    | intros _; unfold forward_host, forward_port;
      repeat first
        [ apply Forall_app; split
        | exact Hfwd
        | constructor ] ].

Lemma failed_attempt_no_tunnel srv h p o :
  failed_attempt h p o -> Forall (closes_tunnel_of srv) o.
Proof. destruct 1; repeat constructor. Qed.

Lemma connect_trace_no_tunnel srv h p d a n r o :
  connect_trace h p d a n r o -> Forall (closes_tunnel_of srv) o.
Proof.
  induction 1 as [a s|a o Ho|a o Ho|o Ho|a o n r rest Ho _ IH];
    repeat first
      [ apply Forall_app; split
      | exact (failed_attempt_no_tunnel _ _ _ _ Ho)
      | exact IH
      | constructor ].
Qed.

Lemma connect_to_frame_spec st :
  wp worker_event (sc_server_connect_to w) (connect_to_frame w st) st.
Proof.
  unfold sc_server_connect_to, connect_to_finish, connect_to_fail,
    device_read_info, sc_adb_tunnel_close, net_accept_intr, net_socket,
    net_connect_intr, net_close, net_recv_all_intr, SC_SOCKET_NONE.
  wp_go_step. wp_go_step. wp_norm.
  destruct (video (params (server st))) eqn:Hvideo,
           (audio (params (server st))) eqn:Haudio,
           (control (params (server st))) eqn:Hcontrol.
  all: repeat first
    [ apply wp_connect_to_server;
      [lia | intros n first c' b' pre Hn Htrace;
             pose proof (connect_trace_forward _ _ _ _ _ _ _ Htrace) as Hfwd;
             pose proof (connect_trace_no_tunnel (server st) _ _ _ _ _ _ _
                           Htrace) as Hnoclose;
             pose proof (connect_trace_sockets _ _ _ _ _ _ _ Htrace) as Hsock]
    | wp_go_step ].
  all: wp_norm; use_known.
  all: unfold connect_to_frame; wp_norm.
  all: split; [repeat split; congruence|].
  all: split;
    [first [intros H; discriminate H | intros _; repeat split; reflexivity]|].
  all: split; [leaf_stored Hsock|].
  all: split; [leaf_reverse|].
  all: split; [leaf_forward_only Hfwd|].
  all: repeat first
         [ apply Forall_app; split
         | exact Hnoclose
         | constructor ].
Qed.

Lemma connect_to_frame_run st :
  connect_to_frame w st
    (result (sc_server_connect_to w) st)
    (final (sc_server_connect_to w) st)
    (worker_events (sc_server_connect_to w) st).
Proof. exact (connect_to_frame_spec st). Qed.

(** After a successful establishment the sockets opened and not closed
    again are exactly those stored in the controller, in the order
    video, audio, control: no socket is lost. *)
Theorem connect_to_success_stores_open_sockets (st : state) :
  video (params (server st)) || audio (params (server st))
    || control (params (server st)) = true ->
  result (sc_server_connect_to w) st = true ->
  let o := worker_events (sc_server_connect_to w) st in
  opened o =
  closed o ++ stream_sockets (server (final (sc_server_connect_to w) st)).
Proof.
  intros Hs Hr. destruct (connect_to_frame_run st) as (_ & _ & H & _).
  now apply H.
Qed.

(** A failed establishment leaves the three sockets and the device name
    of the controller as they were; and no establishment changes the
    parameters, the serial, the socket name or the kind of the tunnel. *)
Theorem connect_to_failure_leaves_controller (st : state) :
  let srv := server st in
  let srv' := server (final (sc_server_connect_to w) st) in
  (result (sc_server_connect_to w) st = false ->
     video_socket srv' = video_socket srv /\
     audio_socket srv' = audio_socket srv /\
     control_socket srv' = control_socket srv /\
     info_device_name srv' = info_device_name srv) /\
  params srv' = params srv /\ serial srv' = serial srv /\
  device_socket_name srv' = device_socket_name srv /\
  forward (tunnel srv') = forward (tunnel srv).
Proof.
  destruct (connect_to_frame_run st)
    as ((Hp & Hs & Hn & Hf & _) & H & _).
  cbv zeta. repeat split; auto; now apply H.
Qed.

(** Over a reverse tunnel the establishment creates no socket and makes
    no connection or probe: its sockets come from [net_accept_intr] on
    the listening socket of the tunnel, at most one per enabled stream
    and exactly one on success. *)
Theorem connect_to_reverse_only_accepts (st : state) :
  forward (tunnel (server st)) = false ->
  let o := worker_events (sc_server_connect_to w) st in
  Forall (reverse_event (server_socket (tunnel (server st)))) o /\
  List.length (accepts o) <= enabled_streams (params (server st)) /\
  (result (sc_server_connect_to w) st = true ->
   List.length (accepts o) = enabled_streams (params (server st))).
Proof.
  intros Hf. destruct (connect_to_frame_run st) as (_ & _ & _ & H & _).
  now apply H.
Qed.

(** Over a forward tunnel the establishment never accepts, and every
    connection, of the first socket and of the following ones, goes to
    the same address: the host and port of the tunnel. *)
Theorem connect_to_forward_single_endpoint (st : state) :
  forward (tunnel (server st)) = true ->
  Forall (forward_event (forward_host w (server st)) (forward_port (server st)))
    (worker_events (sc_server_connect_to w) st).
Proof.
  intros Hf. destruct (connect_to_frame_run st) as (_ & _ & _ & _ & H & _).
  now apply H.
Qed.

(** For every number of attempts that fits an [unsigned],
    [connect_to_server] tries at least one and at most [attempts]
    sockets, closes each socket whose attempt failed, so that the only
    socket left open is the one it returns, and leaves the controller
    as it was. *)
Theorem connect_to_server_closes_failed_sockets
    (attempts delay host port : N) (st : state) :
  (1 <= attempts < 2 ^ 32)%N ->
  let m := connect_to_server w attempts delay host port in
  let o := worker_events m st in
  opened o = closed o ++ socket_list (result m st) /\
  1 <= sockets_tried o <= N.to_nat attempts /\
  server (final m st) = server st.
Proof.
  intros Ha m o. subst m o.
  change (wp worker_event (connect_to_server w attempts delay host port)
            (fun r st' o =>
               opened o = closed o ++ socket_list r /\
               1 <= sockets_tried o <= N.to_nat attempts /\
               server st' = server st) st).
  apply wp_connect_to_server; [exact Ha|].
  intros n r c' b' o Hn Ht. cbn [server].
  rewrite (connect_trace_tried _ _ _ _ _ _ _ Ht).
  split; [exact (connect_trace_sockets _ _ _ _ _ _ _ Ht)|].
  split; [lia | reflexivity].
Qed.

Lemma firstn_set_nth_last {A} (x : A) n : forall l,
  n < List.length l ->
  firstn (S n) (set_nth n x (firstn (S n) l)) = firstn n l ++ [x].
Proof.
  induction n as [|n IH]; intros [|a l] Hl; cbn in Hl; try lia.
  - reflexivity.
  - change (a :: firstn (S n) (set_nth n x (firstn (S n) l))
            = a :: (firstn n l ++ [x])).
    f_equal. apply IH. lia.
Qed.

(** [device_read_info] succeeds exactly when the peer delivers at least
    [SC_DEVICE_NAME_FIELD_LENGTH] bytes; the name stored is then made of
    all the bytes received but the last, followed by NUL; otherwise the
    name is left as it was. *)
Theorem device_read_info_stores_name (s : sc_socket) (st : state) :
  0 < SC_DEVICE_NAME_FIELD_LENGTH w ->
  let len := SC_DEVICE_NAME_FIELD_LENGTH w in
  let m := device_read_info w s in
  match ask_recv w (clock st) with
  | Some bs =>
      if (len <=? List.length bs)%nat
      then result m st = true /\
           info_device_name (server (final m st)) =
             firstn (len - 1) bs ++ [x00]
      else result m st = false /\ server (final m st) = server st
  | None => result m st = false /\ server (final m st) = server st
  end.
Proof.
  intros Hlen len m. subst m.
  change (wp worker_event (device_read_info w s)
            (fun r st' _ =>
               match ask_recv w (clock st) with
               | Some bs =>
                   if (len <=? List.length bs)%nat
                   then r = true /\
                        info_device_name (server st') =
                          firstn (len - 1) bs ++ [x00]
                   else r = false /\ server st' = server st
               | None => r = false /\ server st' = server st
               end) st).
  unfold device_read_info, net_recv_all_intr. fold len.
  wp_step. wp_step. wp_step. wp_step.
  cbn [fst snd clock after_call].
  destruct (ask_recv w (clock st)) as [bs|] eqn:E; cbn [recv_count recv_bytes].
  - destruct (Nat.leb_spec len (List.length bs)) as [Hle|Hlt].
    + replace (Z.of_nat (Nat.min len (List.length bs)) <? Z.of_nat len)%Z
        with false by (symmetry; apply Z.ltb_ge; lia).
      wp_step. wp_step. wp_step. wp_norm. split; [reflexivity|].
      replace len with (S (len - 1)) at 1 3 by lia.
      apply firstn_set_nth_last. lia.
    + replace (Z.of_nat (Nat.min len (List.length bs)) <? Z.of_nat len)%Z
        with true by (symmetry; apply Z.ltb_lt; lia).
      wp_step. now split.
  - replace (-1 <? Z.of_nat len)%Z with true by (symmetry; apply Z.ltb_lt; lia).
    wp_step. now split.
Qed.

End ConnectFrame.

Lemma connect_to_success_stores_open_sockets_witness :
  opened (worker_events (sc_server_connect_to cooperative_world)
            (tunnel_state default_params false)) =
  closed (worker_events (sc_server_connect_to cooperative_world)
            (tunnel_state default_params false)) ++
  stream_sockets
    (server (final (sc_server_connect_to cooperative_world)
               (tunnel_state default_params false))).
Proof.
  apply (connect_to_success_stores_open_sockets cooperative_world
           (tunnel_state default_params false)).
  - reflexivity.
  - vm_compute. reflexivity.
Defined.

Lemma connect_to_reverse_only_accepts_witness :
  Forall (reverse_event (Some 3%Z))
    (worker_events (sc_server_connect_to world_short_name)
       (tunnel_state default_params false)) /\
  List.length
    (accepts (worker_events (sc_server_connect_to world_short_name)
                (tunnel_state default_params false))) <= 3 /\
  (result (sc_server_connect_to world_short_name)
     (tunnel_state default_params false) = true ->
   List.length
     (accepts (worker_events (sc_server_connect_to world_short_name)
                 (tunnel_state default_params false))) = 3).
Proof.
  apply (connect_to_reverse_only_accepts world_short_name
           (tunnel_state default_params false)).
  reflexivity.
Defined.

Lemma connect_to_forward_single_endpoint_witness :
  Forall (forward_event 2130706433 27183)
    (worker_events (sc_server_connect_to world_slow_forward)
       (tunnel_state custom_params true)).
Proof.
  apply (connect_to_forward_single_endpoint world_slow_forward
           (tunnel_state custom_params true)).
  reflexivity.
Defined.

Lemma connect_to_server_closes_failed_sockets_witness :
  opened (worker_events
            (connect_to_server world_slow_forward 3 100 2130706433 27183)
            (tunnel_state custom_params true)) =
  closed (worker_events
            (connect_to_server world_slow_forward 3 100 2130706433 27183)
            (tunnel_state custom_params true)) ++
  socket_list
    (result (connect_to_server world_slow_forward 3 100 2130706433 27183)
       (tunnel_state custom_params true)) /\
  1 <= sockets_tried
         (worker_events
            (connect_to_server world_slow_forward 3 100 2130706433 27183)
            (tunnel_state custom_params true)) <= 3 /\
  server (final (connect_to_server world_slow_forward 3 100 2130706433 27183)
            (tunnel_state custom_params true)) =
  server (tunnel_state custom_params true).
Proof.
  apply (connect_to_server_closes_failed_sockets world_slow_forward
           3 100 2130706433 27183 (tunnel_state custom_params true)).
  lia.
Defined.

Lemma device_read_info_stores_name_witness :
  result (device_read_info cooperative_world (Some 0%Z))
    (tunnel_state default_params false) = true /\
  info_device_name
    (server (final (device_read_info cooperative_world (Some 0%Z))
               (tunnel_state default_params false))) =
  repeat x50 63 ++ [x00].
Proof.
  apply (device_read_info_stores_name cooperative_world (Some 0%Z)
           (tunnel_state default_params false)).
  cbn. lia.
Defined.

(** ** More on the TCP/IP switch *)

Section TcpipMore.

Variable w : world.

Lemma port_of_property_le r : (port_of_property w r <= 65535)%N.
Proof.
  unfold port_of_property. destruct r as [s|]; [|lia].
  destruct (sc_str_parse_integer w s) as [v|]; [|lia].
  destruct (Z.ltb_spec v 0); cbn [orb]; [lia|].
  destruct (Z.gtb_spec v 65535); lia.
Qed.

Lemma port_of_property_parsed r :
  port_of_property w r <> 0%N ->
  exists s, r = Some s /\
    sc_str_parse_integer w s = Some (Z.of_N (port_of_property w r)).
Proof.
  unfold port_of_property. destruct r as [s|]; [|congruence].
  intros H. exists s. split; [reflexivity|].
  destruct (sc_str_parse_integer w s) as [v|]; [|congruence].
  destruct (Z.ltb_spec v 0); cbn [orb] in *; [congruence|].
  destruct (Z.gtb_spec v 65535); [congruence|].
  now rewrite Z2N.id.
Qed.

Lemma get_adb_tcp_port_run (serial : string) (st : state) :
  worker_events (get_adb_tcp_port w serial) st =
    [getprop_port serial (ask_string w (clock st))] /\
  (result (get_adb_tcp_port w serial) st <= 65535)%N /\
  (result (get_adb_tcp_port w serial) st <> 0%N ->
   exists s, ask_string w (clock st) = Some s /\
     sc_str_parse_integer w s =
       Some (Z.of_N (result (get_adb_tcp_port w serial) st))) /\
  server (final (get_adb_tcp_port w serial) st) = server st.
Proof.
  change (wp worker_event (get_adb_tcp_port w serial)
            (fun r st' o =>
               o = [getprop_port serial (ask_string w (clock st))] /\
               (r <= 65535)%N /\
               (r <> 0%N ->
                exists s, ask_string w (clock st) = Some s /\
                  sc_str_parse_integer w s = Some (Z.of_N r)) /\
               server st' = server st) st).
  apply wp_get_adb_tcp_port. intros b'.
  split; [reflexivity|]. split; [apply port_of_property_le|].
  split; [apply port_of_property_parsed | reflexivity].
Qed.

Lemma filter_adb_worker out :
  filter (of_kinds [KAdb]) (filter worker_event out) =
  filter (of_kinds [KAdb]) out.
Proof.
  induction out as [|e out IH]; [reflexivity|].
  cbn [filter]. destruct (worker_event e) eqn:He; cbn [filter].
  - now rewrite IH.
  - rewrite IH. destruct e; first [reflexivity | discriminate].
Qed.

(** The only request that [get_adb_tcp_port] makes to adb is one silent
    read of the property [service.adb.tcp.port].  The value it answers
    fits a port: at most 0xFFFF, and zero unless the property parses as
    exactly the value answered.  It leaves the controller as it was. *)
Theorem get_adb_tcp_port_is_a_port (serial : string) (st : state) :
  exists prop,
    filter (of_kinds [KAdb]) (events (get_adb_tcp_port w serial) st) =
      [EvAdbGetprop serial "service.adb.tcp.port" [SC_ADB_SILENT] prop] /\
    (result (get_adb_tcp_port w serial) st <= 65535)%N /\
    (result (get_adb_tcp_port w serial) st <> 0%N ->
     exists s, prop = Some s /\
       sc_str_parse_integer w s =
         Some (Z.of_N (result (get_adb_tcp_port w serial) st))) /\
    server (final (get_adb_tcp_port w serial) st) = server st.
Proof.
  exists (ask_string w (clock st)).
  destruct (get_adb_tcp_port_run serial st) as (Ho & Hle & Hp & Hs).
  rewrite <- filter_adb_worker. unfold worker_events in Ho. rewrite Ho.
  repeat split; assumption.
Qed.

Lemma sleeps_app o1 o2 : sleeps (o1 ++ o2) = sleeps o1 ++ sleeps o2.
Proof. apply flat_map_app. Qed.

Lemma wait_trace_sleeps serial expected delay a n b o :
  wait_trace w serial expected delay a n b o ->
  Forall (fun s => fst s = delay) (sleeps o) /\
  List.length (sleeps o) = n /\
  (In (delay, false) (sleeps o) -> b = false).
Proof.
  induction 1 as [a|a r Hr|r Hr|a r n b rest Hr _ (F & L & I)].
  - cbn. repeat split; auto.
  - cbn. repeat split; auto. intros [H|[]]. discriminate.
  - cbn. repeat split; auto.
  - rewrite sleeps_app. cbn [sleeps flat_map app].
    split; [constructor; auto|]. split; [cbn; congruence|].
    intros [H|H]; [discriminate | auto].
Qed.

Lemma wait_trace_reads serial expected delay a n b o :
  wait_trace w serial expected delay a n b o ->
  List.length (ports_read w o) <= List.length (sleeps o).
Proof.
  induction 1 as [a|a r Hr|r Hr|a r n b rest Hr _ IH]; try (cbn; lia).
  rewrite ports_read_app, sleeps_app, !List.length_app. cbn. lia.
Qed.

Lemma wait_outcome_sleeps serial expected delay attempts b o :
  wait_outcome w serial expected delay attempts b o ->
  Forall (fun s => fst s = delay) (sleeps o) /\
  List.length (sleeps o) <= attempts /\
  (In (delay, false) (sleeps o) -> b = false).
Proof.
  destruct 1 as [r Hr|r n b rest Hr Hn Ht].
  - cbn. repeat split; auto; [lia | intros []].
  - destruct (wait_trace_sleeps _ _ _ _ _ _ _ Ht) as (F & L & I).
    cbn [sleeps flat_map getprop_port app]. fold (sleeps rest).
    repeat split; auto. lia.
Qed.

(** For every number of attempts that fits an [unsigned],
    [wait_tcpip_mode_enabled] reads the port at most [attempts + 1]
    times, sleeping [delay] before each read but the first; it stops at
    the first read that gives the expected port, and answers [true]
    exactly then; a sleep that reports a stop ends it with [false]. *)
Theorem wait_tcpip_mode_enabled_polls
    (serial : string) (expected attempts delay : N) (st : state) :
  (1 <= attempts < 2 ^ 32)%N ->
  let m := wait_tcpip_mode_enabled w serial expected attempts delay in
  let o := worker_events m st in
  (exists others,
     ports_read w o = others ++ (if result m st then [expected] else []) /\
     Forall (fun p => p <> expected) others /\
     List.length others <= S (N.to_nat attempts)) /\
  Forall (fun s => fst s = delay) (sleeps o) /\
  List.length (sleeps o) <= N.to_nat attempts /\
  List.length (ports_read w o) <= S (List.length (sleeps o)) /\
  (In (delay, false) (sleeps o) -> result m st = false) /\
  server (final m st) = server st.
Proof.
  intros Ha m o. subst m o.
  change (wp worker_event
            (wait_tcpip_mode_enabled w serial expected attempts delay)
            (fun r st' o =>
               (exists others,
                  ports_read w o = others ++ (if r then [expected] else []) /\
                  Forall (fun p => p <> expected) others /\
                  List.length others <= S (N.to_nat attempts)) /\
               Forall (fun s => fst s = delay) (sleeps o) /\
               List.length (sleeps o) <= N.to_nat attempts /\
               List.length (ports_read w o) <= S (List.length (sleeps o)) /\
               (In (delay, false) (sleeps o) -> r = false) /\
               server st' = server st) st).
  apply wp_wait_tcpip_mode_enabled; [exact Ha|].
  intros r c' b' o Ho. cbn [server].
  destruct (wait_outcome_sleeps _ _ _ _ _ _ Ho) as (F & L & I).
  split; [exact (wait_outcome_ports w _ _ _ _ _ _ Ho)|].
  repeat split; auto.
  clear F L I. destruct Ho as [r Hr|r n b rest Hr Hn Ht]; [cbn; lia|].
  pose proof (wait_trace_reads _ _ _ _ _ _ _ Ht).
  change (getprop_port serial r :: rest) with ([getprop_port serial r] ++ rest).
  rewrite ports_read_app, sleeps_app, !List.length_app. cbn. lia.
Qed.

Lemma switch_to_tcpip_frame serial st :
  server (final (sc_server_switch_to_tcpip w serial) st) = server st.
Proof.
  change (wp worker_event (sc_server_switch_to_tcpip w serial)
            (fun _ st' _ => server st' = server st) st).
  apply wp_switch_to_tcpip. reflexivity.
Qed.


(** A device that is already connected over TCP/IP is kept as it is: no
    adb command is run, the serial of the controller becomes a copy of
    the serial of the device, and only the failure of that copy makes
    the configuration fail (the serial is then [NULL]). *)
Theorem unknown_address_keeps_tcpip_device (serial_ : string) (st : state) :
  sc_adb_device_get_type w serial_ = SC_ADB_DEVICE_TYPE_TCPIP ->
  let m := sc_server_configure_tcpip_unknown_address w serial_ in
  exists res,
    alloc_outcome serial_ res (worker_events m st) /\
    serial (server (final m st)) = res /\
    result m st = is_some res.
Proof.
  intros Ht m. subst m.
  change (wp worker_event (sc_server_configure_tcpip_unknown_address w serial_)
            (fun r st' o =>
               exists res, alloc_outcome serial_ res o /\
                 serial (server st') = res /\ r = is_some res) st).
  unfold sc_server_configure_tcpip_unknown_address. rewrite Ht.
  wp_step. apply wp_strdup. intros res c' nb b' o Ho.
  wp_step. wp_step. wp_norm.
  destruct res as [s|]; cbn [is_some negb]; wp_step;
    rewrite !app_nil_r; eexists; (split; [exact Ho|]); split; reflexivity.
Qed.

(** A USB device is first switched to TCP/IP.  When the switch fails
    the configuration fails, nothing more is done and the serial is left
    as it was; when it answers an address, that address becomes the
    serial, it is disconnected silently, then connected, and the answer
    of the connection is the answer of the configuration. *)
Theorem unknown_address_connects_after_switch (serial_ : string) (st : state) :
  sc_adb_device_get_type w serial_ = SC_ADB_DEVICE_TYPE_USB ->
  let m := sc_server_configure_tcpip_unknown_address w serial_ in
  let sw := sc_server_switch_to_tcpip w serial_ in
  match result sw st with
  | None =>
      result m st = false /\
      worker_events m st = worker_events sw st /\
      serial (server (final m st)) = serial (server st)
  | Some ip_port =>
      exists ok,
        worker_events m st =
          worker_events sw st ++
          [EvAdbDisconnect ip_port [SC_ADB_SILENT];
           EvAdbConnect ip_port [] ok] /\
        result m st = ok /\
        serial (server (final m st)) = Some ip_port
  end.
Proof.
  intros Ht m sw. subst m sw.
  unfold sc_server_configure_tcpip_unknown_address, worker_events.
  rewrite Ht, result_bind, final_bind, events_bind, filter_app.
  pose proof (switch_to_tcpip_frame serial_ st) as Hframe.
  set (st1 := final (sc_server_switch_to_tcpip w serial_) st) in *.
  destruct (result (sc_server_switch_to_tcpip w serial_) st) as [s|].
  - change (wp worker_event
              (update_server (with_serial (Some s)) ;;
               sc_server_connect_to_tcpip w s)
              (fun r st' o =>
                 exists ok,
                   filter worker_event
                     (events (sc_server_switch_to_tcpip w serial_) st) ++ o =
                   filter worker_event
                     (events (sc_server_switch_to_tcpip w serial_) st) ++
                   [EvAdbDisconnect s [SC_ADB_SILENT]; EvAdbConnect s [] ok] /\
                   r = ok /\ serial (server st') = Some s) st1).
    unfold sc_server_connect_to_tcpip, sc_adb_disconnect, sc_adb_connect.
    repeat wp_go_step; eexists; repeat split; reflexivity.
  - cbn. rewrite app_nil_r, Hframe. repeat split; reflexivity.
Qed.

End TcpipMore.

Example port_appears_wait :
  result (wait_tcpip_mode_enabled world_port_appears "A1B2C3" 5555 40 250)
    (initial_state default_params) = true /\
  worker_events
    (wait_tcpip_mode_enabled world_port_appears "A1B2C3" 5555 40 250)
    (initial_state default_params)
  = [ getprop_port "A1B2C3" None; EvSleep 250 true;
      getprop_port "A1B2C3" (Some "5555") ].
Proof. split; vm_compute; reflexivity. Qed.

Lemma wait_tcpip_mode_enabled_polls_witness :
  (exists others,
     ports_read world_port_appears
       (worker_events
          (wait_tcpip_mode_enabled world_port_appears "A1B2C3" 5555 40 250)
          (initial_state default_params)) =
     others ++
     (if result
           (wait_tcpip_mode_enabled world_port_appears "A1B2C3" 5555 40 250)
           (initial_state default_params)
      then [5555%N] else []) /\
     Forall (fun p => p <> 5555%N) others /\
     List.length others <= S (N.to_nat 40)) /\
  Forall (fun s => fst s = 250%N)
    (sleeps (worker_events
               (wait_tcpip_mode_enabled world_port_appears "A1B2C3" 5555 40 250)
               (initial_state default_params))) /\
  List.length
    (sleeps (worker_events
               (wait_tcpip_mode_enabled world_port_appears "A1B2C3" 5555 40 250)
               (initial_state default_params))) <= N.to_nat 40 /\
  List.length
    (ports_read world_port_appears
       (worker_events
          (wait_tcpip_mode_enabled world_port_appears "A1B2C3" 5555 40 250)
          (initial_state default_params))) <=
  S (List.length
       (sleeps (worker_events
                  (wait_tcpip_mode_enabled world_port_appears "A1B2C3" 5555 40 250)
                  (initial_state default_params)))) /\
  (In (250%N, false)
      (sleeps (worker_events
                 (wait_tcpip_mode_enabled world_port_appears "A1B2C3" 5555 40 250)
                 (initial_state default_params))) ->
   result (wait_tcpip_mode_enabled world_port_appears "A1B2C3" 5555 40 250)
     (initial_state default_params) = false) /\
  server (final
            (wait_tcpip_mode_enabled world_port_appears "A1B2C3" 5555 40 250)
            (initial_state default_params)) =
  server (initial_state default_params).
Proof.
  apply (wait_tcpip_mode_enabled_polls world_port_appears "A1B2C3" 5555 40 250
           (initial_state default_params)).
  lia.
Defined.

Lemma unknown_address_keeps_tcpip_device_witness :
  exists res,
    alloc_outcome "192.168.1.7:5555" res
      (worker_events
         (sc_server_configure_tcpip_unknown_address world_tcpip_device
            "192.168.1.7:5555")
         (initial_state default_params)) /\
    serial (server (final
                      (sc_server_configure_tcpip_unknown_address
                         world_tcpip_device "192.168.1.7:5555")
                      (initial_state default_params))) = res /\
    result (sc_server_configure_tcpip_unknown_address world_tcpip_device
              "192.168.1.7:5555")
      (initial_state default_params) = is_some res.
Proof.
  apply (unknown_address_keeps_tcpip_device world_tcpip_device
           "192.168.1.7:5555" (initial_state default_params)).
  reflexivity.
Defined.

Lemma unknown_address_connects_after_switch_witness :
  exists ok,
    worker_events
      (sc_server_configure_tcpip_unknown_address world_port_5556 "A1B2C3")
      (initial_state default_params) =
    worker_events (sc_server_switch_to_tcpip world_port_5556 "A1B2C3")
      (initial_state default_params) ++
    [EvAdbDisconnect "192.168.1.7:5556" [SC_ADB_SILENT];
     EvAdbConnect "192.168.1.7:5556" [] ok] /\
    result (sc_server_configure_tcpip_unknown_address world_port_5556 "A1B2C3")
      (initial_state default_params) = ok /\
    serial (server (final
                      (sc_server_configure_tcpip_unknown_address
                         world_port_5556 "A1B2C3")
                      (initial_state default_params))) =
    Some "192.168.1.7:5556".
Proof.
  exact (unknown_address_connects_after_switch world_port_5556 "A1B2C3"
           (initial_state default_params) eq_refl).
Defined.

(** ** Footprints and frames of the functions called by [run_server] *)

Section FineFootprints.

Variable w : world.

Ltac plain_auto := repeat plain_step.

Lemma fine_asprintf allowed s :
  (forall r, allowed (EvAsprintf r) = true) -> plain w allowed (asprintf w s).
Proof.
  intros H. unfold asprintf.
  repeat first [ apply plain_emit; apply H | plain_step ].
Qed.

Lemma fine_strdup allowed s :
  (forall r, allowed (EvAsprintf r) = true) -> plain w allowed (strdup w s).
Proof.
  intros H. unfold strdup.
  apply plain_bind; [now apply fine_asprintf | intros r; apply plain_ret].
Qed.

Lemma fine_append_port allowed ip port :
  (forall r, allowed (EvAsprintf r) = true) ->
  plain w allowed (append_port w ip port).
Proof.
  intros H. unfold append_port.
  apply plain_bind; [now apply fine_asprintf | intros r; apply plain_ret].
Qed.

Lemma fine_strdup_block allowed s :
  (forall r, allowed (EvAsprintf r) = true) ->
  plain w allowed (strdup_block w s).
Proof.
  intros H. unfold strdup_block.
  apply plain_bind; [now apply fine_asprintf | intros r; apply plain_ret].
Qed.

Lemma fine_push_server serial : plain w path_events (push_server w serial).
Proof.
  unfold push_server, get_server_path, sc_file_is_regular, sc_adb_push.
  cbn [free].
  repeat first [ apply fine_strdup_block; reflexivity | plain_step ].
Qed.

Lemma fine_get_adb_tcp_port serial :
  plain w switch_events (get_adb_tcp_port w serial).
Proof. unfold get_adb_tcp_port, sc_adb_getprop. plain_auto. Qed.

Lemma fine_wait_loop fuel : forall serial port attempts delay,
  plain w switch_events
    (wait_tcpip_mode_enabled_loop w fuel serial port attempts delay).
Proof.
  induction fuel as [|fuel IH]; intros serial port attempts delay;
    cbn [wait_tcpip_mode_enabled_loop]; [apply plain_ret|].
  unfold sc_server_sleep.
  repeat first [ apply IH | apply fine_get_adb_tcp_port | plain_step ].
Qed.

Lemma fine_wait_tcpip_mode_enabled serial port attempts delay :
  plain w switch_events
    (wait_tcpip_mode_enabled w serial port attempts delay).
Proof.
  unfold wait_tcpip_mode_enabled.
  repeat first [ apply fine_wait_loop | apply fine_get_adb_tcp_port | plain_step ].
Qed.

Lemma fine_switch_to_tcpip serial :
  plain w switch_events (sc_server_switch_to_tcpip w serial).
Proof.
  unfold sc_server_switch_to_tcpip, sc_adb_get_device_ip, sc_adb_tcpip.
  repeat first
    [ apply fine_append_port; reflexivity
    | apply fine_wait_tcpip_mode_enabled
    | apply fine_get_adb_tcp_port | plain_step ].
Qed.

Lemma fine_connect_to_tcpip ip_port :
  plain w switch_events (sc_server_connect_to_tcpip w ip_port).
Proof.
  unfold sc_server_connect_to_tcpip, sc_adb_disconnect, sc_adb_connect.
  plain_auto.
Qed.

Lemma fine_configure_known addr :
  plain w switch_events (sc_server_configure_tcpip_known_address w addr).
Proof.
  unfold sc_server_configure_tcpip_known_address.
  repeat first
    [ apply fine_append_port; reflexivity | apply fine_strdup; reflexivity
    | apply fine_connect_to_tcpip | plain_step ].
Qed.

Lemma fine_configure_unknown serial :
  plain w switch_events (sc_server_configure_tcpip_unknown_address w serial).
Proof.
  unfold sc_server_configure_tcpip_unknown_address.
  repeat first
    [ apply fine_switch_to_tcpip | apply fine_strdup; reflexivity
    | apply fine_connect_to_tcpip | plain_step ].
Qed.

Lemma fine_kill_adb : plain w kill_events (sc_server_kill_adb_if_requested w).
Proof.
  unfold sc_server_kill_adb_if_requested, sc_adb_kill_server. plain_auto.
Qed.

(** *** What the calls leave of the controller *)

Lemma with_serial_same srv : with_serial (serial srv) srv = srv.
Proof. now destruct srv. Qed.

Lemma with_tunnel_same srv : with_tunnel (tunnel srv) srv = srv.
Proof. now destruct srv. Qed.

(** Every run of [push_server] is one of [push_outcome], and leaves
    the controller as it was. *)
Lemma wp_push_server serial (Q : post bool) st :
  (forall r c' nb b' o,
     push_outcome w serial r o ->
     Q r {| clock := c'; next_block := nb;
            server := server st; bg := b' |} o) ->
  wp worker_event (push_server w serial) Q st.
Proof.
  intros H.
  unfold push_server, get_server_path, sc_file_is_regular, sc_adb_push.
  cbn [free]. wp_step.
  assert (E : match env_SCRCPY_SERVER_PATH w with
              | Some server_path_env => strdup_block w server_path_env
              | None => strdup_block w (SC_SERVER_PATH_DEFAULT w)
              end = strdup_block w (server_path w))
    by (unfold server_path; now destruct (env_SCRCPY_SERVER_PATH w)).
  rewrite E. clear E.
  unfold strdup_block. wp_step. apply wp_asprintf; intros _ b'.
  - repeat wp_go_step; cbn [app]; apply H; constructor.
  - repeat wp_go_step. cbn [app]. apply H. constructor.
Qed.

Lemma push_server_run serial st :
  push_outcome w serial (result (push_server w serial) st)
    (worker_events (push_server w serial) st) /\
  server (final (push_server w serial) st) = server st.
Proof.
  change (wp worker_event (push_server w serial)
            (fun r st' o => push_outcome w serial r o /\
                            server st' = server st) st).
  apply wp_push_server. intros r c' nb b' o Ho. now split.
Qed.

Lemma push_server_frame serial st :
  server (final (push_server w serial) st) = server st.
Proof. apply push_server_run. Qed.

(** [push_server] for a selection. *)
Lemma wp_push_server_sel phi serial (Q : post bool) st :
  quiet phi ->
  (forall r st' o,
     push_outcome w serial r o -> server st' = server st ->
     Q r st' (filter phi o)) ->
  wp phi (push_server w serial) Q st.
Proof.
  intros Hq H. unfold wp. rewrite (filter_quiet _ _ Hq).
  destruct (push_server_run serial st) as [Ho Hs]. now apply H.
Qed.

Lemma kill_adb_frame st :
  server (final (sc_server_kill_adb_if_requested w) st) = server st.
Proof.
  change (wp worker_event (sc_server_kill_adb_if_requested w)
            (fun _ st' _ => server st' = server st) st).
  unfold sc_server_kill_adb_if_requested, sc_adb_kill_server.
  repeat wp_go_step; reflexivity.
Qed.

Lemma asprintf_frame s st : server (final (asprintf w s) st) = server st.
Proof.
  change (wp worker_event (asprintf w s)
            (fun _ st' _ => server st' = server st) st).
  apply wp_asprintf; reflexivity.
Qed.

Lemma execute_server_frame p st :
  server (final (execute_server w p) st) = server st.
Proof.
  change (wp worker_event (execute_server w p)
            (fun _ st' _ => server st' = server st) st).
  apply wp_execute_server; reflexivity.
Qed.

Lemma connect_to_tcpip_frame ip_port st :
  server (final (sc_server_connect_to_tcpip w ip_port) st) = server st.
Proof.
  change (wp worker_event (sc_server_connect_to_tcpip w ip_port)
            (fun _ st' _ => server st' = server st) st).
  unfold sc_server_connect_to_tcpip, sc_adb_disconnect, sc_adb_connect.
  repeat wp_go_step; reflexivity.
Qed.

Lemma configure_known_frame addr st :
  serial_set st
    (result (sc_server_configure_tcpip_known_address w addr) st)
    (final (sc_server_configure_tcpip_known_address w addr) st).
Proof.
  change (wp worker_event (sc_server_configure_tcpip_known_address w addr)
            (fun r st' _ => serial_set st r st') st).
  unfold sc_server_configure_tcpip_known_address.
  wp_step.
  assert (H : forall m : M (option string),
    (forall Q st0, (forall res c' nb b' (o : list event),
        Q res {| clock := c'; next_block := nb;
                 server := server st0; bg := b' |} o) ->
      wp worker_event m Q st0) ->
    wp worker_event m
      (fun a st1 o1 =>
         wp worker_event
           match a with
           | Some ip_port =>
               update_server (with_serial (Some ip_port)) ;;
               sc_server_connect_to_tcpip w ip_port
           | None => ret false
           end
           (fun r st2 _ => serial_set st r st2) st1) st).
  { intros m Hm. apply Hm. intros res c' nb b' o.
    destruct res as [s|].
    - wp_step. wp_step.
      unfold wp, serial_set. cbv beta. rewrite connect_to_tcpip_frame.
      exists (Some s). split; reflexivity.
    - wp_step. exists (serial (server st)). cbn [server].
      split; [now rewrite with_serial_same | discriminate]. }
  destruct (strchr addr ":"); apply H; intros Q st0 HQ.
  - apply wp_strdup. intros; apply HQ.
  - apply wp_append_port. intros; apply HQ.
Qed.

Lemma configure_unknown_frame serial_ st :
  serial_set st
    (result (sc_server_configure_tcpip_unknown_address w serial_) st)
    (final (sc_server_configure_tcpip_unknown_address w serial_) st).
Proof.
  change (wp worker_event (sc_server_configure_tcpip_unknown_address w serial_)
            (fun r st' _ => serial_set st r st') st).
  unfold sc_server_configure_tcpip_unknown_address.
  destruct (sc_adb_device_get_type w serial_).
  - wp_step. apply wp_switch_to_tcpip. intros res c' nb b' o _.
    destruct res as [s|].
    + wp_step. wp_step.
      unfold wp, serial_set. cbv beta. rewrite connect_to_tcpip_frame.
      exists (Some s). split; reflexivity.
    + wp_step. exists (serial (server st)). cbn [server].
      split; [now rewrite with_serial_same | discriminate].
  - wp_step. apply wp_strdup. intros res c' nb b' o _.
    wp_step. wp_step. wp_norm.
    destruct res as [s|]; cbn [is_some negb]; wp_step.
    + exists (Some s). split; reflexivity.
    + exists None. split; [reflexivity | discriminate].
Qed.

Lemma tunnel_open_frame f st :
  tunnel_set st (result (sc_adb_tunnel_open w f) st)
    (final (sc_adb_tunnel_open w f) st).
Proof.
  change (wp worker_event (sc_adb_tunnel_open w f)
            (fun r st' _ => tunnel_set st r st') st).
  unfold sc_adb_tunnel_open.
  repeat wp_go_step.
  - eexists. split; [reflexivity|]. split; [reflexivity | discriminate].
  - exists (tunnel (server st)).
    split; [now rewrite with_tunnel_same|]. split; [discriminate | reflexivity].
Qed.

Lemma tunnel_close_frame st :
  server (final (sc_adb_tunnel_close w) st) =
  with_tunnel {| enabled := false; forward := forward (tunnel (server st));
                 server_socket := server_socket (tunnel (server st));
                 local_port := local_port (tunnel (server st)) |}
    (server st).
Proof.
  change (wp worker_event (sc_adb_tunnel_close w)
            (fun _ st' _ =>
               server st' =
               with_tunnel
                 {| enabled := false; forward := forward (tunnel (server st));
                    server_socket := server_socket (tunnel (server st));
                    local_port := local_port (tunnel (server st)) |}
                 (server st)) st).
  unfold sc_adb_tunnel_close. repeat wp_go_step. reflexivity.
Qed.

Lemma connect_to_established st :
  established st (final (sc_server_connect_to w) st).
Proof.
  destruct (connect_to_frame_run w st) as ((Hp & Hs & Hn & _) & _).
  destruct (connect_to_spec w st) as (He & _).
  repeat split; assumption.
Qed.

Lemma strdup_frame s st :
  server (final (strdup w s) st) = server st /\
  (forall x, result (strdup w s) st = Some x -> x = s).
Proof.
  change (wp worker_event (strdup w s)
            (fun r st' _ => server st' = server st /\
                            (forall x, r = Some x -> x = s)) st).
  apply wp_strdup. intros res c' nb b' o Ho. split; [reflexivity|].
  exact (alloc_outcome_result _ _ _ Ho).
Qed.

(** The tunnel events of the establishment: exactly one close, of the
    tunnel of the controller. *)
Lemma filter_tunnel_closes srv o :
  Forall (closes_tunnel_of srv) o ->
  filter tunnel_event o =
  repeat (EvAdbTunnelClose (serial srv) (device_socket_name srv))
    (tunnel_closes o).
Proof.
  unfold tunnel_closes.
  induction 1 as [|e o He _ IH]; [reflexivity|].
  destruct e; cbn in He |- *; try exact IH; try contradiction.
  destruct He as [-> ->]. now rewrite IH.
Qed.

Lemma quiet_tunnel_event : quiet tunnel_event.
Proof. split; reflexivity. Qed.

Lemma connect_to_tunnel_events st :
  enabled (tunnel (server st)) = true ->
  filter tunnel_event (events (sc_server_connect_to w) st) =
  [EvAdbTunnelClose (serial (server st)) (device_socket_name (server st))].
Proof.
  intros He. rewrite (filter_quiet _ _ quiet_tunnel_event).
  destruct (connect_to_frame_run w st) as (_ & _ & _ & _ & _ & Hc).
  destruct (connect_to_spec w st) as (_ & Hn & _).
  unfold worker_events in Hc.
  rewrite (filter_tunnel_closes _ _ Hc).
  unfold wp in Hn. now rewrite (Hn He).
Qed.

Lemma wp_connect_to_tunnel (Q : post bool) st :
  enabled (tunnel (server st)) = true ->
  (forall a st', established st st' ->
     Q a st' [EvAdbTunnelClose (serial (server st))
                (device_socket_name (server st))]) ->
  wp tunnel_event (sc_server_connect_to w) Q st.
Proof.
  intros He H. unfold wp. rewrite (connect_to_tunnel_events st He).
  apply H, connect_to_established.
Qed.

Lemma filter_alloc_events phi base l :
  (forall b s, phi (EvAsprintf (Some (b, s))) = false) ->
  filter phi (alloc_events base l) = [].
Proof.
  intros H. revert base. induction l as [|s l IH]; intros base; cbn;
    [reflexivity|]. now rewrite H, IH.
Qed.

Lemma filter_free_events phi base l :
  (forall q, phi (EvFree q) = false) ->
  filter phi (free_events base l) = [].
Proof.
  intros H. revert base. induction l as [|s l IH]; intros base; cbn;
    [reflexivity|]. now rewrite H, IH.
Qed.

(** [execute_server] for a selection that drops the allocations that
    succeed and the frees: either the process is spawned, and [pid] is
    what the spawn answers, or an allocation fails and nothing is
    spawned. *)
Lemma wp_execute_server_sel phi p (Q : post sc_pid) st :
  quiet phi ->
  (forall b s, phi (EvAsprintf (Some (b, s))) = false) ->
  (forall q, phi (EvFree q) = false) ->
  (forall pid st', server st' = server st ->
     Q pid st'
       (filter phi
          [EvAdbExecute
             (argv_of (execute_server_head w (serial (server st)) ++
                       alloc_entries (next_block st)
                         (server_params_list w
                            (forward (tunnel (server st))) p)
                       ++ [Null])) pid])) ->
  (forall st', server st' = server st ->
     Q SC_PROCESS_NONE st' (filter phi [EvAsprintf None])) ->
  wp phi (execute_server w p) Q st.
Proof.
  intros Hq Ha Hf Hok Hfail. unfold wp.
  rewrite (filter_quiet _ _ Hq).
  pose proof (execute_server_frame p st) as Hframe.
  destruct (execute_server_outcomes w p st) as [E|(k & _ & Hr & E)];
    rewrite E, !filter_app, filter_alloc_events, filter_free_events
      by assumption;
    rewrite app_nil_r; cbn [app].
  - now apply Hok.
  - rewrite Hr. now apply Hfail.
Qed.

Lemma when_call_frame c e st :
  server (final (when c (call w e)) st) = server st.
Proof.
  change (wp worker_event (when c (call w e))
            (fun _ st' _ => server st' = server st) st).
  destruct c; cbn [when]; repeat wp_go_step; reflexivity.
Qed.

(** The end of [sc_process_observer_join]: whether or not the hook runs
    there, a [quiet] selection sees nothing of it. *)
Lemma wp_join_hook phi (Q : post unit) st :
  quiet phi ->
  (forall b', Q tt (set_bg b' st) []) ->
  wp phi
    (if observer_attached (bg st) && negb (observer_fired (bg st))
     then modify (set_observer true true) ;; sc_server_on_terminated
     else ret tt) Q st.
Proof.
  intros [H1 H2] H.
  destruct (observer_attached (bg st) && negb (observer_fired (bg st))).
  - apply wp_bind, wp_modify, wp_on_terminated.
    cbn [filter]. rewrite H1, H2. apply H.
  - apply wp_ret. specialize (H (bg st)). destruct st; exact H.
Qed.

(** A call that is silent for the selection [phi] is summarized by what
    it leaves of the state. *)
Lemma wp_framed {A} phi allowed (m : M A) (R : A -> state -> Prop)
    (Q : post A) st :
  quiet phi ->
  plain w allowed m ->
  (forall e, allowed e = true -> phi e = false) ->
  R (result m st) (final m st) ->
  (forall a st', R a st' -> Q a st' []) ->
  wp phi m Q st.
Proof.
  intros Hq Hp Hd HR H. unfold wp.
  replace (filter phi (events m st)) with (@nil event); [now apply H|].
  rewrite (filter_quiet _ _ Hq).
  pose proof (plain_footprint w _ m Hp st) as F.
  induction F as [|e l He _ IH]; [reflexivity|].
  cbn [filter]. now rewrite (Hd e He).
Qed.

End FineFootprints.

(** The events allowed by a footprint are outside a selection. *)
Ltac silence :=
  let e := fresh "e" in
  let H := fresh "H" in
  intros e H; destruct e;
  try match goal with c : callback |- _ => destruct c end;
  first [ reflexivity | discriminate H ].

Ltac norm_frames :=
  repeat match goal with
         | H : context [server _] |- _ =>
             progress
               cbn [server after_call set_server set_bg set_observer
                    set_interrupted set_clock set_next_block
                    params serial device_socket_name tunnel
                    with_tunnel with_sockets with_device_name with_serial
                    with_device_socket_name] in H
         end.

(** A call of [run_server] that is silent for the selection whose
    [quiet] proof is [Hq]. *)
Ltac framed_call_at Hq :=
  lazymatch goal with
  | |- wp _ (push_server _ _) _ ?s0 =>
      eapply wp_framed
        with (allowed := path_events) (R := fun _ st' => server st' = server s0);
      [ exact Hq | apply fine_push_server | silence
      | apply push_server_frame | intros ?a ?st ?Hframe ]
  | |- wp _ (execute_server _ _) _ ?s0 =>
      eapply wp_framed
        with (allowed := of_kinds [KAllocator; KExecute])
             (R := fun _ st' => server st' = server s0);
      [ exact Hq | apply plain_execute_server | silence
      | apply execute_server_frame | intros ?a ?st ?Hframe ]
  | |- wp _ (strdup _ ?s) _ ?s0 =>
      eapply wp_framed
        with (allowed := of_kinds [KAllocator])
             (R := fun r st' => server st' = server s0 /\
                                forall x, r = Some x -> x = s);
      [ exact Hq
      | apply fine_strdup; reflexivity
      | silence
      | apply strdup_frame | intros ?a ?st [?Hframe ?Hcopy] ]
  | |- wp _ (when _ (call _ (EvNetInterrupt _))) _ ?s0 =>
      eapply wp_framed
        with (allowed := interrupt_events)
             (R := fun _ st' => server st' = server s0);
      [ exact Hq
      | apply plain_when; apply plain_call; reflexivity
      | silence
      | apply when_call_frame | intros ?a ?st ?Hframe ]
  | |- wp _ (asprintf _ _) _ ?s0 =>
      eapply wp_framed
        with (allowed := of_kinds [KAllocator])
             (R := fun _ st' => server st' = server s0);
      [ exact Hq | apply plain_asprintf | silence
      | apply asprintf_frame | intros ?a ?st ?Hframe ]
  | |- wp _ (sc_server_kill_adb_if_requested _) _ ?s0 =>
      eapply wp_framed
        with (allowed := kill_events)
             (R := fun _ st' => server st' = server s0);
      [ exact Hq | apply fine_kill_adb | silence
      | apply kill_adb_frame | intros ?a ?st ?Hframe ]
  | |- wp _ (sc_server_configure_tcpip_known_address _ _) _ ?s0 =>
      eapply wp_framed
        with (allowed := switch_events) (R := fun r st' => serial_set s0 r st');
      [ exact Hq | apply fine_configure_known | silence
      | apply configure_known_frame
      | intros ?a ?st [?s [?Hframe ?Hserial]] ]
  | |- wp _ (sc_server_configure_tcpip_unknown_address _ _) _ ?s0 =>
      eapply wp_framed
        with (allowed := switch_events) (R := fun r st' => serial_set s0 r st');
      [ exact Hq | apply fine_configure_unknown | silence
      | apply configure_unknown_frame
      | intros ?a ?st [?s [?Hframe ?Hserial]] ]
  | |- wp _ (sc_adb_tunnel_open _ _) _ ?s0 =>
      eapply wp_framed
        with (allowed := of_kinds [KTunnelOpen])
             (R := fun r st' => tunnel_set s0 r st');
      [ exact Hq | apply plain_sc_adb_tunnel_open | silence
      | apply tunnel_open_frame
      | intros ?a ?st [?t [?Hframe [?Hopen ?Hshut]]] ]
  | |- wp _ (sc_adb_tunnel_close _) _ ?s0 =>
      eapply wp_framed
        with (allowed := of_kinds [KTunnelClose])
             (R := fun _ st' =>
                     server st' =
                     with_tunnel
                       {| enabled := false;
                          forward := forward (tunnel (server s0));
                          server_socket := server_socket (tunnel (server s0));
                          local_port := local_port (tunnel (server s0)) |}
                       (server s0));
      [ exact Hq | apply plain_sc_adb_tunnel_close | silence
      | apply tunnel_close_frame | intros ?a ?st ?Hframe ]
  | |- wp _ (sc_server_connect_to _) _ ?s0 =>
      eapply wp_framed
        with (allowed := of_kinds connect_kinds)
             (R := fun _ st' => established s0 st');
      [ exact Hq | apply plain_sc_server_connect_to | silence
      | apply connect_to_established
      | intros ?a ?st [?Hparams [?Hserial [?Hname ?Hclosed]]] ]
  end.

Ltac framed_call Hq := framed_call_at Hq; norm_frames.

(** The controller of a state reached by such calls, in terms of the
    controller before them. *)
Ltac rewrite_frames :=
  repeat match goal with
         | H : server ?s = _ |- context [server ?s] => rewrite H
         | H : params (server ?s) = _ |- context [params (server ?s)] =>
             rewrite H
         | H : serial (server ?s) = _ |- context [serial (server ?s)] =>
             rewrite H
         | H : device_socket_name (server ?s) = _
           |- context [device_socket_name (server ?s)] => rewrite H
         end.

(** One step of the symbolic execution of [run_server] for a selection:
    [Hq] proves it [quiet], [compute_sel] computes it on an event. *)
Ltac sel_norm :=
  cbv beta zeta;
  cbn [is_some negb andb orb fst snd when filter app
       clock next_block server bg after_call set_server set_bg set_clock
       set_next_block set_observer set_interrupted
       tunnel params serial device_socket_name
       with_tunnel with_sockets with_device_name with_serial
       with_device_socket_name enabled forward server_socket local_port
       video_socket audio_socket control_socket info_device_name].

Ltac sel_step Hq compute_sel :=
  sel_norm; compute_sel; rewrite_frames; sel_norm;
  first
  [ wp_known
  | lazymatch goal with
    | |- wp _ (bind _ _) _ _ => apply wp_bind
    | |- wp _ (ret _) _ _ => apply wp_ret
    | |- wp _ get_state _ _ => apply wp_get_state
    | |- wp _ get_server _ _ => apply wp_get_server
    | |- wp _ (modify _) _ _ => apply wp_modify
    | |- wp _ (update_server _) _ _ => apply wp_update_server
    | |- wp _ (emit _) _ _ => apply wp_emit
    | |- wp _ (sc_server_on_terminated) _ _ => apply wp_on_terminated
    | |- wp _ (ext _ _ _) _ _ => apply wp_ext_quiet; [exact Hq | intros ?b]
    | |- wp _ (call _ _) _ _ => apply wp_call_quiet; [exact Hq | intros ?b]
    | |- wp _ (tick _ _) _ _ => apply wp_tick_quiet; [exact Hq | intros ?b]
    | |- wp _ (when _ (call _ (EvNetInterrupt _))) _ _ => framed_call Hq
    | |- wp _ (when _ _) _ _ => unfold when
    | |- wp _ (if observer_attached (bg ?s) && negb (observer_fired (bg ?s))
               then _ else _) _ _ =>
        apply wp_join_hook; [exact Hq | intros ?b]
    | |- wp _ (if ?c then _ else _) _ _ => destruct c eqn:?
    | |- wp _ (match ?c with _ => _ end) _ _ => destruct c eqn:?
    | |- wp _ _ _ _ => framed_call Hq
    end ].

(** The functions of [run_server] that only call outside. *)
Ltac unfold_run :=
  unfold run_server, run_server_connected, error_connection_failed,
    sc_adb_start_server, sc_adb_select_device, sc_process_wait,
    sc_process_close, sc_process_terminate, sc_process_observer_init,
    sc_process_observer_timedwait, sc_process_observer_join,
    sc_process_observer_destroy, wait_stopped, net_interrupt, cbs.

(** ** More on [run_server] *)

(** [execute_server] in a run, for a selection that keeps the spawn. *)
Ltac spawn_step Hq :=
  lazymatch goal with
  | |- wp _ (execute_server _ _) _ _ =>
      apply wp_execute_server_sel;
      [ exact Hq
      | intros; reflexivity
      | intros; reflexivity
      | intros ?pid ?st ?Hframe; norm_frames
      | intros ?st ?Hframe; norm_frames; unfold SC_PROCESS_NONE ]
  end.

(** [push_server] in a run, for a selection that keeps its calls. *)
Ltac push_step Hq :=
  lazymatch goal with
  | |- wp _ (push_server _ _) _ _ =>
      apply wp_push_server_sel;
      [ exact Hq
      | let H := fresh "Hpush" in
        intros ?r ?st ?o H ?Hframe; destruct H; norm_frames ]
  end.

(** The serial is known once a configuration has succeeded. *)
Ltac serial_known :=
  repeat match goal with
         | H : forall x, Some ?y = Some x -> x = _ |- _ =>
             specialize (H _ eq_refl); subst y
         end;
  repeat match goal with
         | Hs : ?a = true -> is_some ?s = true, Hn : negb ?a = false |- _ =>
             apply negb_false_iff in Hn; specialize (Hs Hn);
             destruct s; [|discriminate Hs]
         end.

(** The answers recorded on the way to a leaf. *)
Ltac tidy_answers :=
  repeat match goal with
         | H : negb _ = false |- _ => apply negb_false_iff in H
         | H : negb _ = true |- _ => apply negb_true_iff in H
         end;
  repeat match goal with
         | H : is_some ?x = false |- _ =>
             is_var x; destruct x; [discriminate H | clear H]
         end;
  repeat match goal with
         | H : ?x = true |- _ => is_var x; subst x
         | H : ?x = false |- _ => is_var x; subst x
         end;
  repeat match goal with
         | H : ?t = true |- context [?t] => rewrite H
         | H : ?t = false |- context [?t] => rewrite H
         end.

(** A leaf of such a proof: one of the patterns of the statement. *)
Ltac solve_pattern :=
  tidy_answers;
  let rec go :=
    lazymatch goal with
    | |- _ /\ _ => split; [|solve [go]]; solve [go]
    | |- _ \/ _ => first [ solve [left; go] | solve [right; go] ]
    | |- exists _, _ => eexists; go
    | |- _ => first [ reflexivity | assumption | congruence ]
    end in
  solve [go].

Section RunServerMore.

Variable w : world.

Lemma quiet_kill_or_callback : quiet kill_or_callback.
Proof. split; reflexivity. Qed.

Lemma run_server_kill_wp st :
  wp kill_or_callback (run_server w)
    (fun r _ o =>
       let p := params (server st) in
       (r = (-1)%Z /\
        o = (if kill_adb_on_close p then [kill_adb] else []) ++
            [EvCallback on_connection_failed]) \/
       (r = 0%Z /\ list_query p = true /\ o = [EvCallback on_connected]) \/
       (r = 0%Z /\ list_query p = false /\
        o = [EvCallback on_connected] ++
            (if kill_adb_on_close p then [kill_adb] else []))) st.
Proof.
  unfold_run. unfold sc_server_kill_adb_if_requested, sc_adb_kill_server.
  unfold list_query. cbv zeta.
  destruct (kill_adb_on_close (params (server st))) eqn:Hkill;
  destruct (list_encoders (params (server st))
            || list_displays (params (server st))
            || list_cameras (params (server st))) eqn:Hquery.
  all: repeat sel_step quiet_kill_or_callback
         ltac:(cbn [filter app kill_or_callback]).
  all: unfold kill_adb;
    first [ left; split; reflexivity
          | right; left; repeat split; reflexivity
          | right; right; repeat split; reflexivity ].
Qed.

(** The adb server is killed only when [kill_adb_on_close] is set, and
    then at most once: before [on_connection_failed] when the run fails,
    and as the last step of a run that succeeds, except for a list query,
    which returns right after [on_connected]. *)
Theorem run_server_kills_adb_when_asked (st : state) :
  let p := params (server st) in
  let r := result (run_server w) st in
  let o := filter kill_or_callback (events (run_server w) st) in
  (r = (-1)%Z /\
   o = (if kill_adb_on_close p then [kill_adb] else []) ++
       [EvCallback on_connection_failed]) \/
  (r = 0%Z /\ list_query p = true /\ o = [EvCallback on_connected]) \/
  (r = 0%Z /\ list_query p = false /\
   o = [EvCallback on_connected] ++
       (if kill_adb_on_close p then [kill_adb] else [])).
Proof. exact (run_server_kill_wp st). Qed.

Lemma quiet_start_or_select : quiet start_or_select.
Proof. split; reflexivity. Qed.

Lemma run_server_select_wp st :
  wp start_or_select (run_server w)
    (fun _ _ o =>
       let p := params (server st) in
       o = [EvAdbStartServer] \/
       exists sel,
         o = [EvAdbStartServer; EvAdbSelectDevice sel] /\
         tcpip_dst p = None /\
         match req_serial p with
         | Some s => sel = SC_ADB_DEVICE_SELECT_SERIAL s
         | None =>
             if select_usb p then sel = SC_ADB_DEVICE_SELECT_USB
             else if select_tcpip p then sel = SC_ADB_DEVICE_SELECT_TCPIP
             else match env_ANDROID_SERIAL w with
                  | Some s => sel = SC_ADB_DEVICE_SELECT_SERIAL s
                  | None => sel = SC_ADB_DEVICE_SELECT_ALL
                  end
         end) st.
Proof.
  unfold_run. cbv zeta.
  destruct (tcpip_dst (params (server st))) eqn:Hdst.
  all: repeat sel_step quiet_start_or_select
         ltac:(cbn [filter app start_or_select]).
  all: first
         [ left; reflexivity
         | right; eexists; split; [reflexivity|]; split; [reflexivity|];
           destruct (req_serial (params (server st))); [reflexivity|];
           destruct (select_usb (params (server st))); [reflexivity|];
           destruct (select_tcpip (params (server st))); [reflexivity|];
           destruct (env_ANDROID_SERIAL w); reflexivity ].
Qed.

(** The adb server is started exactly once, before anything else.  A
    device is selected at most once, after that, and never when a
    destination address is given; a requested serial comes before
    [select_usb], [select_usb] before [select_tcpip], and the variable
    [ANDROID_SERIAL] is consulted only when none of them is set. *)
Theorem run_server_selects_device_once (st : state) :
  let p := params (server st) in
  let o := filter start_or_select (events (run_server w) st) in
  hd_error (worker_events (run_server w) st) = Some EvAdbStartServer /\
  (o = [EvAdbStartServer] \/
   exists sel,
     o = [EvAdbStartServer; EvAdbSelectDevice sel] /\
     tcpip_dst p = None /\
     match req_serial p with
     | Some s => sel = SC_ADB_DEVICE_SELECT_SERIAL s
     | None =>
         if select_usb p then sel = SC_ADB_DEVICE_SELECT_USB
         else if select_tcpip p then sel = SC_ADB_DEVICE_SELECT_TCPIP
         else match env_ANDROID_SERIAL w with
              | Some s => sel = SC_ADB_DEVICE_SELECT_SERIAL s
              | None => sel = SC_ADB_DEVICE_SELECT_ALL
              end
     end).
Proof.
  split; [|exact (run_server_select_wp st)].
  change (wp worker_event (run_server w)
            (fun _ _ o => hd_error o = Some EvAdbStartServer) st).
  unfold run_server, sc_adb_start_server.
  wp_step. wp_step. wp_step. wp_step.
  unfold wp. reflexivity.
Qed.

Lemma quiet_observer_event : quiet observer_event.
Proof. split; reflexivity. Qed.

(** The process observer is initialized at most once, never for a list
    query, right after a spawn that answered a process and for that
    process.  When the initialization fails nothing else is called on
    the observer and the run fails.  When it succeeds the observer is
    joined and then destroyed before the worker returns, also when the
    connection fails; the timed wait belongs to the runs that return 0. *)
Theorem run_server_joins_observer (st : state) :
  let p := params (server st) in
  let r := result (run_server w) st in
  let o := filter observer_event (events (run_server w) st) in
  (r = (-1)%Z /\
   (o = [] \/ exists argv, o = [EvAdbExecute argv SC_PROCESS_NONE])) \/
  exists argv pid,
    is_some pid = true /\
    ((list_query p = true /\ r = 0%Z /\ o = [EvAdbExecute argv pid]) \/
     (list_query p = false /\ r = (-1)%Z /\
      o = [EvAdbExecute argv pid; EvObserverInit pid false]) \/
     (list_query p = false /\ r = (-1)%Z /\
      o = [EvAdbExecute argv pid; EvObserverInit pid true;
           EvObserverJoin; EvObserverDestroy]) \/
     (list_query p = false /\ r = 0%Z /\
      o = [EvAdbExecute argv pid; EvObserverInit pid true;
           EvObserverTimedwait; EvObserverJoin; EvObserverDestroy])).
Proof.
  cbv zeta.
  change (wp observer_event (run_server w)
            (fun r _ o =>
               (r = (-1)%Z /\
                (o = [] \/
                 exists argv, o = [EvAdbExecute argv SC_PROCESS_NONE])) \/
               exists argv pid,
                 is_some pid = true /\
                 ((list_query (params (server st)) = true /\ r = 0%Z /\
                   o = [EvAdbExecute argv pid]) \/
                  (list_query (params (server st)) = false /\ r = (-1)%Z /\
                   o = [EvAdbExecute argv pid; EvObserverInit pid false]) \/
                  (list_query (params (server st)) = false /\ r = (-1)%Z /\
                   o = [EvAdbExecute argv pid; EvObserverInit pid true;
                        EvObserverJoin; EvObserverDestroy]) \/
                  (list_query (params (server st)) = false /\ r = 0%Z /\
                   o = [EvAdbExecute argv pid; EvObserverInit pid true;
                        EvObserverTimedwait; EvObserverJoin;
                        EvObserverDestroy]))) st).
  unfold_run. unfold list_query.
  destruct (list_encoders (params (server st))
            || list_displays (params (server st))
            || list_cameras (params (server st))) eqn:Hquery.
  all: repeat first
         [ spawn_step quiet_observer_event
         | sel_step quiet_observer_event
             ltac:(cbn [filter app observer_event of_kinds kind_of existsb
                        event_kind_eqb orb]) ].
  all: unfold SC_PROCESS_NONE; solve_pattern.
Qed.

Lemma quiet_process_event : quiet process_event.
Proof. split; reflexivity. Qed.

(** At most one remote process is spawned, and nothing is called on a
    process before the spawn or when the spawn answers no process.  A
    list query waits for its process and closes it.  Otherwise a run
    that fails after the spawn of a process terminates that process and
    waits for it, and a run that succeeds closes it, as its last call on
    it, after at most one request to terminate it. *)
Theorem run_server_reaps_the_process (st : state) :
  let p := params (server st) in
  let r := result (run_server w) st in
  let o := filter process_event (events (run_server w) st) in
  (r = (-1)%Z /\
   (o = [] \/ exists argv, o = [EvAdbExecute argv SC_PROCESS_NONE])) \/
  exists argv pid,
    is_some pid = true /\
    ((list_query p = true /\ r = 0%Z /\
      o = [EvAdbExecute argv pid; EvProcessWait pid; EvProcessClose pid]) \/
     (list_query p = false /\ r = (-1)%Z /\
      o = [EvAdbExecute argv pid; EvProcessTerminate pid;
           EvProcessWait pid]) \/
     (list_query p = false /\ r = 0%Z /\
      (o = [EvAdbExecute argv pid; EvProcessClose pid] \/
       o = [EvAdbExecute argv pid; EvProcessTerminate pid;
            EvProcessClose pid]))).
Proof.
  cbv zeta.
  change (wp process_event (run_server w)
            (fun r _ o =>
               (r = (-1)%Z /\
                (o = [] \/
                 exists argv, o = [EvAdbExecute argv SC_PROCESS_NONE])) \/
               exists argv pid,
                 is_some pid = true /\
                 ((list_query (params (server st)) = true /\ r = 0%Z /\
                   o = [EvAdbExecute argv pid; EvProcessWait pid;
                        EvProcessClose pid]) \/
                  (list_query (params (server st)) = false /\ r = (-1)%Z /\
                   o = [EvAdbExecute argv pid; EvProcessTerminate pid;
                        EvProcessWait pid]) \/
                  (list_query (params (server st)) = false /\ r = 0%Z /\
                   (o = [EvAdbExecute argv pid; EvProcessClose pid] \/
                    o = [EvAdbExecute argv pid; EvProcessTerminate pid;
                         EvProcessClose pid])))) st).
  unfold_run. unfold list_query.
  destruct (list_encoders (params (server st))
            || list_displays (params (server st))
            || list_cameras (params (server st))) eqn:Hquery.
  all: repeat first
         [ spawn_step quiet_process_event
         | sel_step quiet_process_event
             ltac:(cbn [filter app process_event of_kinds kind_of existsb
                        event_kind_eqb orb]) ].
  all: unfold SC_PROCESS_NONE; solve_pattern.
Qed.

(** The tunnel is opened at most once.  A run that does not open it,
    or whose opening fails, leaves the tunnel as it was, and a failed
    opening fails the run.  An opening that succeeds is followed by
    exactly one close, for the same serial and socket name, whatever
    happens next, and the worker returns with the tunnel disabled. *)
Theorem run_server_closes_the_tunnel (st : state) :
  let r := result (run_server w) st in
  let st' := final (run_server w) st in
  let o := filter tunnel_event (events (run_server w) st) in
  (o = [] /\ tunnel (server st') = tunnel (server st)) \/
  exists s n,
    (o = [EvAdbTunnelOpen s n false] /\ r = (-1)%Z /\
     tunnel (server st') = tunnel (server st)) \/
    (o = [EvAdbTunnelOpen s n true; EvAdbTunnelClose s n] /\
     enabled (tunnel (server st')) = false).
Proof.
  cbv zeta.
  change (wp tunnel_event (run_server w)
            (fun r st' o =>
               (o = [] /\ tunnel (server st') = tunnel (server st)) \/
               exists s n,
                 (o = [EvAdbTunnelOpen s n false] /\ r = (-1)%Z /\
                  tunnel (server st') = tunnel (server st)) \/
                 (o = [EvAdbTunnelOpen s n true; EvAdbTunnelClose s n] /\
                  enabled (tunnel (server st')) = false)) st).
  unfold_run. unfold sc_adb_tunnel_open, sc_adb_tunnel_close.
  all: repeat first
         [ apply wp_connect_to_tunnel;
           [ sel_norm; rewrite_frames; sel_norm; reflexivity
           | intros ?a ?st [?Hparams [?Hserial [?Hname ?Hclosed]]];
             norm_frames ]
         | sel_step quiet_tunnel_event
             ltac:(cbn [filter app tunnel_event of_kinds kind_of existsb
                        event_kind_eqb orb]) ].
  all: sel_norm; rewrite_frames; sel_norm.
  all: solve_pattern.
Qed.

Lemma quiet_push_or_execute : quiet push_or_execute.
Proof. split; reflexivity. Qed.

(** The server file is pushed only when its path, given by
    [SCRCPY_SERVER_PATH] or else that of the installed file, is found to
    be a regular file, and always to the same path of the device; a run
    whose file is not regular or whose push fails fails without doing
    more; the remote process is spawned only after a push that
    succeeded, for the serial the file was pushed to, with that remote
    path as its class path. *)
Theorem run_server_pushes_before_executing (st : state) :
  let r := result (run_server w) st in
  let o := filter push_or_execute (events (run_server w) st) in
  let path := server_path w in
  (r = (-1)%Z /\
   (o = [] \/ o = [EvFileIsRegular path false] \/
    exists s,
      o = [EvFileIsRegular path true;
           EvAdbPush s path SC_DEVICE_SERVER_PATH false])) \/
  exists s,
    (r = (-1)%Z /\
     o = [EvFileIsRegular path true;
          EvAdbPush s path SC_DEVICE_SERVER_PATH true]) \/
    exists argv pid,
      o = [EvFileIsRegular path true;
           EvAdbPush s path SC_DEVICE_SERVER_PATH true;
           EvAdbExecute argv pid] /\
      firstn 9 argv =
        [ adb_executable w; "-s"; s; "shell";
          "CLASSPATH=" +++ SC_DEVICE_SERVER_PATH; "app_process"; "/";
          "com.genymobile.scrcpy.Server"; SCRCPY_VERSION w ].
Proof.
  cbv zeta.
  change (wp push_or_execute (run_server w)
            (fun r _ o =>
               (r = (-1)%Z /\
                (o = [] \/ o = [EvFileIsRegular (server_path w) false] \/
                 exists s,
                   o = [EvFileIsRegular (server_path w) true;
                        EvAdbPush s (server_path w) SC_DEVICE_SERVER_PATH
                          false])) \/
               exists s,
                 (r = (-1)%Z /\
                  o = [EvFileIsRegular (server_path w) true;
                       EvAdbPush s (server_path w) SC_DEVICE_SERVER_PATH
                         true]) \/
                 exists argv pid,
                   o = [EvFileIsRegular (server_path w) true;
                        EvAdbPush s (server_path w) SC_DEVICE_SERVER_PATH
                          true;
                        EvAdbExecute argv pid] /\
                   firstn 9 argv =
                     [ adb_executable w; "-s"; s; "shell";
                       "CLASSPATH=" +++ SC_DEVICE_SERVER_PATH; "app_process";
                       "/"; "com.genymobile.scrcpy.Server";
                       SCRCPY_VERSION w ]) st).
  unfold_run.
  all: repeat first
         [ spawn_step quiet_push_or_execute
         | push_step quiet_push_or_execute
         | sel_step quiet_push_or_execute
             ltac:(cbn [filter app push_or_execute]) ].
  all: serial_known; tidy_answers.
  all: first
         [ solve_pattern
         | right; eexists; right; do 2 eexists; split; [reflexivity|];
           rewrite argv_of_app_static;
           [ reflexivity
           | unfold execute_server_head; repeat constructor; discriminate ] ].
Qed.

End RunServerMore.

(** ** The copy of the parameters: facts *)

Section ParamsCopyFacts.

Import ParamsCopy.

Variable w : world.

Lemma wp_free (p : str) (Q : post unit) st :
  (forall c' b',
     Q tt {| clock := c'; next_block := next_block st;
             server := server st; bg := b' |} (free_events_of [p])) ->
  wp worker_event (free w p) Q st.
Proof.
  intros H. destruct p as [[b s]|]; cbn [free].
  - apply wp_call_quiet; [exact quiet_worker_event|]. intros b'. apply H.
  - apply wp_ret. specialize (H (clock st) (bg st)). destruct st; exact H.
Qed.

Lemma free_events_of_cons p l :
  free_events_of (p :: l) = free_events_of [p] ++ free_events_of l.
Proof. unfold free_events_of. cbn [flat_map]. now rewrite app_nil_r. Qed.

Lemma free_events_of_app l1 l2 :
  free_events_of (l1 ++ l2) = free_events_of l1 ++ free_events_of l2.
Proof. apply flat_map_app. Qed.

Lemma wp_destroy (p : strings) (Q : post unit) st :
  (forall c' b',
     Q tt {| clock := c'; next_block := next_block st;
             server := server st; bg := b' |} (free_events_of (fields p))) ->
  wp worker_event (sc_server_params_destroy w p) Q st.
Proof.
  intros H. unfold sc_server_params_destroy.
  repeat (apply wp_bind; apply wp_free; intros ?c ?b; cbn [next_block server]).
  apply wp_free. intros c' b'. cbn [next_block server].
  specialize (H c' b'). unfold fields in H.
  rewrite !(free_events_of_cons _ (_ :: _)) in H. exact H.
Qed.

Lemma wp_strdup_str (s : string) (Q : post str) st :
  (forall c' b',
     Q (Some (next_block st, s))
       {| clock := c'; next_block := S (next_block st);
          server := server st; bg := b' |}
       [EvAsprintf (Some (next_block st, s))]) ->
  (forall c' b',
     Q None {| clock := c'; next_block := next_block st;
               server := server st; bg := b' |} [EvAsprintf None]) ->
  wp worker_event (strdup w s) Q st.
Proof.
  intros Hok Hfail. unfold strdup.
  apply wp_bind, wp_asprintf; intros _ b'; apply wp_ret;
    rewrite app_nil_r; [apply Hok | apply Hfail].
Qed.

(** One [COPY]: the field is copied in a fresh block if it is not
    [NULL], or the copy fails and the field is [NULL]. *)
Lemma wp_COPY field set src dst (Q : post (bool * strings)) st :
  (forall v u p, set v (set u p) = set v p) ->
  (forall c' b',
     Q (true, set (copied (next_block st) (field src)) dst)
       {| clock := c'; next_block := bump (next_block st) (field src);
          server := server st; bg := b' |}
       (copy_events (next_block st) (field src))) ->
  (forall c' b', field src <> None ->
     Q (false, set None dst)
       {| clock := c'; next_block := next_block st;
          server := server st; bg := b' |} [EvAsprintf None]) ->
  wp worker_event (COPY w field set src dst) Q st.
Proof.
  intros Hset Hok Hfail. unfold COPY. cbv zeta.
  destruct (field src) as [[b s]|] eqn:E.
  - apply wp_bind, wp_strdup_str; intros c' b'; cbn [is_some];
      apply wp_ret; rewrite app_nil_r, Hset.
    + apply (Hok c' b').
    + apply Hfail. discriminate.
  - apply wp_ret. specialize (Hok (clock st) (bg st)).
    cbn [copied bump copy_events] in Hok. destruct st; exact Hok.
Qed.

Lemma wp_and_then (a : M (bool * strings)) (k : strings -> M (bool * strings))
    (Q : post (bool * strings)) st :
  wp worker_event a
    (fun r st1 o1 =>
       if fst r
       then wp worker_event (k (snd r)) (fun r2 st2 o2 => Q r2 st2 (o1 ++ o2)) st1
       else Q r st1 o1) st ->
  wp worker_event (and_then a k) Q st.
Proof.
  intros H. unfold and_then. apply wp_bind.
  eapply wp_conseq; [exact H|]. cbv beta. intros [ok r] st' o Hr.
  cbn [fst snd] in *. destruct ok; [exact Hr|].
  apply wp_ret. now rewrite app_nil_r.
Qed.

Ltac copy_field :=
  first [ apply wp_and_then | idtac ];
  apply wp_COPY;
  [ reflexivity
  | intros ?c ?b; cbn [fst snd next_block server]
  | intros ?c ?b ?Hsome; cbn [fst snd next_block server] ].

Ltac copy_failed k :=
  apply wp_bind, wp_destroy; intros ?c ?b; apply wp_ret;
  split; [reflexivity|];
  right; exists k;
  split; [lia|]; split; [assumption|]; split; [reflexivity|];
  split; [reflexivity|];
  cbn [copies_events firstn fields app];
  rewrite ?app_nil_r, <- ?app_assoc; reflexivity.

Lemma copy_run src st :
  wp worker_event (sc_server_params_copy w src)
    (fun r _ o => copy_outcome src (next_block st) r o) st.
Proof.
  unfold sc_server_params_copy. cbv zeta. apply wp_bind.
  copy_field; [|copy_failed 0].
  copy_field; [|copy_failed 1].
  copy_field; [|copy_failed 2].
  copy_field; [|copy_failed 3].
  copy_field; [|copy_failed 4].
  copy_field; [|copy_failed 5].
  copy_field; [|copy_failed 6].
  apply wp_ret. split; [reflexivity|].
  left. split; [reflexivity|]. split; [reflexivity|].
  cbn [copies_events fields]. rewrite ?app_nil_r, <- ?app_assoc. reflexivity.
Qed.

Lemma content_copies l : forall nb,
  map content (copies nb l) = map content l.
Proof.
  induction l as [|[[b s]|] l IH]; intros nb; cbn; now rewrite ?IH.
Qed.

Lemma blocks_app l1 l2 : blocks (l1 ++ l2) = blocks l1 ++ blocks l2.
Proof. apply flat_map_app. Qed.

Lemma allocated_copies_events l : forall nb,
  allocated (copies_events nb l) = blocks (copies nb l).
Proof.
  induction l as [|[[b s]|] l IH]; intros nb; cbn; now rewrite ?IH.
Qed.

Lemma freed_copies_events l : forall nb, freed (copies_events nb l) = [].
Proof.
  induction l as [|[[b s]|] l IH]; intros nb; cbn; now rewrite ?IH.
Qed.

Lemma freed_free_events_of l : freed (free_events_of l) = blocks l.
Proof.
  induction l as [|[[b s]|] l IH]; [reflexivity| |exact IH].
  change (b :: freed (free_events_of l) = b :: blocks l). now rewrite IH.
Qed.

Lemma allocated_free_events_of l : allocated (free_events_of l) = [].
Proof. induction l as [|[[b s]|] l IH]; [reflexivity|exact IH|exact IH]. Qed.

Lemma blocks_copies_fresh l : forall nb b,
  In b (blocks (copies nb l)) -> nb <= b.
Proof.
  induction l as [|[[b0 s]|] l IH]; intros nb b; cbn; [tauto| |apply IH].
  intros [<-|H]; [lia|]. apply IH in H. lia.
Qed.

Lemma blocks_copies_NoDup l : forall nb, NoDup (blocks (copies nb l)).
Proof.
  induction l as [|[[b0 s]|] l IH]; intros nb; cbn;
    [constructor| |apply IH].
  constructor; [|apply IH].
  intros H. apply blocks_copies_fresh in H. lia.
Qed.

(** When [sc_server_params_copy] succeeds, each of the seven strings
    it copies that is not [NULL] has a copy of the same content in a
    block of its own, obtained during the call; a [NULL] stays [NULL];
    nothing is freed.  The string [camera_id] is not among them: the
    destination keeps the pointer of the source. *)
Theorem params_copy_duplicates_every_string (src : strings) (st : state) :
  let m := sc_server_params_copy w src in
  fst (result m st) = true ->
  let dst := snd (result m st) in
  map content (fields dst) = map content (fields src) /\
  blocks (fields dst) = allocated (events m st) /\
  NoDup (allocated (events m st)) /\
  (forall b, In b (allocated (events m st)) -> next_block st <= b) /\
  freed (events m st) = [] /\
  camera_id dst = camera_id src.
Proof.
  intros m Hr dst. subst m dst.
  rewrite <- allocated_worker, <- freed_worker.
  destruct (copy_run src st)
    as [Hc [(_ & Hf & Ho)|(k & _ & _ & Hk & _)]]; [|congruence].
  unfold result in Hf. fold (result (sc_server_params_copy w src) st) in Hf.
  rewrite Hf, Ho, allocated_copies_events, freed_copies_events.
  split; [apply content_copies|]. split; [reflexivity|].
  split; [apply blocks_copies_NoDup|]. split; [|split; [reflexivity|]].
  - intros b. apply blocks_copies_fresh.
  - exact Hc.
Qed.

(** When the copy of a field fails, [sc_server_params_copy] answers
    [false] and destroys the destination as it is at that point.  It
    frees every copy made so far, once; and, since the destination was
    first assigned from the source, it also frees the strings of the
    source itself in the fields that follow the one that failed. *)
Theorem params_copy_failure_frees (src : strings) (st : state) :
  let m := sc_server_params_copy w src in
  fst (result m st) = false ->
  exists k,
    k < 7 /\ nth k (fields src) None <> None /\
    In (EvAsprintf None) (events m st) /\
    NoDup (allocated (events m st)) /\
    freed (events m st) =
      allocated (events m st) ++ blocks (skipn (S k) (fields src)).
Proof.
  intros m Hr. subst m.
  destruct (copy_run src st)
    as [_ [(Hk & _)|(k & Hk & Hn & _ & Hf & Ho)]]; [congruence|].
  exists k. split; [exact Hk|]. split; [exact Hn|].
  rewrite <- allocated_worker, <- freed_worker.
  rewrite <- (in_worker (EvAsprintf None)) by reflexivity.
  unfold result in Hf. fold (result (sc_server_params_copy w src) st) in Hf.
  rewrite Ho, Hf.
  rewrite !allocated_app, !freed_app, allocated_copies_events,
    freed_copies_events, freed_free_events_of, allocated_free_events_of,
    !blocks_app.
  cbn [allocated freed blocks flat_map app]. rewrite !app_nil_r.
  split; [apply in_or_app; right; now left|].
  split; [apply blocks_copies_NoDup | reflexivity].
Qed.

End ParamsCopyFacts.

Section ParamsCopyWitnesses.

Import ParamsCopy.

Example copy_source_copied :
  result (sc_server_params_copy cooperative_world copy_source)
    (initial_state default_params) =
  (true, {| req_serial := Some (0, "A1B2C3");
            crop := None;
            video_codec_options := Some (1, "profile=1");
            audio_codec_options := None;
            video_encoder := Some (2, "OMX.qcom.video.encoder.avc");
            audio_encoder := None;
            camera_id := Some (104, "0");
            tcpip_dst := Some (3, "192.168.1.7") |}).
Proof. vm_compute. reflexivity. Qed.

Example copy_source_failure :
  worker_events (sc_server_params_copy world_second_alloc_fails copy_source)
    (initial_state default_params) =
  [EvAsprintf (Some (0, "A1B2C3")); EvAsprintf None;
   EvFree 0; EvFree 102; EvFree 103].
Proof. vm_compute. reflexivity. Qed.

Lemma params_copy_duplicates_every_string_witness :
  let m := sc_server_params_copy cooperative_world copy_source in
  let st := initial_state default_params in
  fst (result m st) = true /\
  map content (fields (snd (result m st))) = map content (fields copy_source) /\
  blocks (fields (snd (result m st))) = allocated (events m st) /\
  NoDup (allocated (events m st)) /\
  (forall b, In b (allocated (events m st)) -> next_block st <= b) /\
  freed (events m st) = [] /\
  camera_id (snd (result m st)) = camera_id copy_source.
Proof.
  split; [vm_compute; reflexivity|].
  apply (params_copy_duplicates_every_string cooperative_world copy_source
           (initial_state default_params)).
  vm_compute; reflexivity.
Defined.

Lemma params_copy_failure_frees_witness :
  let m := sc_server_params_copy world_second_alloc_fails copy_source in
  let st := initial_state default_params in
  fst (result m st) = false /\
  exists k,
    k < 7 /\ nth k (fields copy_source) None <> None /\
    In (EvAsprintf None) (events m st) /\
    NoDup (allocated (events m st)) /\
    freed (events m st) =
      allocated (events m st) ++ blocks (skipn (S k) (fields copy_source)).
Proof.
  split; [vm_compute; reflexivity|].
  apply (params_copy_failure_frees world_second_alloc_fails copy_source
           (initial_state default_params)).
  vm_compute; reflexivity.
Defined.

End ParamsCopyWitnesses.

(** ** The remote socket name in a run *)

Section SocketNameRun.

Variable w : world.





End SocketNameRun.

(** ** The socket name at a concrete input *)

(** The default run on a cooperative device: the tunnel is opened under
    the name made of the session id, and the process is spawned. *)
Example default_run_opens_tunnel :
  filter open_or_execute
    (events (run_server cooperative_world) (initial_state default_params))
  = [ EvAdbTunnelOpen (Some "A1B2C3") (Some "scrcpy_0a1b2c3d") true;
      EvAdbExecute
        [ "adb"; "-s"; "A1B2C3"; "shell";
          "CLASSPATH=/data/local/tmp/scrcpy-server.jar"; "app_process"; "/";
          "com.genymobile.scrcpy.Server"; "2.2";
          "scid=0a1b2c3d"; "log_level=info" ] (Some 42%Z) ] /\
  result (run_server cooperative_world) (initial_state default_params)
  = 0%Z /\
  device_socket_name
    (server (final (run_server cooperative_world)
               (initial_state default_params)))
  = Some "scrcpy_0a1b2c3d".
Proof. repeat split; vm_compute; reflexivity. Qed.


(** ** More on [push_server] *)

Section PushServerFacts.

Variable w : world.

(** [push_server] allocates the path of the server file once.  When
    that fails nothing else is done.  Otherwise the path is checked, the
    file is pushed only when the path is a regular file, for the serial
    given and to [SC_DEVICE_SERVER_PATH], and the path is freed exactly
    once on both ways out.  The result is the answer of the push, and
    [false] when nothing was pushed; the controller is left as it was. *)
Theorem push_server_frees_its_path (serial : string) (st : state) :
  push_outcome w serial (result (push_server w serial) st)
    (worker_events (push_server w serial) st) /\
  freed (worker_events (push_server w serial) st) =
    allocated (worker_events (push_server w serial) st) /\
  server (final (push_server w serial) st) = server st.
Proof.
  destruct (push_server_run w serial st) as [Ho Hs].
  split; [exact Ho|]. split; [|exact Hs].
  revert Ho.
  generalize (result (push_server w serial) st)
    (worker_events (push_server w serial) st).
  intros r o Ho. destruct Ho; reflexivity.
Qed.

End PushServerFacts.

(** A server file that is not a regular file: nothing is pushed and the
    path is freed. *)
Example push_server_not_regular :
  worker_events
    (push_server (with_answers (fun t => Nat.eqb t 0) (fun _ => None)
                    (fun _ => None) cooperative_world) "A1B2C3")
    (initial_state default_params)
  = [ EvAsprintf (Some (0, "/usr/local/share/scrcpy/scrcpy-server"));
      EvFileIsRegular "/usr/local/share/scrcpy/scrcpy-server" false;
      EvFree 0 ].
Proof. vm_compute. reflexivity. Qed.
